(** * EdgeSummon: the session store, the classifier, the context builder and
      the turn orchestrator, embedded from the TypeScript sources

    - [JS]              the JavaScript primitives the sources rely on
                        (String.prototype.trim / endsWith / substring,
                        Array.prototype.slice, parseInt, Number::toString,
                        truthiness, RegExp test and replace);
    - [TextExtraction]  isURL, isLikelyContentToSummarize and
                        extractTextFromHTML (textExtraction.ts);
    - [TextExtractionIO] fetchURL and fetchAndExtractText (textExtraction.ts);
    - [ChatRoomDO]      the durable object holding one session log (chatRoomDO.ts);
    - [LlmClient]       prompt builders and the generation calls (llmClient.ts);
    - [Worker]          determineMessageType, appendEntry, getRecentEntries and
                        processMessage (worker.ts);
    - [Http]            the fetch handler, handleChatAPI, CORS and the static
                        assets (worker.ts).

    Strings are JavaScript strings restricted to code units 0..255: one [ascii]
    per UTF-16 code unit.  The clock, the durable storage, the page fetcher and
    the model behind [ai.run] are environment oracles. *)

From Stdlib Require Import List String Ascii ZArith Lia Bool Arith Sorted.
From Stdlib Require DecimalString DecimalNat.
Import ListNotations.

Local Open Scope list_scope.

(* ================================================================== *)
(** * JavaScript primitives *)
(* ================================================================== *)

Module JS.

(** WhiteSpace and LineTerminator code units below 256: TAB, LF, VT, FF, CR,
    SPACE and NO-BREAK SPACE.  These are what [trim] and [parseInt] strip. *)
Definition isWhiteSpace (c : ascii) : bool :=
  existsb (Ascii.eqb c)
    ["009"; "010"; "011"; "012"; "013"; " "; "160"]%char.

Fixpoint trimStartL (l : list ascii) : list ascii :=
  match l with
  | [] => []
  | c :: l' => if isWhiteSpace c then trimStartL l' else l
  end.

Definition trimEndL (l : list ascii) : list ascii :=
  rev (trimStartL (rev l)).

(** String.prototype.trim *)
Definition trim (s : string) : string :=
  string_of_list_ascii (trimEndL (trimStartL (list_ascii_of_string s))).

Fixpoint startsWithL (p l : list ascii) : bool :=
  match p with
  | [] => true
  | a :: p' =>
      match l with
      | [] => false
      | b :: l' => Ascii.eqb a b && startsWithL p' l'
      end
  end.

(** String.prototype.endsWith *)
Definition endsWith (s suffix : string) : bool :=
  startsWithL (rev (list_ascii_of_string suffix)) (rev (list_ascii_of_string s)).

(** s.substring(0, n) for a non-negative integer n *)
Definition substring0 (n : nat) (s : string) : string :=
  String.substring 0 n s.

(** Truthiness of a string value: only the empty string is falsy. *)
Definition truthy (s : string) : bool :=
  negb (String.eqb s EmptyString).

(** Truthiness of a property that may be absent (undefined is falsy). *)
Definition truthyOpt (o : option string) : bool :=
  match o with
  | None => false
  | Some s => truthy s
  end.

(** Canonicalisation used by the [i] flag without the [u] flag: code units
    are compared after upper-casing, and a code unit of 128 or more never
    folds onto one below 128, so on patterns made of ASCII letters only the
    two cases of that letter match. *)
Definition isAsciiUpper (c : ascii) : bool :=
  let n := N_of_ascii c in ((65 <=? n) && (n <=? 90))%N.

Definition toLowerAscii (c : ascii) : ascii :=
  if isAsciiUpper c then ascii_of_N (N_of_ascii c + 32) else c.

Definition eqb_ci (a b : ascii) : bool :=
  Ascii.eqb (toLowerAscii a) (toLowerAscii b).

(** The fragment of regular expressions the sources use at the start of a
    string: a sequence of literal code units, some of them optional. *)
Inductive PatItem : Type :=
  | Lit (c : ascii)
  | Opt (c : ascii).

(** [/^pat/i.test(l)]: the optional item is tried first, then skipped. *)
Fixpoint testPrefix_ci (pat : list PatItem) (l : list ascii) : bool :=
  match pat with
  | [] => true
  | Lit c :: pat' =>
      match l with
      | [] => false
      | x :: l' => eqb_ci x c && testPrefix_ci pat' l'
      end
  | Opt c :: pat' =>
      match l with
      | [] => testPrefix_ci pat' l
      | x :: l' =>
          (eqb_ci x c && testPrefix_ci pat' l') || testPrefix_ci pat' l
      end
  end.

(** [(s.match(/[cls]/g) || []).length]: the number of code units of [s] in
    the character class. *)
Definition countMatches (cls : ascii -> bool) (s : string) : nat :=
  List.length (filter cls (list_ascii_of_string s)).

(** Array.prototype.slice(start) with one argument.  [None] is NaN, which
    ToIntegerOrInfinity turns into 0; a negative start counts from the end
    and is clamped at 0; a start beyond the length gives the empty array. *)
Definition slice {A : Type} (start : option Z) (l : list A) : list A :=
  let len := Z.of_nat (List.length l) in
  let relativeStart := match start with None => 0%Z | Some z => z end in
  let k := if (relativeStart <? 0)%Z
           then Z.max (len + relativeStart) 0
           else Z.min relativeStart len in
  skipn (Z.to_nat k) l.

(** Unary minus on a number that may be NaN. *)
Definition neg (x : option Z) : option Z := option_map Z.opp x.

Definition isDigit (c : ascii) : bool :=
  let n := N_of_ascii c in ((48 <=? n) && (n <=? 57))%N.

Definition digitVal (c : ascii) : Z := Z.of_N (N_of_ascii c) - 48.

Fixpoint parseDigits (l : list ascii) (acc : Z) (seen : bool) : option Z :=
  match l with
  | [] => if seen then Some acc else None
  | c :: l' =>
      if isDigit c then parseDigits l' (10 * acc + digitVal c)%Z true
      else if seen then Some acc else None
  end.

(** parseInt(s, 10): leading white space is skipped, one sign is accepted,
    the longest run of decimal digits is read; no digit at all gives NaN. *)
Definition parseInt (s : string) : option Z :=
  match trimStartL (list_ascii_of_string s) with
  | "-"%char :: l => option_map Z.opp (parseDigits l 0 false)
  | "+"%char :: l => parseDigits l 0 false
  | l => parseDigits l 0 false
  end.

(** String.prototype.toLowerCase on code units below 256: the letters A-Z
    and the capital letters of Latin-1, 0xC0 to 0xDE without the
    multiplication sign 0xD7. *)
Definition toLowerCaseChar (c : ascii) : ascii :=
  let n := N_of_ascii c in
  if (((65 <=? n) && (n <=? 90))
      || ((192 <=? n) && (n <=? 222) && negb (n =? 215)))%N
  then ascii_of_N (n + 32)
  else c.

Definition toLowerCase (s : string) : string :=
  string_of_list_ascii (map toLowerCaseChar (list_ascii_of_string s)).

(** String.prototype.includes *)
Fixpoint includesL (sub l : list ascii) : bool :=
  startsWithL sub l
  || match l with
     | [] => false
     | _ :: l' => includesL sub l'
     end.

Definition includes (s sub : string) : bool :=
  includesL (list_ascii_of_string sub) (list_ascii_of_string s).

Fixpoint takeUntil (sep : ascii) (l : list ascii) : list ascii :=
  match l with
  | [] => []
  | c :: l' => if Ascii.eqb c sep then [] else c :: takeUntil sep l'
  end.

(** [s.split(sep).pop()]: the text after the last separator, the whole
    string when it has none. *)
Definition lastSegment (sep : ascii) (s : string) : string :=
  string_of_list_ascii (rev (takeUntil sep (rev (list_ascii_of_string s)))).

(** The decimal digits of a non-negative integer. *)
Definition decimal (z : Z) : string :=
  DecimalString.NilEmpty.string_of_uint (N.to_uint (Z.to_N z)).

(** The Number nearest to the positive integer [v]: [v] itself up to 53
    bits, otherwise its 53 leading bits rounded to nearest, ties to even. *)
Definition roundToDouble (v : Z) : Z :=
  let bits := (Z.log2 v + 1)%Z in
  if (bits <=? 53)%Z then v
  else
    let shift := (bits - 53)%Z in
    let q := Z.shiftr v shift in
    let r := (v - Z.shiftl q shift)%Z in
    let half := Z.shiftl 1 (shift - 1) in
    let q' := if (half <? r)%Z || ((r =? half)%Z && Z.odd q)
              then (q + 1)%Z else q in
    Z.shiftl q' shift.

(** Number::toString, step 5: for the Number [z] of [d] decimal digits, the
    [k] digits [s] and the exponent [e] such that [s * 10^(e+1-k)] is read
    back as [z], with [k] as small as possible; of two such [s] the one
    nearest to [z], and of two equally near the even one.  [fuel] counts the
    values of [k] still to try. *)
Fixpoint shortestDigits (fuel : nat) (z d k : Z) : Z * Z * Z :=
  match fuel with
  | 0 => (z, d, (d - 1)%Z)
  | S fuel' =>
      let p := (10 ^ (d - k))%Z in
      let lo := (z / p)%Z in
      let hi := (lo + 1)%Z in
      let okLo := (roundToDouble (lo * p) =? z)%Z in
      let okHi := (roundToDouble (hi * p) =? z)%Z in
      let dLo := (z - lo * p)%Z in
      let dHi := (hi * p - z)%Z in
      let pickHi := okHi && (negb okLo || (dHi <? dLo)%Z
                             || ((dHi =? dLo)%Z && Z.even hi)) in
      if okLo || okHi then
        if pickHi then
          if (hi =? 10 ^ k)%Z then (1%Z, 1%Z, d) else (hi, k, (d - 1)%Z)
        else (lo, k, (d - 1)%Z)
      else shortestDigits fuel' z d (k + 1)%Z
  end.

Fixpoint zeros (n : nat) : string :=
  match n with
  | 0 => EmptyString
  | S n' => String "0" (zeros n')
  end.

(** Number::toString, steps 6 to 10, for an integer: the digits followed by
    zeros while the exponent is below 21, the exponent notation from 10^21
    on. *)
Definition renderDigits (s k e : Z) : string :=
  if (e <? 21)%Z then (decimal s ++ zeros (Z.to_nat (e + 1 - k)))%string
  else
    match decimal s with
    | String c rest =>
        if (k =? 1)%Z then (String c "e+" ++ decimal e)%string
        else (String c (String "." rest) ++ "e+" ++ decimal e)%string
    | EmptyString => EmptyString
    end.

(** Number::toString for an integer Number [z] from 2^53 on, where not
    every integer is a Number: the shortest digits that are read back as
    [z]. *)
Definition largeNumberToString (z : Z) : string :=
  let d := Z.of_nat (String.length (decimal z)) in
  let '(s, k, e) := shortestDigits (Z.to_nat d) z d 1 in
  renderDigits s k e.

(** String(n), also [`${n}`], for a non-negative integer [n] that is a
    Number: every integer below 2^53 is one and is written with its own
    digits. *)
Definition numberToString (n : nat) : string :=
  if (Z.of_nat n <? 2 ^ 53)%Z
  then DecimalString.NilEmpty.string_of_uint (Nat.to_uint n)
  else largeNumberToString (Z.of_nat n).

Fixpoint startsWith_ci (p l : list ascii) : bool :=
  match p with
  | [] => true
  | a :: p' =>
      match l with
      | [] => false
      | b :: l' => eqb_ci b a && startsWith_ci p' l'
      end
  end.

Fixpoint indexOfChar (c : ascii) (l : list ascii) : option nat :=
  match l with
  | [] => None
  | x :: l' => if Ascii.eqb x c then Some 0 else option_map S (indexOfChar c l')
  end.

(** The first position of [l] from which [test] holds. *)
Fixpoint indexOfBy (test : list ascii -> bool) (l : list ascii) : option nat :=
  match l with
  | [] => if test [] then Some 0 else None
  | _ :: l' => if test l then Some 0 else option_map S (indexOfBy test l')
  end.

(** The length of the longest prefix made of code units satisfying [f]. *)
Fixpoint spanLength (f : ascii -> bool) (l : list ascii) : nat :=
  match l with
  | [] => 0
  | c :: l' => if f c then S (spanLength f l') else 0
  end.

(** The last position of [c] among the first [n] code units of [l]. *)
Fixpoint lastIndexWithin (c : ascii) (n : nat) (l : list ascii) : option nat :=
  match n, l with
  | S n', x :: l' =>
      match lastIndexWithin c n' l' with
      | Some i => Some (S i)
      | None => if Ascii.eqb x c then Some 0 else None
      end
  | _, _ => None
  end.

(** [s.replace(re, rep)] for a global regular expression whose matches are
    never empty: [matchAt l] is the length of the match of [re] starting at
    the head of [l], if there is one.  The scan goes from left to right; a
    match is replaced by [rep] and the scan resumes after it ([skip] counts
    the code units of the current match still to drop). *)
Fixpoint replaceAll (matchAt : list ascii -> option nat) (rep : list ascii)
  (l : list ascii) (skip : nat) : list ascii :=
  match l with
  | [] => []
  | c :: l' =>
      match skip with
      | S k => replaceAll matchAt rep l' k
      | 0 =>
          match matchAt l with
          | Some (S m) => rep ++ replaceAll matchAt rep l' m
          | _ => c :: replaceAll matchAt rep l' 0
          end
      end
  end.

Definition replace (matchAt : list ascii -> option nat) (rep : list ascii)
  (l : list ascii) : list ascii :=
  replaceAll matchAt rep l 0.

End JS.

(* ================================================================== *)
(** * textExtraction.ts: the two predicates of the classifier *)
(* ================================================================== *)

Module TextExtraction.

(** [/^https?:\/\//i] *)
Definition urlPattern : list JS.PatItem :=
  [JS.Lit "h"; JS.Lit "t"; JS.Lit "t"; JS.Lit "p"; JS.Opt "s";
   JS.Lit ":"; JS.Lit "/"; JS.Lit "/"]%char.

Definition isURL (text : string) : bool :=
  JS.testPrefix_ci urlPattern (list_ascii_of_string (JS.trim text)).

(** The character class [[.!?]] *)
Definition sentenceEnding (c : ascii) : bool :=
  Ascii.eqb c "." || Ascii.eqb c "!" || Ascii.eqb c "?".

Definition isLikelyContentToSummarize (text : string) : bool :=
  let trimmed := JS.trim text in
  if JS.endsWith trimmed "?" then false
  else if 200 <? String.length trimmed then true
  else
    let sentenceEndings := JS.countMatches sentenceEnding trimmed in
    if 3 <=? sentenceEndings then true
    else false.

(* ---- extractTextFromHTML ---- *)

Definition MAX_CONTENT_LENGTH : Z := 50000.

Definition EXCLUDED_TAGS : list string :=
  ["script"; "style"; "noscript"; "iframe"; "svg"; "canvas"; "video";
   "audio"; "head"; "meta"; "link"]%string.

(** [new RegExp(`<${tag}[^>]*>.*?</${tag}>`, "gis")] at the head of [l]: the
    opening tag runs to the first [>], the block to the first closing tag
    after it, letters in either case. *)
Definition matchBlock (tag : string) (l : list ascii) : option nat :=
  let t := list_ascii_of_string tag in
  let closing := ("<" :: "/" :: t ++ [">"])%char in
  match l with
  | "<"%char :: l1 =>
      if JS.startsWith_ci t l1 then
        let l2 := skipn (List.length t) l1 in
        match JS.indexOfChar ">" l2 with
        | Some i =>
            let l3 := skipn (S i) l2 in
            match JS.indexOfBy (JS.startsWith_ci closing) l3 with
            | Some j => Some (1 + List.length t + S i + j + List.length closing)
            | None => None
            end
        | None => None
        end
      else None
  | _ => None
  end.

(** [/<!--.*?-->/gs] at the head of [l] *)
Definition matchComment (l : list ascii) : option nat :=
  if JS.startsWithL ["<"; "!"; "-"; "-"]%char l then
    match JS.indexOfBy (JS.startsWithL ["-"; "-"; ">"]%char) (skipn 4 l) with
    | Some j => Some (4 + j + 3)
    | None => None
    end
  else None.

(** [/<[^>]+>/g] at the head of [l]: at least one code unit between the
    brackets. *)
Definition matchTag (l : list ascii) : option nat :=
  match l with
  | "<"%char :: l1 =>
      match JS.indexOfChar ">" l1 with
      | Some (S i) => Some (S i + 2)
      | _ => None
      end
  | _ => None
  end.

(** A literal pattern such as [/&amp;/g] at the head of [l] *)
Definition matchLiteral (lit : string) (l : list ascii) : option nat :=
  if JS.startsWithL (list_ascii_of_string lit) l
  then Some (String.length lit)
  else None.

(** [/\s+/g] at the head of [l] *)
Definition matchSpaces (l : list ascii) : option nat :=
  match JS.spanLength JS.isWhiteSpace l with
  | 0 => None
  | n => Some n
  end.

(** [/\n\s*\n/g] at the head of [l]: from a line feed to the last line feed
    of the white space that follows it. *)
Definition matchBlankLines (l : list ascii) : option nat :=
  match l with
  | "010"%char :: l1 =>
      match JS.lastIndexWithin "010" (JS.spanLength JS.isWhiteSpace l1) l1 with
      | Some k => Some (k + 2)
      | None => None
      end
  | _ => None
  end.

(** The entities decoded, in the order of the source. *)
Definition ENTITIES : list (string * list ascii) :=
  [("&nbsp;"%string, [" "%char]); ("&amp;"%string, ["&"%char]);
   ("&lt;"%string, ["<"%char]); ("&gt;"%string, [">"%char]);
   ("&quot;"%string, ["034"%char]); ("&#39;"%string, ["'"%char]);
   ("&apos;"%string, ["'"%char])].

Definition truncationMarker : string :=
  String "010" (String "010" "[Content truncated due to length...]").

Definition removeExcluded (text : list ascii) : list ascii :=
  fold_left (fun text tag => JS.replace (matchBlock tag) [" "%char] text)
            EXCLUDED_TAGS text.

Definition removeComments (text : list ascii) : list ascii :=
  JS.replace matchComment [" "%char] text.

Definition removeTags (text : list ascii) : list ascii :=
  JS.replace matchTag [" "%char] text.

Definition decodeEntities (text : list ascii) : list ascii :=
  fold_left (fun text e => JS.replace (matchLiteral (fst e)) (snd e) text)
            ENTITIES text.

Definition collapseSpaces (text : list ascii) : list ascii :=
  JS.replace matchSpaces [" "%char] text.

Definition collapseBlankLines (text : list ascii) : list ascii :=
  JS.replace matchBlankLines ["010"; "010"]%char text.

Definition truncate (text : string) : string :=
  if (MAX_CONTENT_LENGTH <? Z.of_nat (String.length text))%Z
  then (JS.substring0 (Z.to_nat MAX_CONTENT_LENGTH) text ++ truncationMarker)%string
  else text.

Definition extractTextFromHTML (html : string) : string :=
  let text := list_ascii_of_string html in
  let text := removeExcluded text in
  let text := removeComments text in
  let text := removeTags text in
  let text := decodeEntities text in
  let text := collapseSpaces text in
  let text := collapseBlankLines text in
  let text := JS.trim (string_of_list_ascii text) in
  truncate text.

End TextExtraction.

(* ================================================================== *)
(** * chatRoomDO.ts: the exported interface and the stored record *)
(* ================================================================== *)

Module ChatRoomDO.

Inductive Role : Type := user | assistant | system.

(** The [type] tag of an entry. *)
Inductive EntryType : Type := url_summary | raw_summary | followup | question.

Definition Role_eqb (a b : Role) : bool :=
  match a, b with
  | user, user | assistant, assistant | system, system => true
  | _, _ => false
  end.

(** interface ConversationEntry *)
Record ConversationEntry : Type := {
  role : Role;
  content : string;
  type : option EntryType;
  url : option string;
  createdAt : string
}.

(** The body of an /append request once parsed: the same object before the
    handler has validated it, so [role], [content] and [createdAt] may be
    absent. *)
Record EntryJSON : Type := {
  j_role : option Role;
  j_content : option string;
  j_type : option EntryType;
  j_url : option string;
  j_createdAt : option string
}.

(** JSON.stringify followed by request.json() *)
Definition toJSON (e : ConversationEntry) : EntryJSON :=
  {| j_role := Some (role e);
     j_content := Some (content e);
     j_type := type e;
     j_url := url e;
     j_createdAt := Some (createdAt e) |}.

(** interface StoredState *)
Record StoredState : Type := {
  s_entries : list ConversationEntry;
  s_createdAt : string;
  s_lastAccessedAt : string
}.

(** The private fields of class ChatRoomDurableObject; [storage] is the
    record under the key "state" of [this.state.storage]. *)
Record Instance : Type := {
  entries : list ConversationEntry;
  doCreatedAt : string;
  lastAccessedAt : string;
  storage : option StoredState
}.

Inductive Method : Type := GET | POST.

Record Request : Type := {
  method : Method;
  pathname : string;
  limitParam : option string;      (* url.searchParams.get("limit") *)
  json : option EntryJSON          (* None: the body does not parse *)
}.

Inductive ResponseBody : Type :=
  | AppendOk (entryCount : nat)
  | RecentOk (recentEntries : list ConversationEntry)
  | ClearOk
  | StatsOk (entryCount : nat) (created lastAccessed : string)
  | ErrorBody (error : string)
  | TextBody (text : string).

Record Response : Type := {
  status : nat;
  body : ResponseBody
}.

(** response.ok *)
Definition ok (r : Response) : bool :=
  (200 <=? status r) && (status r <=? 299).

End ChatRoomDO.

(* ================================================================== *)
(** * The environment and the monad of asynchronous code *)
(* ================================================================== *)

Module Runtime.

Import ChatRoomDO.

(** What [ai.run] may produce. *)
Inductive AiResponse : Type :=
  | RespString (s : string)
  | RespObject (response : string)
  | RespOther
  | RespRejects.

Inductive Outcome (A : Type) : Type :=
  | Return (a : A)
  | Throw (message : string).
Arguments Return {A} a.
Arguments Throw {A} message.

(** The collaborators, indexed by the number of effects performed so far. *)
Record Oracles : Type := {
  now : nat -> string;                                  (* new Date().toISOString() *)
  put_ok : nat -> bool;                                 (* storage.put completes *)
  fetchAndExtractText : nat -> string -> Outcome string;
  ai_run : nat -> string -> AiResponse
}.

(** Calls made to the collaborators, kept for the statements only: nothing
    in the code reads the trace. *)
Inductive Event : Type :=
  | EvExtract (url : string)
  | EvGenerateSummary (text : string) (url : option string)
  | EvAnswerFollowup (question : string) (context : list ConversationEntry)
  | EvAiRun (prompt : string).

Record World : Type := {
  dobj : Instance;
  tick : nat;
  trace : list Event
}.

Definition M (A : Type) : Type := World -> Outcome A * World.

Definition ret {A} (a : A) : M A := fun w => (Return a, w).

Definition bind {A B} (m : M A) (k : A -> M B) : M B :=
  fun w =>
    match m w with
    | (Return a, w') => k a w'
    | (Throw msg, w') => (Throw msg, w')
    end.

Definition throw {A} (msg : string) : M A := fun w => (Throw msg, w).

(** try { body } catch (error) { handler(error.message) } *)
Definition tryCatch {A} (body : M A) (handler : string -> M A) : M A :=
  fun w =>
    match body w with
    | (Return a, w') => (Return a, w')
    | (Throw msg, w') => handler msg w'
    end.

Definition getDO : M Instance := fun w => (Return (dobj w), w).

Definition setDO (d : Instance) : M unit :=
  fun w => (Return tt, {| dobj := d; tick := tick w; trace := trace w |}).

Definition step (w : World) : World :=
  {| dobj := dobj w; tick := S (tick w); trace := trace w |}.

Definition emit (e : Event) : M unit :=
  fun w => (Return tt,
            {| dobj := dobj w; tick := tick w; trace := trace w ++ [e] |}).

End Runtime.

Declare Scope js_scope.
Delimit Scope js_scope with js.
Notation "x <- m ;; k" := (Runtime.bind m (fun x => k))
  (at level 61, m at next level, right associativity) : js_scope.
Notation "m ;;; k" := (Runtime.bind m (fun _ => k))
  (at level 61, right associativity) : js_scope.

(* ================================================================== *)
(** * textExtraction.ts: fetchURL and fetchAndExtractText *)
(* ================================================================== *)

Module TextExtractionIO.

Import Runtime.
Local Open Scope string_scope.

(** What fetchURL reads of the Response: its status line, its content-type
    header and the outcome of [response.text()]. *)
Record FetchResponse : Type := {
  status : nat;
  statusText : string;
  contentType : option string;
  text : Outcome string
}.

(** The platform: [new URL(url).protocol], which raises on a string that is
    not a URL, and [fetch] with its ten seconds' timeout, which raises on a
    network error or when the time is out. *)
Record Network : Type := {
  protocolOf : string -> Outcome string;
  httpFetch : nat -> string -> Outcome FetchResponse
}.

(** response.ok *)
Definition ok (r : FetchResponse) : bool :=
  (200 <=? status r)%nat && (status r <=? 299)%nat.

(** The body of the [try] of fetchURL. *)
Definition fetchURLBody (net : Network) (n : nat) (url : string)
  : Outcome string :=
  match protocolOf net url with
  | Throw m => Throw m
  | Return protocol =>
      if negb (String.eqb protocol "http:" || String.eqb protocol "https:")
      then Throw "Invalid URL protocol. Only HTTP and HTTPS are supported."
      else
        match httpFetch net n url with
        | Throw m => Throw m
        | Return response =>
            if negb (ok response)
            then Throw ("Failed to fetch URL: "
                        ++ JS.numberToString (status response) ++ " "
                        ++ statusText response)
            else
              let contentType :=
                if JS.truthyOpt (contentType response)
                then match contentType response with
                     | Some c => c
                     | None => ""
                     end
                else "" in
              if negb (JS.includes contentType "text/html")
                 && negb (JS.includes contentType "application/xhtml")
              then Throw "URL does not return HTML content"
              else text response
        end
  end.

(** fetchURL: whatever is raised in the [try] is raised again under the
    prefix of the [catch]; every error the platform raises is an Error. *)
Definition fetchURL (net : Network) (n : nat) (url : string) : Outcome string :=
  match fetchURLBody net n url with
  | Return html => Return html
  | Throw m => Throw ("Failed to fetch URL: " ++ m)
  end.

Definition fetchAndExtractText (net : Network) (n : nat) (url : string)
  : Outcome string :=
  match fetchURL net n url with
  | Return html => Return (TextExtraction.extractTextFromHTML html)
  | Throw m => Throw m
  end.

(** The worker's environment with fetchAndExtractText running on [net]. *)
Definition withNetwork (net : Network) (env : Oracles) : Oracles :=
  {| now := now env;
     put_ok := put_ok env;
     Runtime.fetchAndExtractText := fetchAndExtractText net;
     ai_run := ai_run env |}.

End TextExtractionIO.

(* ================================================================== *)
(** * chatRoomDO.ts: class ChatRoomDurableObject *)
(* ================================================================== *)

Module ChatRoomDurableObject.

Import ChatRoomDO Runtime.
Local Open Scope js_scope.

Section Handlers.

Variable env : Oracles.

(** new Date().toISOString() *)
Definition nowISO : M string :=
  fun w => (Return (now env (tick w)), step w).

(** this.state.storage.put("state", s): either the record is replaced, or the
    write does not complete and the call rejects. *)
Definition storagePut (s : StoredState) : M unit :=
  fun w =>
    if put_ok env (tick w)
    then (Return tt,
          step {| dobj := {| entries := entries (dobj w);
                             doCreatedAt := doCreatedAt (dobj w);
                             lastAccessedAt := lastAccessedAt (dobj w);
                             storage := Some s |};
                  tick := tick w; trace := trace w |})
    else (Throw "storage.put failed", step w).

(** The constructor together with the load it runs under
    blockConcurrencyWhile; [t] is the clock reading of the constructor. *)
Definition construct (t : string) (stored : option StoredState) : Instance :=
  match stored with
  | Some s =>
      {| entries := s_entries s;
         doCreatedAt := if JS.truthy (s_createdAt s) then s_createdAt s else t;
         lastAccessedAt :=
           if JS.truthy (s_lastAccessedAt s) then s_lastAccessedAt s else t;
         storage := stored |}
  | None =>
      {| entries := []; doCreatedAt := t; lastAccessedAt := t; storage := None |}
  end.

Definition setEntries (es : list ConversationEntry) : M unit :=
  d <- getDO ;;
  setDO {| entries := es; doCreatedAt := doCreatedAt d;
           lastAccessedAt := lastAccessedAt d; storage := storage d |}.

Definition setLastAccessedAt (t : string) : M unit :=
  d <- getDO ;;
  setDO {| entries := entries d; doCreatedAt := doCreatedAt d;
           lastAccessedAt := t; storage := storage d |}.

Definition saveState : M unit :=
  d <- getDO ;;
  storagePut {| s_entries := entries d;
                s_createdAt := doCreatedAt d;
                s_lastAccessedAt := lastAccessedAt d |}.

Definition jsonResponse (st : nat) (b : ResponseBody) : Response :=
  {| status := st; body := b |}.

(** request.json<ConversationEntry>() *)
Definition requestJson (request : Request) : M EntryJSON :=
  match json request with
  | Some e => ret e
  | None => throw "Unexpected end of JSON input"
  end.

Definition invalidEntry : Response :=
  jsonResponse 400 (ErrorBody "Invalid entry: role and content are required").

(** handleAppend.  The test [!entry.role || !entry.content] is the first two
    levels of the match: an absent role, an absent content and the empty
    content all take the 400 exit. *)
Definition handleAppend (request : Request) : M Response :=
  match method request with
  | GET => ret (jsonResponse 405 (TextBody "Method not allowed"))
  | POST =>
      entry <- requestJson request ;;
      match j_role entry, j_content entry with
      | Some r, Some c =>
          if negb (JS.truthy c) then ret invalidEntry
          else
            stamp <- (if negb (JS.truthyOpt (j_createdAt entry))
                      then nowISO
                      else ret (match j_createdAt entry with
                                | Some t => t
                                | None => EmptyString
                                end)) ;;
            d <- getDO ;;
            setEntries (entries d ++
                        [{| role := r; content := c; type := j_type entry;
                            url := j_url entry; createdAt := stamp |}]) ;;;
            t <- nowISO ;;
            setLastAccessedAt t ;;;
            saveState ;;;
            d' <- getDO ;;
            ret (jsonResponse 200 (AppendOk (List.length (entries d'))))
      | _, _ => ret invalidEntry
      end
  end.

(** handleGetRecent: [parseInt(url.searchParams.get("limit") || "10", 10)] *)
Definition handleGetRecent (request : Request) : M Response :=
  let limit :=
    JS.parseInt (if JS.truthyOpt (limitParam request)
                 then match limitParam request with
                      | Some s => s
                      | None => "10"
                      end
                 else "10") in
  t <- nowISO ;;
  setLastAccessedAt t ;;;
  saveState ;;;
  d <- getDO ;;
  let recentEntries := JS.slice (JS.neg limit) (entries d) in
  ret (jsonResponse 200 (RecentOk recentEntries)).

Definition handleClear : M Response :=
  setEntries [] ;;;
  t <- nowISO ;;
  setLastAccessedAt t ;;;
  saveState ;;;
  ret (jsonResponse 200 ClearOk).

Definition handleGetStats : M Response :=
  d <- getDO ;;
  ret (jsonResponse 200
         (StatsOk (List.length (entries d)) (doCreatedAt d) (lastAccessedAt d))).

(** fetch: the router and its catch-all *)
Definition fetch (request : Request) : M Response :=
  tryCatch
    (if String.eqb (pathname request) "/append" then handleAppend request
     else if String.eqb (pathname request) "/recent" then handleGetRecent request
     else if String.eqb (pathname request) "/clear" then handleClear
     else if String.eqb (pathname request) "/stats" then handleGetStats
     else ret (jsonResponse 404 (TextBody "Not found")))
    (fun _ => ret (jsonResponse 500 (ErrorBody "Internal server error"))).

End Handlers.

End ChatRoomDurableObject.

(* ================================================================== *)
(** * llmClient.ts *)
(* ================================================================== *)

Module LlmClient.

Import ChatRoomDO Runtime.
Local Open Scope string_scope.
Local Open Scope js_scope.

Definition nl : string := String "010" EmptyString.

Definition MAX_CONTEXT_LENGTH : nat := 3000.

Inductive Mode : Type := ModeSummary | ModeFollowup.

(** interface LLMOptions; maxTokens and temperature are read by no
    function. *)
Record LLMOptions : Type := {
  mode : Mode;
  conversationContext : option (list ConversationEntry)
}.

Definition buildSummaryPrompt (text : string) (url : option string) : string :=
  let urlContext :=
    match url with
    | Some u => if JS.truthy u then "Source URL: " ++ u ++ nl ++ nl else ""
    | None => ""
    end in
  "You are EdgeSummon, an AI assistant that summarizes web content and documents."
  ++ nl ++ nl
  ++ "Task: Provide a clear, concise summary of the following content."
  ++ nl ++ nl
  ++ urlContext ++ "Content to summarize:" ++ nl
  ++ text ++ nl ++ nl
  ++ "Provide a well-structured summary with key points. Use bullet points or short paragraphs as appropriate.".

(** One iteration of the [for ... of recentContext] loop: the new value of
    [contextText]. *)
Definition followupLoopBody (contextText : string) (entry : ConversationEntry)
  : string :=
  match role entry with
  | user =>
      match type entry, url entry with
      | Some url_summary, Some u =>
          if JS.truthy u
          then contextText ++ "User submitted URL: " ++ u ++ nl
          else contextText ++ "User: " ++ JS.substring0 200 (content entry)
               ++ (if (200 <? String.length (content entry))%nat then "..." else "")
               ++ nl
      | _, _ =>
          contextText ++ "User: " ++ JS.substring0 200 (content entry)
          ++ (if (200 <? String.length (content entry))%nat then "..." else "")
          ++ nl
      end
  | assistant =>
      contextText ++ "Assistant: " ++ JS.substring0 300 (content entry)
      ++ (if (300 <? String.length (content entry))%nat then "..." else "")
      ++ nl
  | system => contextText
  end.

(** The [contextText] accumulated by buildFollowupPrompt. *)
Definition followupContextText (context : list ConversationEntry) : string :=
  let recentContext := JS.slice (Some (-5)%Z) context in
  fold_left followupLoopBody recentContext "".

Definition buildFollowupPrompt (question : string)
  (context : list ConversationEntry) : string :=
  let contextText := followupContextText context in
  "You are EdgeSummon, an AI assistant that helps users understand and discuss content from web pages and documents."
  ++ nl ++ nl
  ++ "Previous conversation context:" ++ nl
  ++ contextText ++ nl ++ nl
  ++ "Current question: " ++ question ++ nl ++ nl
  ++ "Provide a helpful, accurate answer based on the conversation context. If the question cannot be answered from the context, say so clearly.".

Definition truncateText (text : string) (maxLength : nat) : string :=
  if (String.length text <=? maxLength)%nat then text
  else JS.substring0 maxLength text ++ nl ++ nl
       ++ "[Content truncated due to length...]".

Section Calls.

Variable env : Oracles.

(** ai.run(DEFAULT_MODEL, { prompt, ... }) *)
Definition aiRun (prompt : string) : M AiResponse :=
  fun w =>
    let w' := {| dobj := dobj w; tick := S (tick w);
                 trace := (trace w ++ [EvAiRun prompt])%list |} in
    match ai_run env (tick w) prompt with
    | RespRejects => (Throw "Workers AI request failed", w')
    | r => (Return r, w')
    end.

(** The body of the [try] shared by generateSummary and answerFollowup. *)
Definition readResponse (response : AiResponse) : M string :=
  match response with
  | RespString s => ret (JS.trim s)
  | RespObject s => ret (JS.trim s)
  | _ => throw "Unexpected response format from Workers AI"
  end.

Definition generateSummary (text : string) (url : option string) : M string :=
  emit (EvGenerateSummary text url) ;;;
  let truncatedText := truncateText text MAX_CONTEXT_LENGTH in
  let prompt := buildSummaryPrompt truncatedText url in
  tryCatch
    (response <- aiRun prompt ;; readResponse response)
    (fun _ => throw "Failed to generate summary. Please try again.").

Definition answerFollowup (question : string)
  (context : list ConversationEntry) : M string :=
  emit (EvAnswerFollowup question context) ;;;
  let prompt := buildFollowupPrompt question context in
  tryCatch
    (response <- aiRun prompt ;; readResponse response)
    (fun _ => throw "Failed to answer question. Please try again.").

(** callLLM *)
Definition callLLM (userMessage : string) (options : LLMOptions) : M string :=
  match mode options with
  | ModeSummary => generateSummary userMessage None
  | ModeFollowup =>
      answerFollowup userMessage
        (match conversationContext options with
         | Some context => context
         | None => []
         end)
  end.

End Calls.

End LlmClient.

(* ================================================================== *)
(** * worker.ts *)
(* ================================================================== *)

Module Worker.

Import ChatRoomDO Runtime.
Local Open Scope string_scope.
Local Open Scope js_scope.

Inductive MessageType : Type := MT_url | MT_content | MT_followup.

Definition determineMessageType (message : string) : MessageType :=
  if TextExtraction.isURL message then MT_url
  else if TextExtraction.isLikelyContentToSummarize message then MT_content
  else MT_followup.

Definition noContextReply : string :=
  "I don't have any previous context to answer your question. Please provide a URL or text to summarize first.".

Section Orchestration.

Variable env : Oracles.

Definition nowISO : M string := ChatRoomDurableObject.nowISO env.

(** doStub.fetch(...): the request is served by the session's object. *)
Definition doFetch (request : Request) : M Response :=
  ChatRoomDurableObject.fetch env request.

Definition appendEntry (entry : ConversationEntry) : M unit :=
  response <- doFetch {| method := POST; pathname := "/append";
                         limitParam := None; json := Some (toJSON entry) |} ;;
  if negb (ok response)
  then throw "Failed to append entry to conversation"
  else ret tt.

(** [`http://do/recent?limit=${limit}`] with a number [limit]: the decimal
    digits of the caller's constant. *)
Definition getRecentEntries (limit : string) : M (list ConversationEntry) :=
  response <- doFetch {| method := GET; pathname := "/recent";
                         limitParam := Some limit; json := None |} ;;
  if negb (ok response)
  then throw "Failed to get recent entries"
  else
    match body response with
    | RecentOk es => ret es
    | _ => throw "Unexpected end of JSON input"
    end.

(** fetchAndExtractText(url), a collaborator. *)
Definition fetchAndExtract (url : string) : M string :=
  fun w =>
    (fetchAndExtractText env (tick w) url,
     {| dobj := dobj w; tick := S (tick w);
        trace := (trace w ++ [EvExtract url])%list |}).

Definition mkEntry (r : Role) (c : string) (ty : option EntryType)
  (u : option string) (t : string) : ConversationEntry :=
  {| role := r; content := c; type := ty; url := u; createdAt := t |}.

(** The try/catch block of the URL branch on its own: the reply and the
    assistant entry it leaves in [reply] and [assistantEntry]. *)
Definition urlAttempt (url : string) : M (string * ConversationEntry) :=
  tryCatch
    (extractedText <- fetchAndExtract url ;;
     (if negb (JS.truthy extractedText)
         || (String.length (JS.trim extractedText) <? 50)%nat
      then throw "Could not extract meaningful content from the URL"
      else ret tt) ;;;
     reply <- LlmClient.generateSummary env extractedText (Some url) ;;
     t <- nowISO ;;
     ret (reply, mkEntry assistant reply (Some url_summary) (Some url) t))
    (fun msg =>
       let reply := "Sorry, I couldn't fetch or summarize that URL. " ++ msg in
       t <- nowISO ;;
       ret (reply, mkEntry assistant reply (Some url_summary) None t)).

(** The try/catch block of the content branch. *)
Definition contentAttempt (message : string) : M (string * ConversationEntry) :=
  tryCatch
    (reply <- LlmClient.generateSummary env message None ;;
     t <- nowISO ;;
     ret (reply, mkEntry assistant reply (Some raw_summary) None t))
    (fun msg =>
       let reply := "Sorry, I couldn't generate a summary. " ++ msg in
       t <- nowISO ;;
       ret (reply, mkEntry assistant reply None None t)).

(** The try/catch block of the follow-up branch. *)
Definition followupAttempt (message : string) : M (string * ConversationEntry) :=
  tryCatch
    (context <- getRecentEntries "10" ;;
     reply <- (if (List.length context =? 0)%nat
               then ret noContextReply
               else LlmClient.answerFollowup env message context) ;;
     t <- nowISO ;;
     ret (reply, mkEntry assistant reply (Some followup) None t))
    (fun msg =>
       let reply := "Sorry, I couldn't answer your question. " ++ msg in
       t <- nowISO ;;
       ret (reply, mkEntry assistant reply None None t)).

(** The user entry of each branch, stamped with the worker's clock. *)
Definition userEntryOf (messageType : MessageType) (message t : string)
  : ConversationEntry :=
  match messageType with
  | MT_url =>
      let url := JS.trim message in
      mkEntry user ("Submitted URL for summarization: " ++ url)
              (Some url_summary) (Some url) t
  | MT_content => mkEntry user message (Some raw_summary) None t
  | MT_followup => mkEntry user message (Some followup) None t
  end.

Definition attemptOf (messageType : MessageType) (message : string)
  : M (string * ConversationEntry) :=
  match messageType with
  | MT_url => urlAttempt (JS.trim message)
  | MT_content => contentAttempt message
  | MT_followup => followupAttempt message
  end.

(** processMessage *)
Definition processMessage (message : string) : M string :=
  let messageType := determineMessageType message in
  match messageType with
  | MT_url =>
      let url := JS.trim message in
      t <- nowISO ;;
      let userEntry :=
        mkEntry user ("Submitted URL for summarization: " ++ url)
                (Some url_summary) (Some url) t in
      appendEntry userEntry ;;;
      ra <- tryCatch
              (extractedText <- fetchAndExtract url ;;
               (if negb (JS.truthy extractedText)
                   || (String.length (JS.trim extractedText) <? 50)%nat
                then throw "Could not extract meaningful content from the URL"
                else ret tt) ;;;
               reply <- LlmClient.generateSummary env extractedText (Some url) ;;
               t' <- nowISO ;;
               ret (reply,
                    mkEntry assistant reply (Some url_summary) (Some url) t'))
              (fun msg =>
                 let reply :=
                   "Sorry, I couldn't fetch or summarize that URL. " ++ msg in
                 t' <- nowISO ;;
                 ret (reply, mkEntry assistant reply (Some url_summary) None t')) ;;
      appendEntry (snd ra) ;;;
      ret (fst ra)
  | MT_content =>
      t <- nowISO ;;
      let userEntry := mkEntry user message (Some raw_summary) None t in
      appendEntry userEntry ;;;
      ra <- tryCatch
              (reply <- LlmClient.generateSummary env message None ;;
               t' <- nowISO ;;
               ret (reply, mkEntry assistant reply (Some raw_summary) None t'))
              (fun msg =>
                 let reply := "Sorry, I couldn't generate a summary. " ++ msg in
                 t' <- nowISO ;;
                 ret (reply, mkEntry assistant reply None None t')) ;;
      appendEntry (snd ra) ;;;
      ret (fst ra)
  | MT_followup =>
      t <- nowISO ;;
      let userEntry := mkEntry user message (Some followup) None t in
      appendEntry userEntry ;;;
      ra <- tryCatch
              (context <- getRecentEntries "10" ;;
               reply <- (if (List.length context =? 0)%nat
                         then ret noContextReply
                         else LlmClient.answerFollowup env message context) ;;
               t' <- nowISO ;;
               ret (reply, mkEntry assistant reply (Some followup) None t'))
              (fun msg =>
                 let reply := "Sorry, I couldn't answer your question. " ++ msg in
                 t' <- nowISO ;;
                 ret (reply, mkEntry assistant reply None None t')) ;;
      appendEntry (snd ra) ;;;
      ret (fst ra)
  end.

(** The same function with the part common to the three branches written
    once; [processMessage_turn] below shows the two agree. *)
Definition turn (message : string) : M string :=
  let messageType := determineMessageType message in
  t <- nowISO ;;
  appendEntry (userEntryOf messageType message t) ;;;
  ra <- attemptOf messageType message ;;
  appendEntry (snd ra) ;;;
  ret (fst ra).

(** Successive inbound messages of one session; the run stops at the first
    message whose processing raises. *)
Fixpoint processMessages (messages : list string) : M (list string) :=
  match messages with
  | [] => ret []
  | m :: ms =>
      reply <- processMessage m ;;
      replies <- processMessages ms ;;
      ret (reply :: replies)
  end.

End Orchestration.

End Worker.

(* ================================================================== *)
(** * worker.ts: the router, CORS and the static assets *)
(* ================================================================== *)

Module Http.

Import Runtime.
Local Open Scope string_scope.
Local Open Scope js_scope.

Inductive Verb : Type := OPTIONS | GET | POST | OtherVerb (name : string).

(** The [sessionId] of the parsed body, as far as the handler can tell
    values apart. *)
Inductive SessionId : Type :=
  | NoSessionId
      (* undefined, or a falsy value that is no string: null, false, 0 *)
  | SessionName (name : string)
  | OtherSessionId (idFromName : Outcome unit).
      (* a truthy value that is no string (true, a number, an array, an
         object): what [idFromName] does with it, return or raise *)

(** The [message] of the parsed body, likewise; [trimError] is the message
    of the TypeError that [text.trim()] raises on a value that is no
    string. *)
Inductive Message : Type :=
  | NoMessage (trimError : string)
      (* undefined, null, false, 0 *)
  | MessageText (text : string)
  | OtherMessage (lengthOver : bool) (trimError : string).
      (* a truthy value that is no string, and whether its [length]
         compares above 100000 *)

(** What [request.json()] resolves to.  A JSON text is null, for which the
    destructuring [const { sessionId, message } = body] raises a TypeError,
    or another value, whose two properties are read; a boolean, a number, a
    string and an array have neither. *)
Inductive ParsedBody : Type :=
  | NullBody (typeError : string)
  | Fields (sessionId : SessionId) (message : Message).

(** What the worker reads of a Request: its method, the path of its URL and
    the outcome of [request.json()], which raises on a body that is no JSON
    text. *)
Record Request : Type := {
  verb : Verb;
  pathname : string;
  json : Outcome ParsedBody
}.

Inductive Body : Type :=
  | NoBody
  | ReplyBody (reply : string)                       (* { reply } *)
  | ErrorBody (error : string)                       (* { error } *)
  | ErrorMessageBody (error message : string)        (* { error, message } *)
  | HealthBody                                       (* { status, service } *)
  | TextBody (text : string)
  | AssetBody (bytes : string).

(** Header names are kept in lower case, as Headers does. *)
Record Response : Type := {
  status : nat;
  headers : list (string * string);
  body : Body
}.

(** The static content: [env.__STATIC_CONTENT.get(path, "arrayBuffer")],
    null for a missing key, raising when the store fails. *)
Record Assets : Type := {
  assetGet : nat -> string -> Outcome (option string)
}.

Definition jsonHeaders : list (string * string) :=
  [("content-type", "application/json")].

(** Headers.prototype.set *)
Fixpoint setHeader (name value : string) (hs : list (string * string))
  : list (string * string) :=
  match hs with
  | [] => [(name, value)]
  | (n, v) :: hs' =>
      if String.eqb n name then (name, value) :: hs'
      else (n, v) :: setHeader name value hs'
  end.

Fixpoint getHeader (name : string) (hs : list (string * string))
  : option string :=
  match hs with
  | [] => None
  | (n, v) :: hs' => if String.eqb n name then Some v else getHeader name hs'
  end.

Definition handleCORS : Response :=
  {| status := 200;
     headers := [("access-control-allow-origin", "*");
                 ("access-control-allow-methods", "GET, POST, OPTIONS");
                 ("access-control-allow-headers", "Content-Type")];
     body := NoBody |}.

Definition addCORSHeaders (response : Response) : Response :=
  {| status := status response;
     headers := setHeader "access-control-allow-origin" "*" (headers response);
     body := body response |}.

(** The value of [contentTypes[key]]: a string of the table, or one of the
    two objects an object literal inherits under an all-lower-case name. *)
Inductive PropertyValue : Type :=
  | PString (s : string)
  | PObjectConstructor          (* contentTypes["constructor"] *)
  | PObjectPrototype.           (* contentTypes["__proto__"] *)

Definition contentTypes : list (string * string) :=
  [("html", "text/html; charset=utf-8");
   ("css", "text/css; charset=utf-8");
   ("js", "application/javascript; charset=utf-8");
   ("json", "application/json");
   ("png", "image/png");
   ("jpg", "image/jpeg");
   ("jpeg", "image/jpeg");
   ("gif", "image/gif");
   ("svg", "image/svg+xml");
   ("ico", "image/x-icon")].

Definition getProperty (key : string) : option PropertyValue :=
  match getHeader key contentTypes with
  | Some v => Some (PString v)
  | None =>
      if String.eqb key "constructor" then Some PObjectConstructor
      else if String.eqb key "__proto__" then Some PObjectPrototype
      else None
  end.

(** getContentType.  [split(".")] is never empty, so [pop()] is defined;
    every value of the table and both inherited objects are truthy. *)
Definition getContentType (path : string) : PropertyValue :=
  let ext := JS.toLowerCase (JS.lastSegment "." path) in
  match getProperty (if JS.truthy ext then ext else "") with
  | Some v => v
  | None => PString "application/octet-stream"
  end.

(** The header value the Response constructor makes of it (V8's rendering
    of the two objects). *)
Definition headerValue (v : PropertyValue) : string :=
  match v with
  | PString s => s
  | PObjectConstructor => "function Object() { [native code] }"
  | PObjectPrototype => "[object Object]"
  end.

Section Router.

Variable env : Oracles.
Variable assets : Assets.

Definition getAsset (path : string) : M (option string) :=
  fun w => (assetGet assets (tick w) path, step w).

(** A string body without a content type gets the text/plain one. *)
Definition textResponse (st : nat) (text : string) : Response :=
  {| status := st;
     headers := [("content-type", "text/plain;charset=UTF-8")];
     body := TextBody text |}.

Definition handleStaticAsset (request : Request) : M Response :=
  let path := if String.eqb (pathname request) "/" then "/index.html"
              else pathname request in
  tryCatch
    (asset <- getAsset path ;;
     match asset with
     | None => ret (textResponse 404 "Not Found")
     | Some bytes =>
         let contentType := getContentType path in
         ret {| status := 200;
                headers := [("content-type", headerValue contentType);
                            ("cache-control", "public, max-age=3600")];
                body := AssetBody bytes |}
     end)
    (fun _ => ret (textResponse 500 "Internal Server Error")).

(** [!sessionId] and [!message] *)
Definition truthySessionId (sessionId : SessionId) : bool :=
  match sessionId with
  | NoSessionId => false
  | SessionName name => JS.truthy name
  | OtherSessionId _ => true
  end.

Definition truthyMessage (message : Message) : bool :=
  match message with
  | NoMessage _ => false
  | MessageText text => JS.truthy text
  | OtherMessage _ _ => true
  end.

(** [message.length > 100000], of a truthy message *)
Definition tooLong (message : Message) : bool :=
  match message with
  | NoMessage _ => false
  | MessageText text => (100000 <? Z.of_nat (String.length text))%Z
  | OtherMessage lengthOver _ => lengthOver
  end.

(** [env.CHAT_ROOM_DO.idFromName(sessionId)] and the stub of that object:
    the session's object is the one of the world. *)
Definition idFromName (sessionId : SessionId) : M unit :=
  match sessionId with
  | OtherSessionId outcome => fun w => (outcome, w)
  | _ => ret tt
  end.

(** [processMessage(message, doStub, env)]: on a value that is no string
    the first statement, which trims it, raises. *)
Definition processMessageOf (message : Message) : M string :=
  match message with
  | MessageText text => Worker.processMessage env text
  | NoMessage trimError | OtherMessage _ trimError => throw trimError
  end.

(** handleChatAPI *)
Definition handleChatAPI (request : Request) : M Response :=
  match verb request with
  | POST =>
      tryCatch
        (body <- (fun w => (json request, w)) ;;
         match body with
         | NullBody typeError => throw typeError
         | Fields sessionId message =>
             if negb (truthySessionId sessionId)
                || negb (truthyMessage message)
             then ret (addCORSHeaders
                         {| status := 400; headers := jsonHeaders;
                            body := ErrorBody "Missing sessionId or message" |})
             else if tooLong message
             then ret (addCORSHeaders
                         {| status := 400; headers := jsonHeaders;
                            body :=
                              ErrorBody
                                "Message too long (max 100,000 characters)" |})
             else
               idFromName sessionId ;;;
               reply <- processMessageOf message ;;
               ret (addCORSHeaders
                      {| status := 200; headers := jsonHeaders;
                         body := ReplyBody reply |})
         end)
        (fun errorMessage =>
           ret (addCORSHeaders
                  {| status := 500; headers := jsonHeaders;
                     body := ErrorBody errorMessage |}))
  | _ =>
      ret {| status := 405; headers := jsonHeaders;
             body := ErrorBody "Method not allowed" |}
  end.

(** The fetch handler of the worker. *)
Definition fetch (request : Request) : M Response :=
  match verb request with
  | OPTIONS => ret handleCORS
  | _ =>
      tryCatch
        (if String.eqb (pathname request) "/api/chat"
         then handleChatAPI request
         else if String.eqb (pathname request) "/api/health"
         then ret {| status := 200; headers := jsonHeaders; body := HealthBody |}
         else handleStaticAsset request)
        (fun message =>
           ret {| status := 500; headers := jsonHeaders;
                  body := ErrorMessageBody "Internal server error" message |})
  end.

End Router.

End Http.

(* ================================================================== *)
(** * The specification's wording, for comparison with the code *)
(* ================================================================== *)

Module Spec.

Import ChatRoomDO.
Local Open Scope string_scope.

Definition toLowerCase (s : string) : string :=
  string_of_list_ascii (map JS.toLowerAscii (list_ascii_of_string s)).




(** The white space a text is trimmed of, by code: TAB to CR, SPACE and
    NO-BREAK SPACE. *)
Definition isSpace (c : ascii) : bool :=
  let n := nat_of_ascii c in
  ((9 <=? n) && (n <=? 13) || (n =? 32) || (n =? 160))%nat.

(** The text from its first character that is not white space. *)
Fixpoint dropLeading (l : list ascii) : list ascii :=
  match l with
  | [] => []
  | c :: l' => if isSpace c then dropLeading l' else c :: l'
  end.

(** The text up to its last character that is not white space. *)
Definition dropTrailing (l : list ascii) : list ascii :=
  fold_right (fun c kept =>
                match kept with
                | [] => if isSpace c then [] else [c]
                | _ => c :: kept
                end) [] l.

(** "text (trimmed)": the text without the white space at its two ends. *)
Definition trimmed (text : string) : string :=
  string_of_list_ascii (dropTrailing (dropLeading (list_ascii_of_string text))).


(** "the last [n] entries in original order"; the whole list when [n]
    exceeds its length *)
Definition lastN {A : Type} (n : nat) (l : list A) : list A :=
  skipn (List.length l - n) l.

(** "truncated to [n] characters with an ellipsis marker if truncated" *)
Definition truncated (n : nat) (s : string) : string :=
  if (String.length s <=? n)%nat then s
  else String.substring 0 n s ++ "...".

(** Section 4.3: one rendered line per entry.  The role prefixes and the
    line break are those of the code; entries of role system contribute
    nothing. *)
Definition render (e : ConversationEntry) : string :=
  match role e with
  | user =>
      if match type e with Some url_summary => true | _ => false end
         && JS.truthyOpt (url e)
      then "User submitted URL: "
           ++ match url e with Some u => u | None => "" end ++ LlmClient.nl
      else "User: " ++ truncated 200 (content e) ++ LlmClient.nl
  | assistant => "Assistant: " ++ truncated 300 (content e) ++ LlmClient.nl
  | system => ""
  end.

(** "Select the last 5 entries ... concatenate in original chronological
    order" *)
Definition build (context : list ConversationEntry) : string :=
  String.concat "" (map render (lastN 5 context)).

End Spec.

(* ================================================================== *)
(** * Concrete sessions used by the examples *)
(* ================================================================== *)

Module Fixtures.

Import ChatRoomDO Runtime.
Local Open Scope string_scope.

Fixpoint replicate (n : nat) (c : ascii) : string :=
  match n with
  | 0 => EmptyString
  | S n' => String c (replicate n' c)
  end.

(** A clock that advances by one second at every effect. *)
Definition clock (n : nat) : string :=
  nth n ["2025-01-01T00:00:00.000Z"; "2025-01-01T00:00:01.000Z";
         "2025-01-01T00:00:02.000Z"; "2025-01-01T00:00:03.000Z";
         "2025-01-01T00:00:04.000Z"; "2025-01-01T00:00:05.000Z";
         "2025-01-01T00:00:06.000Z"; "2025-01-01T00:00:07.000Z";
         "2025-01-01T00:00:08.000Z"; "2025-01-01T00:00:09.000Z";
         "2025-01-01T00:00:10.000Z"; "2025-01-01T00:00:11.000Z"]
        "2025-01-01T00:00:12.000Z".


Definition pageText : string := replicate 60 "x".

(** Everything works: the page has 60 characters, the model answers. *)
Definition envOk : Oracles :=
  {| now := clock;
     put_ok := fun _ => true;
     fetchAndExtractText := fun _ _ => Return pageText;
     ai_run := fun _ _ => RespObject " A short summary. " |}.

(** The model answers with white space only. *)
Definition envBlankReply : Oracles :=
  {| now := clock;
     put_ok := fun _ => true;
     fetchAndExtractText := fun _ _ => Return pageText;
     ai_run := fun _ _ => RespString "  " |}.

(** The page yields 30 characters. *)
Definition envShortPage : Oracles :=
  {| now := clock;
     put_ok := fun _ => true;
     fetchAndExtractText := fun _ _ => Return (replicate 30 "x");
     ai_run := fun _ _ => RespObject " A short summary. " |}.

(** The fetch fails. *)
Definition envFetchFails : Oracles :=
  {| now := clock;
     put_ok := fun _ => true;
     fetchAndExtractText :=
       fun _ _ => Throw "Failed to fetch URL: URL does not return HTML content";
     ai_run := fun _ _ => RespObject " A short summary. " |}.

(** The model call rejects. *)
Definition envModelFails : Oracles :=
  {| now := clock;
     put_ok := fun _ => true;
     fetchAndExtractText := fun _ _ => Return pageText;
     ai_run := fun _ _ => RespRejects |}.

(** The storage completes no write. *)
Definition envStorageDown : Oracles :=
  {| now := clock;
     put_ok := fun _ => false;
     fetchAndExtractText := fun _ _ => Return pageText;
     ai_run := fun _ _ => RespObject " A short summary. " |}.


(** A session whose object has just been constructed, nothing stored. *)
Definition freshWorld : World :=
  {| dobj := ChatRoomDurableObject.construct "2024-12-31T23:59:59.000Z" None;
     tick := 0;
     trace := [] |}.

Definition e1 : ConversationEntry :=
  {| role := user; content := "Submitted URL for summarization: https://x.com";
     type := Some url_summary; url := Some "https://x.com";
     createdAt := "2024-12-31T10:00:00.000Z" |}.

Definition e2 : ConversationEntry :=
  {| role := assistant; content := "The page is about x.";
     type := Some url_summary; url := Some "https://x.com";
     createdAt := "2024-12-31T10:00:01.000Z" |}.

Definition e3 : ConversationEntry :=
  {| role := user; content := "What is x?";
     type := Some followup; url := None;
     createdAt := "2024-12-31T10:00:02.000Z" |}.

Definition worldWith (es : list ConversationEntry) : World :=
  {| dobj := {| entries := es;
                doCreatedAt := "2024-12-31T09:00:00.000Z";
                lastAccessedAt := "2024-12-31T10:00:02.000Z";
                storage := None |};
     tick := 0;
     trace := [] |}.

Definition recentRequest (limit : option string) : Request :=
  {| method := GET; pathname := "/recent"; limitParam := limit; json := None |}.

Definition statsRequest : Request :=
  {| method := GET; pathname := "/stats"; limitParam := None; json := None |}.

Definition clearRequest : Request :=
  {| method := POST; pathname := "/clear"; limitParam := None; json := None |}.

Definition appendRequest (e : EntryJSON) : Request :=
  {| method := POST; pathname := "/append"; limitParam := None;
     json := Some e |}.

(** A site that answers every request with 404 Not Found. *)
Definition netNotFound : TextExtractionIO.Network :=
  {| TextExtractionIO.protocolOf := fun _ => Return "https:";
     TextExtractionIO.httpFetch := fun _ _ =>
       Return {| TextExtractionIO.status := 404;
                 TextExtractionIO.statusText := "Not Found";
                 TextExtractionIO.contentType := Some "text/html";
                 TextExtractionIO.text := Return "<h1>Not Found</h1>" |} |}.

(** A small page, with a script, a comment, an entity and line breaks. *)
Definition samplePage : string :=
  "<html><head><title>T</title></head><body>" ++ String "010" ""
  ++ "<script>var a = 1 < 2;</script><!-- note -->"
  ++ "<h1>Fish &amp; chips</h1>" ++ String "010" (String "010" "")
  ++ "<p>Served   hot.</p></body></html>".

End Fixtures.

(* ================================================================== *)
(** * Properties of computations and of worlds used in the statements *)
(* ================================================================== *)

Module Props.

Import ChatRoomDO Runtime.
Local Open Scope string_scope.

(** The log held in memory by the session's object. *)
Definition logOf (w : World) : list ConversationEntry := entries (dobj w).

(** [m] never changes the log, whether it returns or raises. *)
Definition keepsLog {A : Type} (m : M A) : Prop :=
  forall w out w', m w = (out, w') -> logOf w' = logOf w.

(** [m] always returns, with a value satisfying [Q]. *)
Definition returns {A : Type} (m : M A) (Q : A -> Prop) : Prop :=
  forall w, exists a w', m w = (Return a, w') /\ Q a.

(** Whenever [m] returns, its value satisfies [Q]. *)
Definition yields {A : Type} (m : M A) (Q : A -> Prop) : Prop :=
  forall w a w', m w = (Return a, w') -> Q a.

(** The pair a branch of processMessage leaves in [reply] and
    [assistantEntry]: an assistant entry whose content is the reply. *)
Definition replyPair (ra : string * ConversationEntry) : Prop :=
  role (snd ra) = assistant /\ content (snd ra) = fst ra.

(** The apology of the URL branch with the message of the failure, on an
    assistant entry that carries no URL. *)
Definition urlApology (msg : string) (ra : string * ConversationEntry) : Prop :=
  fst ra = "Sorry, I couldn't fetch or summarize that URL. " ++ msg
  /\ type (snd ra) = Some url_summary
  /\ url (snd ra) = None.

(** The turn from [w] to [w'] returned [reply] and appended a user entry,
    then an assistant entry with that content and no URL. *)
Definition absorbed (w w' : World) (out : Outcome string) (reply : string)
  : Prop :=
  out = Return reply
  /\ exists u a,
       logOf w' = (logOf w ++ [u; a])%list
       /\ role u = user /\ role a = assistant
       /\ content a = reply /\ url a = None.

(** Every durable write completes: no StorageFailure. *)
Definition storageWorks (env : Oracles) : Prop :=
  forall n, put_ok env n = true.

(** The requests of a session served one after the other. *)
Definition serve (env : Oracles) (requests : list Request) (w : World) : World :=
  fold_left (fun w r => snd (ChatRoomDurableObject.fetch env r w)) requests w.









(** The record in the storage is the state held in memory. *)
Definition synced (d : Instance) : Prop :=
  storage d = Some {| s_entries := entries d;
                      s_createdAt := doCreatedAt d;
                      s_lastAccessedAt := lastAccessedAt d |}.

(** The object is [w]'s but for what a handler that writes changes: the log
    is [es], lastAccessedAt is a reading of the clock, and the storage holds
    the new state when the write, the last effect of the handler, has
    completed ([written]), the old record otherwise. *)
Definition rewritten (env : Oracles) (w w' : World)
  (es : list ConversationEntry) (written : bool) : Prop :=
  logOf w' = es
  /\ doCreatedAt (dobj w') = doCreatedAt (dobj w)
  /\ (exists k, tick w <= k < tick w' /\ lastAccessedAt (dobj w') = now env k)
  /\ trace w' = trace w
  /\ tick w < tick w'
  /\ written = put_ok env (Nat.pred (tick w'))
  /\ if written then synced (dobj w')
     else storage (dobj w') = storage (dobj w).

Definition isAiRun (e : Event) : bool :=
  match e with EvAiRun _ => true | _ => false end.

Definition isExtract (e : Event) : bool :=
  match e with EvExtract _ => true | _ => false end.

(** [m] adds events to the trace, at most [n] of them of the kind [f]. *)
Definition emitsAtMost {A : Type} (f : Event -> bool) (m : M A) (n : nat)
  : Prop :=
  forall w out w',
    m w = (out, w') ->
    exists evs,
      trace w' = (trace w ++ evs)%list
      /\ List.length (filter f evs) <= n.

(** [res] is the result of a generation call made in [w] with [prompt]:
    the model has been called once, nothing but the trace and the effect
    counter has changed, and the outcome is the trimmed answer of the model
    or the one error [failure]. *)
Definition generationResult (env : Oracles) (w : World)
  (res : Outcome string * World) (ev : Event) (prompt failure : string) : Prop :=
  snd res = {| dobj := dobj w; tick := S (tick w);
               trace := (trace w ++ [ev; EvAiRun prompt])%list |}
  /\ fst res = match ai_run env (tick w) prompt with
               | RespString s | RespObject s => Return (JS.trim s)
               | _ => Throw failure
               end.

(** No white space but single spaces, each between two other code units. *)
Fixpoint singleSpaced (l : list ascii) : Prop :=
  match l with
  | [] => True
  | c :: l' =>
      (JS.isWhiteSpace c = true ->
       c = " "%char
       /\ match l' with
          | [] => True
          | d :: _ => JS.isWhiteSpace d = false
          end)
      /\ singleSpaced l'
  end.

(** The text neither starts nor ends with white space. *)
Definition trimmed (l : list ascii) : Prop :=
  JS.trimStartL l = l /\ JS.trimEndL l = l.

(** Neither [<] nor [&]: no markup and no entity can start here. *)
Definition plain (c : ascii) : Prop :=
  Ascii.eqb c "<"%char = false /\ Ascii.eqb c "&"%char = false.

End Props.

(* ================================================================== *)
(** * Facts about the JavaScript primitives *)
(* ================================================================== *)

Section StringFacts.

Local Open Scope list_scope.






Lemma slice_last (A : Type) (n : nat) (l : list A) :
  0 < n ->
  JS.slice (Some (- Z.of_nat n)%Z) l = Spec.lastN n l.
Proof.
  intros Hn. unfold JS.slice, Spec.lastN.
  assert (Hneg : ((- Z.of_nat n <? 0) = true)%Z) by (apply Z.ltb_lt; lia).
  rewrite Hneg. f_equal. lia.
Qed.

Lemma slice_zero (A : Type) (l : list A) : JS.slice (Some 0%Z) l = l.
Proof.
  unfold JS.slice. cbn [Z.ltb Z.compare].
  replace (Z.min 0 (Z.of_nat (List.length l))) with 0%Z by lia. reflexivity.
Qed.

Lemma lastN_suffix (A : Type) (n : nat) (l : list A) :
  firstn (List.length l - n) l ++ Spec.lastN n l = l.
Proof. apply firstn_skipn. Qed.

Lemma lastN_length (A : Type) (n : nat) (l : list A) :
  List.length (Spec.lastN n l) = Nat.min n (List.length l).
Proof. unfold Spec.lastN. rewrite length_skipn. lia. Qed.

Lemma lastN_all (A : Type) (n : nat) (l : list A) :
  List.length l <= n -> Spec.lastN n l = l.
Proof.
  intros H. unfold Spec.lastN.
  replace (List.length l - n) with 0 by lia. reflexivity.
Qed.

Lemma lastN_app (A : Type) (older recent : list A) :
  Spec.lastN (List.length recent) (older ++ recent) = recent.
Proof.
  unfold Spec.lastN. rewrite length_app.
  replace (List.length older + List.length recent - List.length recent)
    with (List.length older) by lia.
  rewrite skipn_app, skipn_all, Nat.sub_diag. reflexivity.
Qed.

End StringFacts.

(* ================================================================== *)
(** * The classifier *)
(* ================================================================== *)

Section Classifier.











End Classifier.


(* ================================================================== *)
(** * The context window of buildFollowupPrompt *)
(* ================================================================== *)

Section ContextWindow.

Import ChatRoomDO.
Local Open Scope string_scope.

Lemma string_app_assoc (a b c : string) : (a ++ b) ++ c = a ++ (b ++ c).
Proof. induction a as [|x a IH]; cbn; [reflexivity|now rewrite IH]. Qed.

Lemma string_app_nil_r (a : string) : a ++ "" = a.
Proof. induction a as [|x a IH]; cbn; [reflexivity|now rewrite IH]. Qed.

Lemma string_length_app (a b : string) :
  String.length (a ++ b) = String.length a + String.length b.
Proof. induction a as [|x a IH]; cbn; [reflexivity|now rewrite IH]. Qed.

Lemma substring0_all (n : nat) (s : string) :
  String.length s <= n -> String.substring 0 n s = s.
Proof.
  revert n; induction s as [|c s IH]; intros n H.
  - destruct n; reflexivity.
  - destruct n as [|n]; cbn in H; [lia|].
    cbn. rewrite IH by lia. reflexivity.
Qed.

Lemma substring0_length (n : nat) (s : string) :
  n <= String.length s -> String.length (String.substring 0 n s) = n.
Proof.
  revert n; induction s as [|c s IH]; intros n H.
  - destruct n; cbn in *; [reflexivity|lia].
  - destruct n as [|n]; cbn in *; [reflexivity|].
    rewrite IH by lia. reflexivity.
Qed.

(** The two pieces the code concatenates are the truncation of the
    specification. *)
Lemma cut_truncated (n : nat) (s : string) :
  JS.substring0 n s ++ (if (n <? String.length s)%nat then "..." else "")
  = Spec.truncated n s.
Proof.
  unfold JS.substring0, Spec.truncated.
  destruct (Nat.leb_spec (String.length s) n) as [Hle|Hlt].
  - apply Nat.ltb_ge in Hle as Hb. rewrite Hb, string_app_nil_r.
    now apply substring0_all.
  - apply Nat.ltb_lt in Hlt as Hb. now rewrite Hb.
Qed.

Lemma truncated_short (n : nat) (s : string) :
  String.length s <= n -> Spec.truncated n s = s.
Proof.
  intros H. unfold Spec.truncated. apply Nat.leb_le in H. now rewrite H.
Qed.

Lemma truncated_long (n : nat) (s : string) :
  n < String.length s ->
  Spec.truncated n s = String.substring 0 n s ++ "..."
  /\ String.length (Spec.truncated n s) = n + 3.
Proof.
  intros H. unfold Spec.truncated.
  assert (Hb : (String.length s <=? n)%nat = false) by (apply Nat.leb_gt; lia).
  rewrite Hb. split; [reflexivity|].
  rewrite string_length_app, substring0_length by lia. reflexivity.
Qed.

Lemma followupLoopBody_render (contextText : string) (entry : ConversationEntry) :
  LlmClient.followupLoopBody contextText entry
  = contextText ++ Spec.render entry.
Proof.
  unfold LlmClient.followupLoopBody, Spec.render.
  destruct (role entry).
  - destruct (type entry) as [[]|], (url entry) as [u|]; cbn [andb JS.truthyOpt];
      try destruct (JS.truthy u);
      rewrite <- ?cut_truncated, ?string_app_assoc; reflexivity.
  - rewrite <- cut_truncated, ?string_app_assoc. reflexivity.
  - now rewrite string_app_nil_r.
Qed.

Lemma fold_followupLoopBody (l : list ConversationEntry) (acc : string) :
  fold_left LlmClient.followupLoopBody l acc
  = acc ++ String.concat "" (map Spec.render l).
Proof.
  revert acc; induction l as [|e l IH]; intros acc.
  - cbn. now rewrite string_app_nil_r.
  - cbn [fold_left map]. rewrite IH, followupLoopBody_render, string_app_assoc.
    f_equal. destruct l as [|e' l]; cbn; [now rewrite string_app_nil_r|reflexivity].
Qed.

Lemma followupContextText_build (context : list ConversationEntry) :
  LlmClient.followupContextText context = Spec.build context.
Proof.
  unfold LlmClient.followupContextText, Spec.build.
  rewrite (slice_last _ 5) by lia. now rewrite fold_followupLoopBody.
Qed.

End ContextWindow.

Section ContextWindowClaim.

Import ChatRoomDO.
Local Open Scope string_scope.

(** C5.  For every sequence of entries, the context text of
    buildFollowupPrompt is made of the last five entries of the sequence (five
    in all, whatever their roles), in their original order, one line each:
    a user entry tagged url-summary with a URL gives "User submitted URL: "
    and the URL; any other user entry gives its content cut to 200 characters,
    followed by "..." when it was longer; an assistant entry gives its content
    cut to 300 characters, followed by "..." when it was longer. *)
Theorem buildFollowupPrompt_last_five :
  (forall context,
     LlmClient.followupContextText context
     = String.concat "" (map Spec.render (Spec.lastN 5 context)))
  /\ (forall context : list ConversationEntry,
        (firstn (List.length context - 5) context ++ Spec.lastN 5 context)%list
        = context
        /\ List.length (Spec.lastN 5 context) = Nat.min 5 (List.length context))
  /\ (forall a b c d e f g,
        LlmClient.followupContextText [a; b; c; d; e; f; g]
        = String.concat "" (map Spec.render [c; d; e; f; g]))
  /\ LlmClient.followupContextText
       [Worker.mkEntry assistant "dropped" None None "t0";
        Worker.mkEntry user "Submitted URL for summarization: https://x.com"
          (Some url_summary) (Some "https://x.com") "t1";
        Worker.mkEntry user (Fixtures.replicate 200 "q") (Some followup) None "t2";
        Worker.mkEntry user (Fixtures.replicate 201 "q") (Some raw_summary) None "t3";
        Worker.mkEntry assistant (Fixtures.replicate 300 "r") (Some followup) None "t4";
        Worker.mkEntry assistant (Fixtures.replicate 301 "r") None None "t5"]
     = "User submitted URL: https://x.com" ++ LlmClient.nl
       ++ "User: " ++ Fixtures.replicate 200 "q" ++ LlmClient.nl
       ++ "User: " ++ Fixtures.replicate 200 "q" ++ "..." ++ LlmClient.nl
       ++ "Assistant: " ++ Fixtures.replicate 300 "r" ++ LlmClient.nl
       ++ "Assistant: " ++ Fixtures.replicate 300 "r" ++ "..." ++ LlmClient.nl
  /\ (forall question context,
        LlmClient.buildFollowupPrompt question context
        = "You are EdgeSummon, an AI assistant that helps users understand and discuss content from web pages and documents."
          ++ LlmClient.nl ++ LlmClient.nl
          ++ "Previous conversation context:" ++ LlmClient.nl
          ++ Spec.build context ++ LlmClient.nl ++ LlmClient.nl
          ++ "Current question: " ++ question ++ LlmClient.nl ++ LlmClient.nl
          ++ "Provide a helpful, accurate answer based on the conversation context. If the question cannot be answered from the context, say so clearly.").
Proof.
  split; [exact followupContextText_build|].
  split; [intros context; split; [apply lastN_suffix|apply lastN_length]|].
  split; [intros; now rewrite followupContextText_build|].
  split; [vm_compute; reflexivity|].
  intros. unfold LlmClient.buildFollowupPrompt.
  now rewrite followupContextText_build.
Qed.

End ContextWindowClaim.

(* ================================================================== *)
(** * The store: what each handler does to the session's object *)
(* ================================================================== *)

Ltac run_js :=
  cbv [Runtime.bind Runtime.ret Runtime.throw Runtime.tryCatch Runtime.getDO
       Runtime.setDO Runtime.emit Runtime.step
       ChatRoomDurableObject.nowISO ChatRoomDurableObject.storagePut
       ChatRoomDurableObject.saveState ChatRoomDurableObject.setEntries
       ChatRoomDurableObject.setLastAccessedAt
       ChatRoomDurableObject.requestJson ChatRoomDurableObject.jsonResponse];
  cbn [Runtime.dobj Runtime.tick Runtime.trace
       ChatRoomDO.entries ChatRoomDO.doCreatedAt ChatRoomDO.lastAccessedAt
       ChatRoomDO.storage fst snd].

Section Store.

Import ChatRoomDO Runtime Props.
Local Open Scope string_scope.

Variable env : Oracles.

Lemma handleAppend_rejected (w : World) (req : Request) (e : EntryJSON) :
  method req = POST ->
  json req = Some e ->
  j_role e = None \/ JS.truthyOpt (j_content e) = false ->
  ChatRoomDurableObject.handleAppend env req w
  = (Return ChatRoomDurableObject.invalidEntry, w).
Proof.
  intros Hm Hj Hbad. unfold ChatRoomDurableObject.handleAppend.
  rewrite Hm. run_js. rewrite Hj.
  destruct (j_role e) as [r|], (j_content e) as [c|]; try reflexivity.
  destruct Hbad as [Hbad|Hbad]; [discriminate|].
  cbn in Hbad. rewrite Hbad. reflexivity.
Qed.

Lemma handleAppend_accepted (w : World) (req : Request) (e : EntryJSON)
  (r : Role) (c : string) :
  method req = POST ->
  json req = Some e ->
  j_role e = Some r ->
  j_content e = Some c ->
  JS.truthy c = true ->
  let supplied := JS.truthyOpt (j_createdAt e) in
  let stamp := if supplied
               then match j_createdAt e with Some t => t | None => "" end
               else now env (tick w) in
  let k := if supplied then tick w else S (tick w) in
  let es := (logOf w ++ [{| role := r; content := c; type := j_type e;
                            url := j_url e; createdAt := stamp |}])%list in
  let saved := {| s_entries := es; s_createdAt := doCreatedAt (dobj w);
                  s_lastAccessedAt := now env k |} in
  ChatRoomDurableObject.handleAppend env req w
  = if put_ok env (S k)
    then (Return {| status := 200; body := AppendOk (List.length es) |},
          {| dobj := {| entries := es; doCreatedAt := doCreatedAt (dobj w);
                        lastAccessedAt := now env k; storage := Some saved |};
             tick := S (S k); trace := trace w |})
    else (Throw "storage.put failed",
          {| dobj := {| entries := es; doCreatedAt := doCreatedAt (dobj w);
                        lastAccessedAt := now env k; storage := storage (dobj w) |};
             tick := S (S k); trace := trace w |}).
Proof.
  intros Hm Hj Hr Hc Ht. unfold ChatRoomDurableObject.handleAppend, logOf.
  rewrite Hm. run_js. rewrite Hj, Hr, Hc, Ht. cbn [negb].
  destruct (JS.truthyOpt (j_createdAt e)); cbn [negb]; run_js;
    destruct (put_ok env _); reflexivity.
Qed.

Lemma handleGetRecent_eq (w : World) (req : Request) :
  let limit :=
    JS.parseInt (if JS.truthyOpt (limitParam req)
                 then match limitParam req with Some s => s | None => "10" end
                 else "10") in
  let saved := {| s_entries := logOf w; s_createdAt := doCreatedAt (dobj w);
                  s_lastAccessedAt := now env (tick w) |} in
  ChatRoomDurableObject.handleGetRecent env req w
  = if put_ok env (S (tick w))
    then (Return {| status := 200;
                    body := RecentOk (JS.slice (JS.neg limit) (logOf w)) |},
          {| dobj := {| entries := logOf w; doCreatedAt := doCreatedAt (dobj w);
                        lastAccessedAt := now env (tick w);
                        storage := Some saved |};
             tick := S (S (tick w)); trace := trace w |})
    else (Throw "storage.put failed",
          {| dobj := {| entries := logOf w; doCreatedAt := doCreatedAt (dobj w);
                        lastAccessedAt := now env (tick w);
                        storage := storage (dobj w) |};
             tick := S (S (tick w)); trace := trace w |}).
Proof.
  unfold ChatRoomDurableObject.handleGetRecent, logOf. run_js.
  destruct (put_ok env _); reflexivity.
Qed.

Lemma handleClear_eq (w : World) :
  let saved := {| s_entries := []; s_createdAt := doCreatedAt (dobj w);
                  s_lastAccessedAt := now env (tick w) |} in
  ChatRoomDurableObject.handleClear env w
  = if put_ok env (S (tick w))
    then (Return {| status := 200; body := ClearOk |},
          {| dobj := {| entries := []; doCreatedAt := doCreatedAt (dobj w);
                        lastAccessedAt := now env (tick w);
                        storage := Some saved |};
             tick := S (S (tick w)); trace := trace w |})
    else (Throw "storage.put failed",
          {| dobj := {| entries := []; doCreatedAt := doCreatedAt (dobj w);
                        lastAccessedAt := now env (tick w);
                        storage := storage (dobj w) |};
             tick := S (S (tick w)); trace := trace w |}).
Proof.
  unfold ChatRoomDurableObject.handleClear. run_js.
  destruct (put_ok env _); reflexivity.
Qed.

Lemma handleGetStats_eq (w : World) :
  ChatRoomDurableObject.handleGetStats w
  = (Return {| status := 200;
               body := StatsOk (List.length (logOf w)) (doCreatedAt (dobj w))
                               (lastAccessedAt (dobj w)) |}, w).
Proof. reflexivity. Qed.

End Store.

Section StoreSteps.

Import ChatRoomDO Runtime Props.
Local Open Scope string_scope.

Variable env : Oracles.

(** What one request does to the log and to the effect counter: the log is
    left as it is, emptied, or extended by one validated entry. *)
Lemma fetch_step (r : Request) (w : World) :
  let w' := snd (ChatRoomDurableObject.fetch env r w) in
  tick w <= tick w'
  /\ (logOf w' = logOf w
      \/ logOf w' = []
      \/ exists e j,
           json r = Some j
           /\ logOf w' = (logOf w ++ [e])%list
           /\ JS.truthy (content e) = true
           /\ j_role j = Some (role e)
           /\ j_content j = Some (content e)
           /\ createdAt e
              = (if JS.truthyOpt (j_createdAt j)
                 then match j_createdAt j with Some t => t | None => "" end
                 else now env (tick w))
           /\ tick w < tick w').
Proof.
  unfold ChatRoomDurableObject.fetch, tryCatch.
  destruct (String.eqb (pathname r) "/append").
  { destruct (method r) eqn:Hm.
    - unfold ChatRoomDurableObject.handleAppend. rewrite Hm. cbn. auto.
    - destruct (json r) as [j|] eqn:Hj.
      + destruct (j_role j) as [ro|] eqn:Hr.
        * destruct (j_content j) as [c|] eqn:Hc.
          -- destruct (JS.truthy c) eqn:Ht.
             ++ rewrite (handleAppend_accepted env w r j ro c Hm Hj Hr Hc Ht).
                destruct (put_ok env _); cbn [snd fst tick dobj logOf entries ret];
                  (split; [destruct (JS.truthyOpt (j_createdAt j)); lia|]);
                  right; right;
                  eexists; exists j; cbn [content role createdAt];
                  (repeat split; try reflexivity; try assumption);
                  destruct (JS.truthyOpt (j_createdAt j)); lia.
             ++ rewrite (handleAppend_rejected env w r j Hm Hj)
                  by (right; rewrite Hc; exact Ht).
                cbn. auto.
          -- rewrite (handleAppend_rejected env w r j Hm Hj)
               by (right; rewrite Hc; reflexivity).
             cbn. auto.
        * rewrite (handleAppend_rejected env w r j Hm Hj) by (left; exact Hr).
          cbn. auto.
      + unfold ChatRoomDurableObject.handleAppend. rewrite Hm. run_js.
        rewrite Hj. cbn. auto. }
  destruct (String.eqb (pathname r) "/recent").
  { rewrite handleGetRecent_eq. destruct (put_ok env _); cbn; split; auto; lia. }
  destruct (String.eqb (pathname r) "/clear").
  { rewrite handleClear_eq. destruct (put_ok env _); cbn; split; auto; lia. }
  destruct (String.eqb (pathname r) "/stats"); cbn; auto.
Qed.

(** Every entry of a log that [fetch] alone has built has a non-empty
    content. *)
Lemma serve_contents (requests : list Request) (w : World) :
  Forall (fun e => JS.truthy (content e) = true) (logOf w) ->
  Forall (fun e => JS.truthy (content e) = true) (logOf (serve env requests w)).
Proof.
  revert w; induction requests as [|r rs IH]; intros w Hw; [exact Hw|].
  cbn [serve fold_left]. apply IH.
  destruct (fetch_step r w) as [_ [H|[H|(e & j & _ & H & Ht & _)]]];
    rewrite H; auto.
  apply Forall_app; split; auto.
Qed.

End StoreSteps.

(* ================================================================== *)
(** * The worker's two calls to the store *)
(* ================================================================== *)

Section WorkerCalls.

Import ChatRoomDO Runtime Props.
Local Open Scope string_scope.

Variable env : Oracles.

Lemma doFetch_append (e : ConversationEntry) (w : World) :
  Worker.doFetch env {| method := POST; pathname := "/append";
                        limitParam := None; json := Some (toJSON e) |} w
  = tryCatch
      (ChatRoomDurableObject.handleAppend env
         {| method := POST; pathname := "/append";
            limitParam := None; json := Some (toJSON e) |})
      (fun _ => ret {| status := 500; body := ErrorBody "Internal server error" |})
      w.
Proof. reflexivity. Qed.

Lemma doFetch_recent (limit : string) (w : World) :
  Worker.doFetch env {| method := GET; pathname := "/recent";
                        limitParam := Some limit; json := None |} w
  = tryCatch
      (ChatRoomDurableObject.handleGetRecent env
         {| method := GET; pathname := "/recent";
            limitParam := Some limit; json := None |})
      (fun _ => ret {| status := 500; body := ErrorBody "Internal server error" |})
      w.
Proof. reflexivity. Qed.

(** An entry with an empty content is refused: appendEntry raises and
    nothing has changed. *)
Lemma appendEntry_refused (e : ConversationEntry) (w : World) :
  JS.truthy (content e) = false ->
  Worker.appendEntry env e w
  = (Throw "Failed to append entry to conversation", w).
Proof.
  intros Hc. unfold Worker.appendEntry, bind. rewrite doFetch_append.
  unfold tryCatch.
  rewrite (handleAppend_rejected env w _ (toJSON e)) by
    (try reflexivity; right; exact Hc).
  reflexivity.
Qed.

(** The stamp the store commits an entry with. *)
Lemma appendEntry_outcome (e : ConversationEntry) (w : World)
  (out : Outcome unit) (w' : World) :
  Worker.appendEntry env e w = (out, w') ->
  trace w' = trace w
  /\ tick w <= tick w'
  /\ match out with
     | Return _ =>
         JS.truthy (content e) = true
         /\ logOf w'
            = (logOf w
               ++ [Worker.mkEntry (role e) (content e) (type e) (url e)
                     (if JS.truthy (createdAt e) then createdAt e
                      else now env (tick w))])%list
     | Throw m => m = "Failed to append entry to conversation"
     end.
Proof.
  destruct (JS.truthy (content e)) eqn:Hc.
  - unfold Worker.appendEntry, bind. rewrite doFetch_append. unfold tryCatch.
    rewrite (handleAppend_accepted env w _ (toJSON e) (role e) (content e))
      by (try reflexivity; exact Hc).
    cbn [toJSON j_createdAt JS.truthyOpt j_type j_url].
    destruct (put_ok env _); cbn; intros H; inversion H; subst; clear H;
      cbn [trace tick logOf dobj entries];
      (split; [reflexivity|]);
      (split; [destruct (JS.truthy (createdAt e)); lia|]);
      [|reflexivity].
    split; [reflexivity|].
    unfold Worker.mkEntry. destruct (JS.truthy (createdAt e)); reflexivity.
  - rewrite appendEntry_refused by exact Hc.
    intros H; inversion H; subst. repeat split; auto.
Qed.

Lemma appendEntry_total (e : ConversationEntry) (w : World) :
  storageWorks env ->
  JS.truthy (content e) = true ->
  exists w', Worker.appendEntry env e w = (Return tt, w').
Proof.
  intros Hs Hc. unfold Worker.appendEntry, bind. rewrite doFetch_append.
  unfold tryCatch.
  rewrite (handleAppend_accepted env w _ (toJSON e) (role e) (content e))
    by (try reflexivity; exact Hc).
  rewrite Hs. cbn. eexists; reflexivity.
Qed.

(** getRecentEntries leaves the log alone and, when it returns, returns
    [entries.slice(-limit)]. *)
Lemma getRecentEntries_outcome (limit : string) (w : World)
  (out : Outcome (list ConversationEntry)) (w' : World) :
  Worker.getRecentEntries env limit w = (out, w') ->
  logOf w' = logOf w
  /\ trace w' = trace w
  /\ match out with
     | Return es =>
         es = JS.slice
                (JS.neg (JS.parseInt (if JS.truthy limit then limit else "10")))
                (logOf w)
     | Throw m => m = "Failed to get recent entries"
     end.
Proof.
  unfold Worker.getRecentEntries, bind. rewrite doFetch_recent. unfold tryCatch.
  rewrite handleGetRecent_eq. cbn [limitParam JS.truthyOpt].
  destruct (put_ok env _); cbn; intros H; inversion H; subst; clear H;
    cbn [logOf dobj entries trace]; auto.
Qed.

Lemma getRecentEntries_total (limit : string) (w : World) :
  storageWorks env ->
  exists w',
    Worker.getRecentEntries env limit w
    = (Return (JS.slice
                 (JS.neg (JS.parseInt (if JS.truthy limit then limit else "10")))
                 (logOf w)), w')
    /\ logOf w' = logOf w /\ trace w' = trace w.
Proof.
  intros Hs.
  unfold Worker.getRecentEntries, bind. rewrite doFetch_recent. unfold tryCatch.
  rewrite handleGetRecent_eq. cbn [limitParam JS.truthyOpt].
  rewrite Hs. cbn. eexists; repeat split; reflexivity.
Qed.

End WorkerCalls.

(* ================================================================== *)
(** * Composition rules for the three properties of computations *)
(* ================================================================== *)

Section Rules.

Import ChatRoomDO Runtime Props.

Variable env : Oracles.

Lemma keepsLog_ret (A : Type) (a : A) : keepsLog (ret a).
Proof. intros w out w' H; inversion H; reflexivity. Qed.

Lemma keepsLog_throw (A : Type) (msg : string) : keepsLog (@throw A msg).
Proof. intros w out w' H; inversion H; reflexivity. Qed.

Lemma keepsLog_bind (A B : Type) (m : M A) (k : A -> M B) :
  keepsLog m -> (forall a, keepsLog (k a)) -> keepsLog (bind m k).
Proof.
  intros Hm Hk w out w' H. unfold bind in H.
  destruct (m w) as [[a|msg] w1] eqn:E.
  - rewrite (Hk a _ _ _ H). exact (Hm _ _ _ E).
  - inversion H; subst. exact (Hm _ _ _ E).
Qed.

Lemma keepsLog_tryCatch (A : Type) (body : M A) (handler : string -> M A) :
  keepsLog body -> (forall msg, keepsLog (handler msg)) ->
  keepsLog (tryCatch body handler).
Proof.
  intros Hb Hh w out w' H. unfold tryCatch in H.
  destruct (body w) as [[a|msg] w1] eqn:E.
  - inversion H; subst. exact (Hb _ _ _ E).
  - rewrite (Hh msg _ _ _ H). exact (Hb _ _ _ E).
Qed.

Lemma keepsLog_nowISO : keepsLog (Worker.nowISO env).
Proof. intros w out w' H; inversion H; reflexivity. Qed.

Lemma keepsLog_emit (e : Event) : keepsLog (emit e).
Proof. intros w out w' H; inversion H; reflexivity. Qed.

Lemma keepsLog_aiRun (prompt : string) : keepsLog (LlmClient.aiRun env prompt).
Proof.
  intros w out w' H. unfold LlmClient.aiRun in H.
  destruct (ai_run env (tick w) prompt); inversion H; reflexivity.
Qed.

Lemma keepsLog_readResponse (r : AiResponse) : keepsLog (LlmClient.readResponse r).
Proof. destruct r; intros w out w' H; inversion H; reflexivity. Qed.

Lemma keepsLog_fetchAndExtract (url : string) :
  keepsLog (Worker.fetchAndExtract env url).
Proof. intros w out w' H; inversion H; reflexivity. Qed.

Lemma keepsLog_getRecentEntries (limit : string) :
  keepsLog (Worker.getRecentEntries env limit).
Proof.
  intros w out w' H. exact (proj1 (getRecentEntries_outcome env _ _ _ _ H)).
Qed.

Lemma keepsLog_if (A : Type) (b : bool) (m1 m2 : M A) :
  keepsLog m1 -> keepsLog m2 -> keepsLog (if b then m1 else m2).
Proof. destruct b; auto. Qed.

Lemma yields_ret (A : Type) (a : A) (Q : A -> Prop) : Q a -> yields (ret a) Q.
Proof. intros HQ w a' w' H; inversion H; subst; exact HQ. Qed.

Lemma yields_bind (A B : Type) (m : M A) (k : A -> M B) (Q : B -> Prop) :
  (forall a, yields (k a) Q) -> yields (bind m k) Q.
Proof.
  intros Hk w b w' H. unfold bind in H.
  destruct (m w) as [[a|msg] w1]; [exact (Hk a _ _ _ H)|discriminate].
Qed.

Lemma returns_ret (A : Type) (a : A) (Q : A -> Prop) : Q a -> returns (ret a) Q.
Proof. intros HQ w. exists a, w. split; [reflexivity|exact HQ]. Qed.

Lemma returns_nowISO_bind (B : Type) (k : string -> M B) (Q : B -> Prop) :
  (forall t, returns (k t) Q) -> returns (bind (Worker.nowISO env) k) Q.
Proof.
  intros Hk w. unfold bind, Worker.nowISO, ChatRoomDurableObject.nowISO.
  apply Hk.
Qed.

Lemma returns_tryCatch (A : Type) (body : M A) (handler : string -> M A)
  (Q : A -> Prop) :
  yields body Q -> (forall msg, returns (handler msg) Q) ->
  returns (tryCatch body handler) Q.
Proof.
  intros Hb Hh w. unfold tryCatch.
  destruct (body w) as [[a|msg] w1] eqn:E.
  - exists a, w1. split; [reflexivity|exact (Hb _ _ _ E)].
  - apply Hh.
Qed.

End Rules.

Create HintDb js_log.

#[export] Hint Resolve keepsLog_ret keepsLog_throw keepsLog_nowISO keepsLog_emit
  keepsLog_aiRun keepsLog_readResponse keepsLog_fetchAndExtract
  keepsLog_getRecentEntries : js_log.
#[export] Hint Extern 2 (Props.keepsLog (Runtime.bind _ _)) =>
  apply keepsLog_bind; [|intro] : js_log.
#[export] Hint Extern 2 (Props.keepsLog (Runtime.tryCatch _ _)) =>
  apply keepsLog_tryCatch; [|intro] : js_log.
#[export] Hint Extern 2 (Props.keepsLog (if _ then _ else _)) =>
  apply keepsLog_if : js_log.

Section Attempts.

Import ChatRoomDO Runtime Props.
Local Open Scope string_scope.

Variable env : Oracles.

Lemma keepsLog_generateSummary (text : string) (url : option string) :
  keepsLog (LlmClient.generateSummary env text url).
Proof. unfold LlmClient.generateSummary. auto 10 with js_log. Qed.

Lemma keepsLog_answerFollowup (q : string) (context : list ConversationEntry) :
  keepsLog (LlmClient.answerFollowup env q context).
Proof. unfold LlmClient.answerFollowup. auto 10 with js_log. Qed.

#[local] Hint Resolve keepsLog_generateSummary keepsLog_answerFollowup : js_log.

(** The try/catch of each branch never touches the log. *)
Lemma keepsLog_attemptOf (mt : Worker.MessageType) (message : string) :
  keepsLog (Worker.attemptOf env mt message).
Proof.
  destruct mt; cbn [Worker.attemptOf];
    [unfold Worker.urlAttempt|unfold Worker.contentAttempt
    |unfold Worker.followupAttempt];
    auto 20 with js_log.
Qed.

(** The try/catch of each branch always completes with such a pair: an
    extraction or generation error never leaves it. *)
Lemma attemptOf_returns (mt : Worker.MessageType) (message : string) :
  returns (Worker.attemptOf env mt message) replyPair.
Proof.
  destruct mt; cbn [Worker.attemptOf];
    [unfold Worker.urlAttempt|unfold Worker.contentAttempt
    |unfold Worker.followupAttempt];
    (apply returns_tryCatch;
     [ repeat (apply yields_bind; intro); apply yields_ret; split; reflexivity
     | intro msg; apply returns_nowISO_bind; intro t;
       apply returns_ret; split; reflexivity ]).
Qed.

End Attempts.

(* ================================================================== *)
(** * processMessage *)
(* ================================================================== *)

Section Turn.

Import ChatRoomDO Runtime Props.
Local Open Scope string_scope.

Variable env : Oracles.

Lemma processMessage_turn (message : string) :
  Worker.processMessage env message = Worker.turn env message.
Proof.
  unfold Worker.processMessage, Worker.turn.
  destruct (Worker.determineMessageType message); reflexivity.
Qed.

Lemma userEntryOf_user (mt : Worker.MessageType) (message t : string) :
  role (Worker.userEntryOf mt message t) = user.
Proof. destruct mt; reflexivity. Qed.

(** The course of one turn: either the user entry is not accepted and the
    turn raises at once, or the branch's try/catch completes with a reply
    and an assistant entry, and the turn ends as the second append does. *)
Lemma turn_inv (message : string) (w : World) (out : Outcome string) (w' : World) :
  Worker.processMessage env message w = (out, w') ->
  let mt := Worker.determineMessageType message in
  let u := Worker.userEntryOf mt message (now env (tick w)) in
  (Worker.appendEntry env u (step w)
   = (Throw "Failed to append entry to conversation", w')
   /\ out = Throw "Failed to append entry to conversation")
  \/ exists w1 ra w2 out3,
       Worker.appendEntry env u (step w) = (Return tt, w1)
       /\ Worker.attemptOf env mt message w1 = (Return ra, w2)
       /\ replyPair ra
       /\ logOf w2 = logOf w1
       /\ Worker.appendEntry env (snd ra) w2 = (out3, w')
       /\ out = match out3 with
                | Return _ => Return (fst ra)
                | Throw m => Throw m
                end.
Proof.
  rewrite processMessage_turn. intros H mt u.
  unfold Worker.turn in H. fold mt in H.
  cbv [bind Worker.nowISO ChatRoomDurableObject.nowISO] in H. fold u in H.
  destruct (Worker.appendEntry env u (step w)) as [[[]|m] w1] eqn:E1.
  - right.
    destruct (attemptOf_returns env mt message w1) as (ra & w2 & E2 & Hra).
    rewrite E2 in H.
    destruct (Worker.appendEntry env (snd ra) w2) as [[[]|m3] w3] eqn:E3;
      inversion H; subst; clear H;
      exists w1, ra, w2; eexists; repeat split; eauto;
      try apply Hra; exact (keepsLog_attemptOf env mt message _ _ _ E2).
  - left. inversion H; subst; clear H.
    pose proof (appendEntry_outcome env _ _ _ _ E1) as (_ & _ & Hm).
    cbn in Hm. subst m. split; reflexivity.
Qed.

(** A turn that returns has appended the user entry and then an assistant
    entry whose content is the reply. *)
Lemma turn_pair (message : string) (w : World) (reply : string) (w' : World) :
  Worker.processMessage env message w = (Return reply, w') ->
  let u0 := Worker.userEntryOf (Worker.determineMessageType message) message
              (now env (tick w)) in
  exists u a,
    logOf w' = (logOf w ++ [u; a])%list
    /\ role u = user /\ role a = assistant /\ content a = reply
    /\ JS.truthy reply = true
    /\ content u = content u0 /\ type u = type u0 /\ url u = url u0.
Proof.
  intros H u0. destruct (turn_inv _ _ _ _ H) as [[_ Hout]|Hok]; [discriminate|].
  destruct Hok as (w1 & ra & w2 & out3 & E1 & E2 & [Hrole Hcontent] & Hlog & E3 & Hout).
  destruct out3 as [[]|m]; [|discriminate].
  inversion Hout; subst reply; clear Hout.
  pose proof (appendEntry_outcome env _ _ _ _ E1) as (_ & _ & _ & L1).
  pose proof (appendEntry_outcome env _ _ _ _ E3) as (_ & _ & T3 & L3).
  cbn [logOf step dobj] in L1. fold (logOf w) in L1.
  eexists; eexists. split.
  - rewrite L3, Hlog, L1, <- app_assoc. reflexivity.
  - cbn [role content type url Worker.mkEntry]. rewrite userEntryOf_user.
    rewrite <- Hcontent. repeat split; auto.
Qed.

(** With a storage that completes its writes, a turn whose user entry and
    reply are not empty returns the reply of its try/catch block. *)
Lemma turn_total (message : string) (w : World) (out : Outcome string)
  (w' : World) (P : string * ConversationEntry -> Prop) :
  storageWorks env ->
  Worker.processMessage env message w = (out, w') ->
  JS.truthy (content (Worker.userEntryOf (Worker.determineMessageType message)
                        message (now env (tick w)))) = true ->
  yields (Worker.attemptOf env (Worker.determineMessageType message) message) P ->
  (forall ra, P ra -> JS.truthy (fst ra) = true) ->
  exists ra u a,
    P ra /\ out = Return (fst ra)
    /\ logOf w' = (logOf w ++ [u; a])%list
    /\ role u = user /\ role a = assistant /\ content a = fst ra
    /\ type a = type (snd ra) /\ url a = url (snd ra).
Proof.
  intros Hs H Hu HP Htruthy.
  destruct (appendEntry_total env _ (step w) Hs Hu) as (wa & Ea).
  destruct (turn_inv _ _ _ _ H) as [[E _]|Hok]; [congruence|].
  destruct Hok as (w1 & ra & w2 & out3 & E1 & E2 & [Hrole Hcontent] & Hlog & E3 & Hout).
  pose proof (HP _ _ _ E2) as Hra.
  assert (Hc : JS.truthy (content (snd ra)) = true)
    by (rewrite Hcontent; auto).
  destruct (appendEntry_total env _ w2 Hs Hc) as (wb & Eb).
  rewrite Eb in E3. inversion E3; subst out3 wb; clear E3.
  pose proof (appendEntry_outcome env _ _ _ _ E1) as (_ & _ & _ & L1).
  pose proof (appendEntry_outcome env _ _ _ _ Eb) as (_ & _ & _ & L3).
  cbn [logOf step dobj] in L1. fold (logOf w) in L1.
  exists ra. eexists; eexists. split; [exact Hra|]. split; [exact Hout|]. split.
  - rewrite L3, Hlog, L1, <- app_assoc. reflexivity.
  - cbn [role content type url Worker.mkEntry]. rewrite userEntryOf_user.
    repeat split; auto.
Qed.

(** A turn raises nothing but the failure of an append. *)
Lemma turn_raises_append_only (message : string) (w : World) (m : string)
  (w' : World) :
  Worker.processMessage env message w = (Throw m, w') ->
  m = "Failed to append entry to conversation".
Proof.
  intros H. destruct (turn_inv _ _ _ _ H) as [[_ Hout]|Hok].
  - now inversion Hout.
  - destruct Hok as (w1 & ra & w2 & out3 & _ & _ & _ & _ & E3 & Hout).
    destruct out3 as [[]|m3]; [discriminate|].
    inversion Hout; subst.
    exact (proj2 (proj2 (appendEntry_outcome env _ _ _ _ E3))).
Qed.

End Turn.

Section Pairing.

Import ChatRoomDO Runtime Props.
Local Open Scope string_scope.

(** What a run of inbound messages that has returned its replies has done
    to the log: two entries per message, a user entry followed by an
    assistant entry whose content is the reply. *)
Lemma processMessages_pairs (env : Oracles) (messages : list string)
  (w : World) (replies : list string) (w' : World)
  (H : Worker.processMessages env messages w = (Return replies, w')) :
  exists added,
    logOf w' = (logOf w ++ added)%list
    /\ map role added = flat_map (fun _ => [user; assistant]) messages
    /\ map content (filter (fun e => Role_eqb (role e) assistant) added) = replies
    /\ List.length (logOf w') = List.length (logOf w) + 2 * List.length messages
    /\ (logOf w = [] -> List.length (logOf w') = 2 * List.length messages).
Proof.
  revert w replies w' H.
  induction messages as [|m ms IH]; intros w replies w' H.
  - inversion H; subst. exists []. rewrite app_nil_r. cbn.
    repeat split; try lia. intros E; rewrite E; reflexivity.
  - cbn [Worker.processMessages] in H. unfold bind at 1 in H.
    destruct (Worker.processMessage env m w) as [[reply|msg] w1] eqn:E1;
      [|discriminate].
    unfold bind at 1 in H.
    destruct (Worker.processMessages env ms w1) as [[rs|msg] w2] eqn:E2;
      [|discriminate].
    inversion H; subst; clear H.
    destruct (turn_pair env _ _ _ _ E1) as (u & a & L1 & Hu & Ha & Hc & _).
    destruct (IH _ _ _ E2) as (added & L2 & Hroles & Hreplies & Hlen & _).
    exists (u :: a :: added).
    assert (Hlog : logOf w' = (logOf w ++ u :: a :: added)%list).
    { rewrite L2, L1, <- app_assoc. reflexivity. }
    assert (Hn : List.length (logOf w')
                 = List.length (logOf w) + 2 * List.length (m :: ms)).
    { rewrite Hlog, length_app. cbn [List.length].
      apply (f_equal (@List.length _)) in Hroles.
      rewrite length_map in Hroles. rewrite Hroles.
      rewrite (flat_map_constant_length (c := 2)) by reflexivity. lia. }
    repeat split.
    + exact Hlog.
    + cbn [map flat_map app]. now rewrite Hu, Ha, Hroles.
    + cbn [filter map]. rewrite Hu, Ha. cbn [Role_eqb map]. now rewrite Hc, Hreplies.
    + exact Hn.
    + intros Hempty. rewrite Hn, Hempty. reflexivity.
Qed.

End Pairing.

Section PairingExamples.

Import ChatRoomDO Runtime Props.
Local Open Scope string_scope.

(** C3, as stated, fails: the storage completes every write, the model
    answers the content message "A. B. C." with white space only, the
    trimmed reply is empty, the store refuses the assistant entry with status
    400, processMessage raises, and the log has grown by the user entry
    alone. *)
Lemma blank_summary_leaves_one_entry :
  let r := Worker.processMessage Fixtures.envBlankReply "A. B. C."
             Fixtures.freshWorld in
  storageWorks Fixtures.envBlankReply
  /\ fst r = Throw "Failed to append entry to conversation"
  /\ map role (logOf (snd r)) = [user]
  /\ storage (dobj (snd r))
     = Some {| s_entries := logOf (snd r);
               s_createdAt := "2024-12-31T23:59:59.000Z";
               s_lastAccessedAt := "2025-01-01T00:00:01.000Z" |}
  /\ ~ (forall env message w,
          storageWorks env ->
          List.length (logOf (snd (Worker.processMessage env message w)))
          = List.length (logOf w) + 2).
Proof.
  intros r. split; [intro n; reflexivity|].
  split; [vm_compute; reflexivity|].
  split; [vm_compute; reflexivity|].
  split; [vm_compute; reflexivity|].
  intros Hall.
  specialize (Hall Fixtures.envBlankReply "A. B. C." Fixtures.freshWorld
                   (fun n => eq_refl)).
  vm_compute in Hall. discriminate.
Qed.

(** The same message through /api/chat: the caller receives status 500 and
    the log keeps the user entry without an assistant entry. *)
Lemma chat_api_blank_summary :
  let r := Http.handleChatAPI Fixtures.envBlankReply
             {| Http.verb := Http.POST; Http.pathname := "/api/chat";
                Http.json := Return (Http.Fields (Http.SessionName "session_1")
                                       (Http.MessageText "A. B. C.")) |}
             Fixtures.freshWorld in
  fst r = Return (Http.addCORSHeaders
                    {| Http.status := 500; Http.headers := Http.jsonHeaders;
                       Http.body :=
                         Http.ErrorBody "Failed to append entry to conversation" |})
  /\ map content (logOf (snd r)) = ["A. B. C."].
Proof.
  split; vm_compute; reflexivity.
Qed.

End PairingExamples.

(* ================================================================== *)
(** * The URL branch *)
(* ================================================================== *)

Section UrlBranch.

Import ChatRoomDO Runtime Props.
Local Open Scope string_scope.

Variable env : Oracles.

(** generateSummary raises one error only. *)
Lemma generateSummary_outcome (text : string) (url : option string) (w : World)
  (out : Outcome string) (w' : World) :
  LlmClient.generateSummary env text url w = (out, w') ->
  match out with
  | Return reply =>
      exists s,
        (ai_run env (tick w)
           (LlmClient.buildSummaryPrompt
              (LlmClient.truncateText text LlmClient.MAX_CONTEXT_LENGTH) url)
         = RespString s
         \/ ai_run env (tick w)
              (LlmClient.buildSummaryPrompt
                 (LlmClient.truncateText text LlmClient.MAX_CONTEXT_LENGTH) url)
            = RespObject s)
        /\ reply = JS.trim s
  | Throw m => m = "Failed to generate summary. Please try again."
  end.
Proof.
  unfold LlmClient.generateSummary, bind, emit, tryCatch, LlmClient.aiRun.
  cbn [tick].
  destruct (ai_run env (tick w) _) as [s|s| |] eqn:E;
    cbn [LlmClient.readResponse ret throw]; intros H; inversion H; subst;
    try reflexivity; exists s; auto.
Qed.

Lemma urlAttempt_fetch_error (u msg : string) :
  (forall n, fetchAndExtractText env n u = Throw msg) ->
  yields (Worker.urlAttempt env u) (urlApology msg).
Proof.
  intros Hx w ra w' H.
  unfold Worker.urlAttempt, tryCatch, bind, Worker.fetchAndExtract in H.
  rewrite Hx in H. inversion H; subst. repeat split.
Qed.

Lemma urlAttempt_too_short (u text : string) :
  (forall n, fetchAndExtractText env n u = Return text) ->
  text = "" \/ String.length (JS.trim text) < 50 ->
  yields (Worker.urlAttempt env u)
    (urlApology "Could not extract meaningful content from the URL").
Proof.
  intros Hx Hbad w ra w' H.
  unfold Worker.urlAttempt, tryCatch, bind, Worker.fetchAndExtract in H.
  rewrite Hx in H.
  assert (Hb : negb (JS.truthy text)
               || (String.length (JS.trim text) <? 50)%nat = true).
  { destruct Hbad as [->|Hlt]; [reflexivity|].
    apply Nat.ltb_lt in Hlt. rewrite Hlt. apply orb_true_r. }
  rewrite Hb in H. inversion H; subst. repeat split.
Qed.

Lemma urlAttempt_generation_error (u text : string) :
  (forall n, fetchAndExtractText env n u = Return text) ->
  text <> "" ->
  50 <= String.length (JS.trim text) ->
  (forall n p, ai_run env n p = RespRejects \/ ai_run env n p = RespOther) ->
  yields (Worker.urlAttempt env u)
    (urlApology "Failed to generate summary. Please try again.").
Proof.
  intros Hx Hne Hlen Hai w ra w' H.
  assert (Hb : negb (JS.truthy text)
               || (String.length (JS.trim text) <? 50)%nat = false).
  { apply String.eqb_neq in Hne. unfold JS.truthy. rewrite Hne.
    apply Nat.ltb_ge in Hlen. now rewrite Hlen. }
  unfold Worker.urlAttempt, tryCatch in H.
  unfold bind at 1 in H. unfold Worker.fetchAndExtract at 1 in H.
  rewrite Hx, Hb in H. unfold bind at 1 in H. cbn [ret] in H.
  unfold bind at 1 in H.
  destruct (LlmClient.generateSummary env text (Some u) _)
    as [[reply|m] w1] eqn:E.
  - exfalso. apply generateSummary_outcome in E.
    destruct E as (s & [E|E] & _); cbn [tick] in E;
      destruct (Hai (S (tick w))
                  (LlmClient.buildSummaryPrompt
                     (LlmClient.truncateText text LlmClient.MAX_CONTEXT_LENGTH)
                     (Some u))); congruence.
  - apply generateSummary_outcome in E. subst m.
    inversion H; subst. repeat split.
Qed.

Lemma urlAttempt_success (u text s : string) :
  (forall n, fetchAndExtractText env n u = Return text) ->
  text <> "" ->
  50 <= String.length (JS.trim text) ->
  (forall n p, ai_run env n p = RespString s \/ ai_run env n p = RespObject s) ->
  yields (Worker.urlAttempt env u)
    (fun ra => fst ra = JS.trim s /\ type (snd ra) = Some url_summary
               /\ url (snd ra) = Some u).
Proof.
  intros Hx Hne Hlen Hai w ra w' H.
  assert (Hb : negb (JS.truthy text)
               || (String.length (JS.trim text) <? 50)%nat = false).
  { apply String.eqb_neq in Hne. unfold JS.truthy. rewrite Hne.
    apply Nat.ltb_ge in Hlen. now rewrite Hlen. }
  unfold Worker.urlAttempt, tryCatch in H.
  unfold bind at 1 in H. unfold Worker.fetchAndExtract at 1 in H.
  rewrite Hx, Hb in H. unfold bind at 1 in H. cbn [ret] in H.
  unfold bind at 1 in H.
  destruct (LlmClient.generateSummary env text (Some u) _)
    as [[reply|m] w1] eqn:E.
  - apply generateSummary_outcome in E.
    destruct E as (s' & E & ->). cbn [tick] in E.
    assert (s' = s) as ->.
    { destruct (Hai (S (tick w))
                  (LlmClient.buildSummaryPrompt
                     (LlmClient.truncateText text LlmClient.MAX_CONTEXT_LENGTH)
                     (Some u))) as [E'|E'];
        destruct E as [E|E]; congruence. }
    inversion H; subst. repeat split.
  - exfalso.
    unfold LlmClient.generateSummary, bind, emit, tryCatch, LlmClient.aiRun in E.
    cbn [tick] in E.
    destruct (Hai (S (tick w))
                (LlmClient.buildSummaryPrompt
                   (LlmClient.truncateText text LlmClient.MAX_CONTEXT_LENGTH)
                   (Some u))) as [E'|E'];
      rewrite E' in E; discriminate.
Qed.

End UrlBranch.

Section UrlBranchClaim.

Import ChatRoomDO Runtime Props.
Local Open Scope string_scope.

(** C7, as amended.  In the URL branch, with a storage that completes its
    writes: an extracted text that is empty or has fewer than 50 characters
    once trimmed is a failure; on a fetch error (a non-HTML page is one of
    them), on a text too short and on a generation error the turn returns
    the apology "Sorry, I couldn't fetch or summarize that URL. " followed by
    the message of the failure, and the assistant entry appended after the
    user entry has that content and no URL; when extraction succeeds and the
    summary is not empty the turn returns the summary, on an assistant entry
    carrying the URL.  Whenever the turn returns, its reply is the content of
    the assistant entry it appended, and the only error processMessage ever
    raises is the failure of an append, never one of extraction or
    generation. *)
Theorem url_turn_absorbs_failures (env : Oracles) (message : string)
  (w : World) (out : Outcome string) (w' : World)
  (Hurl : Worker.determineMessageType message = Worker.MT_url)
  (Hs : storageWorks env)
  (H : Worker.processMessage env message w = (out, w')) :
  let u := JS.trim message in
  (forall m, out = Throw m -> m = "Failed to append entry to conversation")
  /\ (forall reply, out = Return reply ->
        exists ue a,
          logOf w' = (logOf w ++ [ue; a])%list
          /\ role ue = user /\ url ue = Some u
          /\ role a = assistant /\ content a = reply)
  /\ (forall msg,
        (forall n, fetchAndExtractText env n u = Throw msg) ->
        absorbed w w' out
          ("Sorry, I couldn't fetch or summarize that URL. " ++ msg))
  /\ (forall text,
        (forall n, fetchAndExtractText env n u = Return text) ->
        text = "" \/ String.length (JS.trim text) < 50 ->
        absorbed w w' out
          "Sorry, I couldn't fetch or summarize that URL. Could not extract meaningful content from the URL")
  /\ (forall text,
        (forall n, fetchAndExtractText env n u = Return text) ->
        text <> "" -> 50 <= String.length (JS.trim text) ->
        (forall n p, ai_run env n p = RespRejects \/ ai_run env n p = RespOther) ->
        absorbed w w' out
          "Sorry, I couldn't fetch or summarize that URL. Failed to generate summary. Please try again.")
  /\ (forall text s,
        (forall n, fetchAndExtractText env n u = Return text) ->
        text <> "" -> 50 <= String.length (JS.trim text) ->
        (forall n p, ai_run env n p = RespString s \/ ai_run env n p = RespObject s) ->
        JS.trim s <> "" ->
        out = Return (JS.trim s)
        /\ exists ue a,
             logOf w' = (logOf w ++ [ue; a])%list
             /\ role a = assistant /\ content a = JS.trim s
             /\ url a = Some u).
Proof.
  intros u.
  assert (Hu : JS.truthy
                 (content (Worker.userEntryOf
                             (Worker.determineMessageType message) message
                             (now env (tick w)))) = true)
    by (rewrite Hurl; reflexivity).
  assert (Hfail : forall msg,
             yields (Worker.urlAttempt env u) (urlApology msg) ->
             absorbed w w' out
               ("Sorry, I couldn't fetch or summarize that URL. " ++ msg)).
  { intros msg Hy.
    destruct (turn_total env message w out w' (urlApology msg) Hs H Hu)
      as (ra & ue & a & (Hf & _ & Hnone) & Hout & Hlog & Hue & Ha & Hc & _ & Hurla).
    - rewrite Hurl. exact Hy.
    - intros ra (Hf & _). rewrite Hf. reflexivity.
    - split; [now rewrite Hout, Hf|].
      exists ue, a. rewrite Hurla, Hc, Hf. auto. }
  split; [intros m ->; exact (turn_raises_append_only env _ _ _ _ H)|].
  split.
  { intros reply ->.
    destruct (turn_pair env _ _ _ _ H) as (ue & a & Hlog & Hue & Ha & Hc & _ & _ & _ & Hurlu).
    exists ue, a. rewrite Hurlu, Hurl. auto. }
  split; [intros msg Hx; apply Hfail; now apply urlAttempt_fetch_error|].
  split; [intros text Hx Hbad; apply (Hfail _ (urlAttempt_too_short env u text Hx Hbad))|].
  split; [intros text Hx Hne Hlen Hai;
          apply (Hfail _ (urlAttempt_generation_error env u text Hx Hne Hlen Hai))|].
  intros text s Hx Hne Hlen Hai Hreply.
  destruct (turn_total env message w out w'
              (fun ra => fst ra = JS.trim s /\ type (snd ra) = Some url_summary
                         /\ url (snd ra) = Some u) Hs H Hu)
    as (ra & ue & a & (Hf & _ & Hsome) & Hout & Hlog & Hue & Ha & Hc & _ & Hurla).
  - rewrite Hurl. exact (urlAttempt_success env u text s Hx Hne Hlen Hai).
  - intros ra (Hf & _). rewrite Hf. unfold JS.truthy.
    apply String.eqb_neq in Hreply. now rewrite Hreply.
  - split; [now rewrite Hout, Hf|].
    exists ue, a. rewrite Hurla, Hc, Hf. auto.
Qed.

Lemma url_turn_absorbs_failures_witness :
  let r := Worker.processMessage Fixtures.envShortPage "https://x.com"
             Fixtures.freshWorld in
  absorbed Fixtures.freshWorld (snd r) (fst r)
    "Sorry, I couldn't fetch or summarize that URL. Could not extract meaningful content from the URL".
Proof.
  intros r.
  destruct (url_turn_absorbs_failures Fixtures.envShortPage "https://x.com"
              Fixtures.freshWorld (fst r) (snd r))
    as (_ & _ & _ & Hshort & _).
  - vm_compute. reflexivity.
  - intro n. reflexivity.
  - vm_compute. reflexivity.
  - apply (Hshort (Fixtures.replicate 30 "x")).
    + intro n. reflexivity.
    + right. vm_compute. lia.
Defined.

(** A generation error on a page of 60 characters: the apology carries the
    message of generateSummary and the assistant entry has no URL. *)
Lemma url_turn_generation_error_example :
  let r := Worker.processMessage Fixtures.envModelFails "https://x.com"
             Fixtures.freshWorld in
  fst r
  = Return "Sorry, I couldn't fetch or summarize that URL. Failed to generate summary. Please try again."
  /\ map role (logOf (snd r)) = [user; assistant]
  /\ map url (logOf (snd r)) = [Some "https://x.com"; None].
Proof.
  repeat split; vm_compute; reflexivity.
Qed.

(** C7, as stated, fails: the page yields 60 characters, the storage
    completes every write, the model answers with white space only; the
    summary is empty once trimmed, the store refuses the assistant entry, and
    the turn raises instead of returning a reply. *)
Lemma blank_summary_url_turn_raises :
  let r := Worker.processMessage Fixtures.envBlankReply "https://x.com"
             Fixtures.freshWorld in
  storageWorks Fixtures.envBlankReply
  /\ Worker.determineMessageType "https://x.com" = Worker.MT_url
  /\ fst r = Throw "Failed to append entry to conversation"
  /\ map role (logOf (snd r)) = [user]
  /\ ~ (forall env message w,
          storageWorks env ->
          Worker.determineMessageType message = Worker.MT_url ->
          exists reply, fst (Worker.processMessage env message w) = Return reply).
Proof.
  intros r. split; [intro n; reflexivity|].
  split; [vm_compute; reflexivity|].
  split; [vm_compute; reflexivity|].
  split; [vm_compute; reflexivity|].
  intros Hall.
  destruct (Hall Fixtures.envBlankReply "https://x.com" Fixtures.freshWorld
                 (fun n => eq_refl) eq_refl) as (reply & Hr).
  vm_compute in Hr. discriminate.
Qed.

End UrlBranchClaim.

(* ================================================================== *)
(** * The follow-up branch *)
(* ================================================================== *)

Section FollowupBranch.

Import ChatRoomDO Runtime Props.
Local Open Scope string_scope.

Variable env : Oracles.

Lemma lastN_snoc_nonempty (A : Type) (n : nat) (l : list A) (x d : A) :
  0 < n ->
  last (Spec.lastN n (l ++ [x])%list) d = x
  /\ Spec.lastN n (l ++ [x])%list <> [].
Proof.
  intros Hn. unfold Spec.lastN. rewrite length_app. cbn [List.length].
  rewrite skipn_app.
  replace (List.length l + 1 - n - List.length l) with 0 by lia.
  cbn [skipn]. split; [apply last_last|].
  intros E. apply app_eq_nil in E. destruct E; discriminate.
Qed.

(** On a log that is not empty the follow-up block always reaches
    answerFollowup, with the last ten entries of the log as context. *)
Lemma followupAttempt_trace (message : string) (w : World)
  (out : Outcome (string * ConversationEntry)) (w' : World) :
  storageWorks env ->
  logOf w <> [] ->
  Worker.followupAttempt env message w = (out, w') ->
  let context := Spec.lastN 10 (logOf w) in
  trace w'
  = (trace w ++ [EvAnswerFollowup message context;
                 EvAiRun (LlmClient.buildFollowupPrompt message context)])%list.
Proof.
  intros Hs Hne H context.
  destruct (getRecentEntries_total env "10" w Hs) as (w1 & E & _ & Ht).
  change (JS.neg (JS.parseInt (if JS.truthy "10" then "10" else "10")))
    with (Some (- Z.of_nat 10)%Z) in E.
  rewrite slice_last in E by lia. fold context in E.
  assert (Hlen : (List.length context =? 0)%nat = false).
  { apply Nat.eqb_neq. unfold context. rewrite lastN_length.
    destruct (logOf w); [congruence|cbn [List.length]; lia]. }
  unfold Worker.followupAttempt, tryCatch in H.
  unfold bind at 1 in H. rewrite E, Hlen in H.
  unfold LlmClient.answerFollowup, LlmClient.aiRun, bind, emit, tryCatch,
    Worker.nowISO, ChatRoomDurableObject.nowISO, step in H.
  cbn [tick trace dobj] in H.
  destruct (ai_run env (tick w1) _) as [s|s| |];
    cbn [LlmClient.readResponse ret throw] in H;
    inversion H; subst; cbn [trace]; rewrite Ht, <- app_assoc; reflexivity.
Qed.

(** In the follow-up branch, whenever the user entry has been accepted,
    generation is invoked and the context handed to it ends with the entry
    of the current question: the test on an empty context never succeeds. *)
Lemma followup_context_has_current_question (message : string) (w : World)
  (out : Outcome string) (w' : World) :
  storageWorks env ->
  Worker.determineMessageType message = Worker.MT_followup ->
  message <> "" ->
  Worker.processMessage env message w = (out, w') ->
  exists context current,
    trace w'
    = (trace w ++ [EvAnswerFollowup message context;
                   EvAiRun (LlmClient.buildFollowupPrompt message context)])%list
    /\ last context current = current
    /\ In current context
    /\ role current = user /\ content current = message
    /\ (logOf w' = (logOf w ++ [current])%list
        \/ exists a, logOf w' = (logOf w ++ [current; a])%list).
Proof.
  intros Hs Hf Hne H.
  assert (Hu : JS.truthy
                 (content (Worker.userEntryOf
                             (Worker.determineMessageType message) message
                             (now env (tick w)))) = true).
  { rewrite Hf. cbn. unfold JS.truthy. apply String.eqb_neq in Hne.
    now rewrite Hne. }
  destruct (appendEntry_total env _ (step w) Hs Hu) as (wa & Ea).
  destruct (turn_inv env _ _ _ _ H) as [[E _]|Hok]; [congruence|].
  destruct Hok as (w1 & ra & w2 & out3 & E1 & E2 & _ & Hlog & E3 & _).
  pose proof (appendEntry_outcome env _ _ _ _ E1) as (T1 & _ & _ & L1).
  pose proof (appendEntry_outcome env _ _ _ _ E3) as (T3 & _ & L3).
  cbn [logOf step dobj trace] in L1, T1. fold (logOf w) in L1.
  rewrite Hf in E2, L1. cbn [Worker.attemptOf] in E2.
  cbn [Worker.userEntryOf Worker.mkEntry role content type url createdAt] in L1.
  assert (Hne1 : logOf w1 <> []).
  { rewrite L1. intros E. apply app_eq_nil in E. destruct E; discriminate. }
  pose proof (followupAttempt_trace _ _ _ _ Hs Hne1 E2) as T2.
  cbv zeta in T2. rewrite L1 in T2.
  match type of L1 with _ = (_ ++ [?c])%list => set (current := c) in * end.
  destruct (lastN_snoc_nonempty _ 10 (logOf w) current current) as [Hlast Hnil];
    [lia|].
  exists (Spec.lastN 10 (logOf w ++ [current])%list), current.
  assert (Hin : In current (Spec.lastN 10 (logOf w ++ [current])%list)).
  { destruct (exists_last Hnil) as (l' & x & Hx). rewrite Hx in Hlast |- *.
    rewrite last_last in Hlast. subst x. apply in_or_app. right. left. reflexivity. }
  split; [rewrite T3, T2, T1; reflexivity|].
  split; [exact Hlast|]. split; [exact Hin|].
  split; [reflexivity|]. split; [reflexivity|].
  destruct out3 as [[]|m3].
  - right. destruct L3 as [_ L3]. eexists.
    rewrite L3, Hlog, L1, <- app_assoc. reflexivity.
  - left.
    destruct (JS.truthy (content (snd ra))) eqn:Hc.
    + destruct (appendEntry_total env _ w2 Hs Hc) as (wb & Eb). congruence.
    + rewrite (appendEntry_refused env _ w2 Hc) in E3.
      inversion E3; subst. now rewrite Hlog.
Qed.

End FollowupBranch.

Section FollowupExamples.

Import ChatRoomDO Runtime Props.
Local Open Scope string_scope.

(** C1.  The code does the opposite of the claim.  On a session holding two
    entries, the follow-up "What is it about?" is appended first and the
    recent entries are fetched afterwards, so the context given to
    answerFollowup is made of the two earlier entries followed by the entry
    of the current question, which the prompt then repeats under
    "Current question". *)
Theorem followup_context_includes_question :
  let question := "What is it about?" in
  let w := Fixtures.worldWith [Fixtures.e1; Fixtures.e2] in
  let r := Worker.processMessage Fixtures.envOk question w in
  let current := Worker.mkEntry user question (Some followup) None
                   "2025-01-01T00:00:00.000Z" in
  Worker.determineMessageType question = Worker.MT_followup
  /\ fst r = Return "A short summary."
  /\ trace (snd r)
     = [EvAnswerFollowup question [Fixtures.e1; Fixtures.e2; current];
        EvAiRun (LlmClient.buildFollowupPrompt question
                   [Fixtures.e1; Fixtures.e2; current])]
  /\ LlmClient.followupContextText [Fixtures.e1; Fixtures.e2; current]
     = "User submitted URL: https://x.com" ++ LlmClient.nl
       ++ "Assistant: The page is about x." ++ LlmClient.nl
       ++ "User: What is it about?" ++ LlmClient.nl.
Proof.
  repeat split; vm_compute; reflexivity.
Qed.

(** C2.  The code does not do what the claim says.  On a session whose log
    is empty the follow-up "What is it about?" finds its own entry in the
    log when the recent entries are fetched, so the context is not empty:
    answerFollowup and the model are called, and the reply is the model's
    answer, not the fixed message.  Two entries are appended. *)
Theorem followup_on_empty_log_calls_model :
  let question := "What is it about?" in
  let r := Worker.processMessage Fixtures.envOk question Fixtures.freshWorld in
  let current := Worker.mkEntry user question (Some followup) None
                   "2025-01-01T00:00:00.000Z" in
  logOf Fixtures.freshWorld = []
  /\ Worker.determineMessageType question = Worker.MT_followup
  /\ fst r = Return "A short summary."
  /\ fst r <> Return Worker.noContextReply
  /\ trace (snd r)
     = [EvAnswerFollowup question [current];
        EvAiRun (LlmClient.buildFollowupPrompt question [current])]
  /\ map role (logOf (snd r)) = [user; assistant]
  /\ map content (logOf (snd r)) = [question; "A short summary."].
Proof.
  repeat split; try (vm_compute; reflexivity).
  vm_compute. discriminate.
Qed.

End FollowupExamples.

(* ================================================================== *)
(** * The store's recent operation *)
(* ================================================================== *)

Section Recent.

Import ChatRoomDO Runtime Props.
Local Open Scope string_scope.

(** For a limit of at least 1 the handler returns the last [limit] entries
    in their order, and the whole log when there are fewer. *)
Lemma recent_positive_limit (env : Oracles) (w : World) (param : string)
  (n : nat) :
  put_ok env (S (tick w)) = true ->
  param <> "" ->
  JS.parseInt param = Some (Z.of_nat n) ->
  0 < n ->
  fst (ChatRoomDurableObject.fetch env (Fixtures.recentRequest (Some param)) w)
  = Return {| status := 200; body := RecentOk (Spec.lastN n (logOf w)) |}
  /\ (List.length (logOf w) <= n -> Spec.lastN n (logOf w) = logOf w).
Proof.
  intros Hput Hne Hparse Hn. split; [|apply lastN_all].
  unfold ChatRoomDurableObject.fetch, tryCatch.
  cbn [Fixtures.recentRequest pathname String.eqb Ascii.eqb Bool.eqb].
  rewrite handleGetRecent_eq, Hput.
  cbn [Fixtures.recentRequest limitParam JS.truthyOpt fst].
  apply String.eqb_neq in Hne. unfold JS.truthy. rewrite Hne. cbn [negb].
  rewrite Hparse. cbn [JS.neg option_map]. now rewrite slice_last.
Qed.

(** For the limit 0 the handler returns the whole log. *)
Lemma recent_zero_limit (env : Oracles) (w : World) :
  put_ok env (S (tick w)) = true ->
  fst (ChatRoomDurableObject.fetch env (Fixtures.recentRequest (Some "0")) w)
  = Return {| status := 200; body := RecentOk (logOf w) |}.
Proof.
  intros Hput.
  unfold ChatRoomDurableObject.fetch, tryCatch.
  cbn [Fixtures.recentRequest pathname String.eqb Ascii.eqb Bool.eqb].
  rewrite handleGetRecent_eq, Hput. cbn [fst].
  change (JS.neg _) with (Some 0%Z). now rewrite slice_zero.
Qed.

(** C6.  The code departs from the claim at the limit 0.  On a log of three
    entries, /recent?limit=0 answers with all three entries, where the last
    0 entries are none: [entries.slice(-0)] is [entries.slice(0)].  With the
    limits 10 and 2 the same log gives the three entries and the last two,
    in their order. *)
Theorem recent_limit_zero_returns_whole_log :
  let w := Fixtures.worldWith [Fixtures.e1; Fixtures.e2; Fixtures.e3] in
  let recent limit :=
    fst (ChatRoomDurableObject.fetch Fixtures.envOk
           (Fixtures.recentRequest (Some limit)) w) in
  recent "0"
  = Return {| status := 200;
              body := RecentOk [Fixtures.e1; Fixtures.e2; Fixtures.e3] |}
  /\ Spec.lastN 0 [Fixtures.e1; Fixtures.e2; Fixtures.e3] = []
  /\ recent "10"
     = Return {| status := 200;
                 body := RecentOk [Fixtures.e1; Fixtures.e2; Fixtures.e3] |}
  /\ recent "2"
     = Return {| status := 200; body := RecentOk [Fixtures.e2; Fixtures.e3] |}.
Proof.
  repeat split; vm_compute; reflexivity.
Qed.

End Recent.

(* ================================================================== *)
(** * Validation of appended entries *)
(* ================================================================== *)

Section Validation.

Import ChatRoomDO Runtime Props.
Local Open Scope string_scope.

Lemma truthy_nonempty (s : string) : JS.truthy s = true <-> s <> "".
Proof.
  unfold JS.truthy. rewrite negb_true_iff. apply String.eqb_neq.
Qed.

(** C10.  An /append request whose entry has no role, or whose content is
    the empty string, is answered with status 400 and changes nothing, the
    log included.  Consequently no entry with an empty content is ever in a
    log built by the store from an empty one, and the worker's appendEntry
    of an assistant entry whose content is the empty string raises and
    leaves the log as it was. *)
Theorem append_rejects_invalid_entry (env : Oracles) (w : World) (e : EntryJSON)
  (Hbad : j_role e = None \/ j_content e = Some "") :
  ChatRoomDurableObject.fetch env (Fixtures.appendRequest e) w
  = (Return {| status := 400;
               body := ErrorBody "Invalid entry: role and content are required" |},
     w)
  /\ (forall requests w0,
        logOf w0 = [] ->
        Forall (fun x => content x <> "") (logOf (serve env requests w0)))
  /\ (forall ty u t w1,
        Worker.appendEntry env (Worker.mkEntry assistant "" ty u t) w1
        = (Throw "Failed to append entry to conversation", w1)).
Proof.
  split; [|split].
  - unfold ChatRoomDurableObject.fetch, tryCatch.
    cbn [Fixtures.appendRequest pathname String.eqb Ascii.eqb Bool.eqb].
    rewrite (handleAppend_rejected env w _ e); try reflexivity.
    destruct Hbad as [Hr|Hc]; [left; exact Hr|right; rewrite Hc; reflexivity].
  - intros requests w0 Hempty.
    assert (H0 : Forall (fun x => JS.truthy (content x) = true) (logOf w0))
      by (rewrite Hempty; constructor).
    apply (serve_contents env requests) in H0.
    eapply Forall_impl; [|exact H0].
    intros x Hx. now apply truthy_nonempty.
  - intros ty u t w1. now apply appendEntry_refused.
Qed.

Lemma append_rejects_invalid_entry_witness :
  let e := {| j_role := Some assistant; j_content := Some "";
              j_type := Some followup; j_url := None;
              j_createdAt := Some "2025-01-01T00:00:00.000Z" |} in
  let w := Fixtures.worldWith [Fixtures.e1] in
  ChatRoomDurableObject.fetch Fixtures.envOk (Fixtures.appendRequest e) w
  = (Return {| status := 400;
               body := ErrorBody "Invalid entry: role and content are required" |},
     w).
Proof.
  intros e w.
  apply (append_rejects_invalid_entry Fixtures.envOk w e).
  right. reflexivity.
Defined.

End Validation.

(* ================================================================== *)
(** * lastAccessedAt *)
(* ================================================================== *)

Section AccessTime.

Import ChatRoomDO Runtime Props.
Local Open Scope string_scope.

(** C9, as amended.  An accepted append, recent and clear set the
    lastAccessedAt of the session's object to the clock reading they take,
    and write it to the storage when the write completes; the stats read
    changes nothing, lastAccessedAt included. *)
Theorem access_time_updates (env : Oracles) (w : World) (e : EntryJSON)
  (r : Role) (c : string)
  (Hr : j_role e = Some r) (Hc : j_content e = Some c) (Hne : c <> "") :
  let after req := dobj (snd (ChatRoomDurableObject.fetch env req w)) in
  let persisted d := option_map s_lastAccessedAt (storage d) in
  lastAccessedAt (after (Fixtures.appendRequest e))
  = now env (if JS.truthyOpt (j_createdAt e) then tick w else S (tick w))
  /\ (forall limit,
        lastAccessedAt (after (Fixtures.recentRequest limit)) = now env (tick w))
  /\ lastAccessedAt (after Fixtures.clearRequest) = now env (tick w)
  /\ snd (ChatRoomDurableObject.fetch env Fixtures.statsRequest w) = w
  /\ (storageWorks env ->
      persisted (after (Fixtures.appendRequest e))
      = Some (lastAccessedAt (after (Fixtures.appendRequest e)))
      /\ (forall limit,
            persisted (after (Fixtures.recentRequest limit))
            = Some (now env (tick w)))
      /\ persisted (after Fixtures.clearRequest) = Some (now env (tick w))).
Proof.
  cbv beta zeta.
  apply truthy_nonempty in Hne.
  assert (Happ :
    ChatRoomDurableObject.fetch env (Fixtures.appendRequest e) w
    = tryCatch (ChatRoomDurableObject.handleAppend env (Fixtures.appendRequest e))
        (fun _ => ret {| status := 500;
                         body := ErrorBody "Internal server error" |}) w)
    by reflexivity.
  assert (Hrec : forall limit,
    ChatRoomDurableObject.fetch env (Fixtures.recentRequest limit) w
    = tryCatch (ChatRoomDurableObject.handleGetRecent env
                  (Fixtures.recentRequest limit))
        (fun _ => ret {| status := 500;
                         body := ErrorBody "Internal server error" |}) w)
    by reflexivity.
  assert (Hclr :
    ChatRoomDurableObject.fetch env Fixtures.clearRequest w
    = tryCatch (ChatRoomDurableObject.handleClear env)
        (fun _ => ret {| status := 500;
                         body := ErrorBody "Internal server error" |}) w)
    by reflexivity.
  rewrite Happ, Hclr. unfold tryCatch.
  rewrite (handleAppend_accepted env w _ e r c) by (try reflexivity; assumption).
  rewrite handleClear_eq.
  repeat split.
  - destruct (put_ok env _); reflexivity.
  - intros limit. rewrite Hrec. unfold tryCatch. rewrite handleGetRecent_eq.
    destruct (put_ok env _); reflexivity.
  - destruct (put_ok env _); reflexivity.
  - rewrite !H. reflexivity.
  - intros limit. rewrite Hrec. unfold tryCatch. rewrite handleGetRecent_eq.
    rewrite H. reflexivity.
  - rewrite H. reflexivity.
Qed.

Lemma access_time_updates_witness :
  let e := {| j_role := Some user; j_content := Some "hello";
              j_type := Some followup; j_url := None; j_createdAt := None |} in
  let w := Fixtures.worldWith [Fixtures.e1] in
  lastAccessedAt
    (dobj (snd (ChatRoomDurableObject.fetch Fixtures.envOk
                  (Fixtures.appendRequest e) w)))
  = "2025-01-01T00:00:01.000Z".
Proof.
  intros e w.
  destruct (access_time_updates Fixtures.envOk w e user "hello") as [H _].
  - reflexivity.
  - reflexivity.
  - discriminate.
  - exact H.
Defined.

(** C9, as stated, fails on the stats read: the clock reads
    2025-01-01T00:00:00.000Z, and after /stats the object still carries the
    lastAccessedAt it had, 2024-12-31T10:00:02.000Z. *)
Lemma stats_leaves_lastAccessedAt :
  let w := Fixtures.worldWith [Fixtures.e1] in
  let r := ChatRoomDurableObject.fetch Fixtures.envOk Fixtures.statsRequest w in
  fst r = Return {| status := 200;
                    body := StatsOk 1 "2024-12-31T09:00:00.000Z"
                                    "2024-12-31T10:00:02.000Z" |}
  /\ lastAccessedAt (dobj (snd r)) = "2024-12-31T10:00:02.000Z"
  /\ now Fixtures.envOk (tick w) = "2025-01-01T00:00:00.000Z"
  /\ ~ (forall env w0,
          lastAccessedAt
            (dobj (snd (ChatRoomDurableObject.fetch env Fixtures.statsRequest w0)))
          = now env (tick w0)).
Proof.
  intros w r. repeat split; try (vm_compute; reflexivity).
  intros Hall. specialize (Hall Fixtures.envOk w). vm_compute in Hall.
  discriminate.
Qed.

End AccessTime.

(* ================================================================== *)
(** * Every turn completes *)
(* ================================================================== *)

Section Replies.

Import ChatRoomDO Runtime Props.
Local Open Scope string_scope.

Variable env : Oracles.

Lemma yields_tryCatch (A : Type) (body : M A) (handler : string -> M A)
  (Q : A -> Prop) :
  yields body Q -> (forall msg, yields (handler msg) Q) ->
  yields (tryCatch body handler) Q.
Proof.
  intros Hb Hh w a w' H. unfold tryCatch in H.
  destruct (body w) as [[b|msg] w1] eqn:E.
  - inversion H; subst. exact (Hb _ _ _ E).
  - exact (Hh msg _ _ _ H).
Qed.

Lemma yields_bind_with (A B : Type) (m : M A) (k : A -> M B)
  (P : A -> Prop) (Q : B -> Prop) :
  yields m P -> (forall a, P a -> yields (k a) Q) -> yields (bind m k) Q.
Proof.
  intros Hm Hk w b w' H. unfold bind in H.
  destruct (m w) as [[a|msg] w1] eqn:E; [|discriminate].
  exact (Hk a (Hm _ _ _ E) _ _ _ H).
Qed.

(** answerFollowup raises one error only. *)
Lemma answerFollowup_outcome (question : string)
  (context : list ConversationEntry) (w : World)
  (out : Outcome string) (w' : World) :
  LlmClient.answerFollowup env question context w = (out, w') ->
  match out with
  | Return reply =>
      exists s,
        (ai_run env (tick w) (LlmClient.buildFollowupPrompt question context)
         = RespString s
         \/ ai_run env (tick w)
              (LlmClient.buildFollowupPrompt question context)
            = RespObject s)
        /\ reply = JS.trim s
  | Throw m => m = "Failed to answer question. Please try again."
  end.
Proof.
  unfold LlmClient.answerFollowup, bind, emit, tryCatch, LlmClient.aiRun.
  cbn [tick].
  destruct (ai_run env (tick w) _) as [s|s| |] eqn:E;
    cbn [LlmClient.readResponse ret throw]; intros H; inversion H; subst;
    try reflexivity; exists s; auto.
Qed.

(** The model never answers with white space only. *)
Hypothesis model_not_blank :
  forall n p s,
    ai_run env n p = RespString s \/ ai_run env n p = RespObject s ->
    JS.trim s <> "".

Lemma generateSummary_not_blank (text : string) (url : option string) :
  yields (LlmClient.generateSummary env text url)
    (fun reply => JS.truthy reply = true).
Proof.
  intros w reply w' H. apply generateSummary_outcome in H.
  destruct H as (s & Hs & ->). apply truthy_nonempty.
  exact (model_not_blank _ _ _ Hs).
Qed.

Lemma answerFollowup_not_blank (question : string)
  (context : list ConversationEntry) :
  yields (LlmClient.answerFollowup env question context)
    (fun reply => JS.truthy reply = true).
Proof.
  intros w reply w' H. apply answerFollowup_outcome in H.
  destruct H as (s & Hs & ->). apply truthy_nonempty.
  exact (model_not_blank _ _ _ Hs).
Qed.

(** Whatever the try/catch of a branch ends with, a summary, an answer or
    an apology, its reply is not empty. *)
Lemma attemptOf_not_blank (mt : Worker.MessageType) (message : string) :
  yields (Worker.attemptOf env mt message)
    (fun ra => JS.truthy (fst ra) = true).
Proof.
  destruct mt; cbn [Worker.attemptOf];
    [unfold Worker.urlAttempt|unfold Worker.contentAttempt
    |unfold Worker.followupAttempt];
    (apply yields_tryCatch;
     [|intro msg; apply yields_bind; intro t; apply yields_ret; reflexivity]).
  - apply yields_bind; intro text. apply yields_bind; intros _.
    eapply yields_bind_with; [apply generateSummary_not_blank|].
    intros reply Hr. apply yields_bind; intro t. apply yields_ret. exact Hr.
  - eapply yields_bind_with; [apply generateSummary_not_blank|].
    intros reply Hr. apply yields_bind; intro t. apply yields_ret. exact Hr.
  - apply yields_bind; intro context.
    apply yields_bind_with with (P := fun reply => JS.truthy reply = true).
    + destruct (List.length context =? 0)%nat;
        [apply yields_ret; reflexivity|apply answerFollowup_not_blank].
    + intros reply Hr. apply yields_bind; intro t. apply yields_ret. exact Hr.
Qed.

(** With a storage that completes its writes, every turn on a message that
    is not empty returns. *)
Lemma turn_returns (message : string) (w : World) :
  storageWorks env -> message <> "" ->
  exists reply w', Worker.processMessage env message w = (Return reply, w').
Proof.
  intros Hs Hne.
  destruct (Worker.processMessage env message w) as [out w'] eqn:H.
  destruct (turn_total env message w out w'
              (fun ra => JS.truthy (fst ra) = true) Hs H)
    as (ra & _ & _ & _ & Hout & _).
  - destruct (Worker.determineMessageType message);
      cbn [Worker.userEntryOf Worker.mkEntry content];
      [reflexivity|now apply truthy_nonempty|now apply truthy_nonempty].
  - apply attemptOf_not_blank.
  - auto.
  - exists (fst ra), w'. now rewrite Hout.
Qed.

Lemma processMessages_returns (messages : list string) (w : World) :
  storageWorks env -> Forall (fun m => m <> "") messages ->
  exists replies w',
    Worker.processMessages env messages w = (Return replies, w').
Proof.
  intros Hs Hm. revert w.
  induction Hm as [|m ms Hne Hms IH]; intros w.
  - exists [], w. reflexivity.
  - destruct (turn_returns m w Hs Hne) as (reply & w1 & E1).
    destruct (IH w1) as (replies & w2 & E2).
    exists (reply :: replies), w2.
    cbn [Worker.processMessages]. unfold bind. now rewrite E1, E2.
Qed.

End Replies.

Section PairingClaim.

Import ChatRoomDO Runtime Props.
Local Open Scope string_scope.

(** C3, as amended.  With a storage that completes every write (no
    StorageFailure), inbound messages that are not empty (what /api/chat lets
    through) and a model that never answers with white space only, every
    message is processed to a reply, whatever the extractor and the model do,
    their failures included, and the log grows by exactly two entries per
    message: a user entry followed by an assistant entry whose content is
    the reply.  After N messages on an empty log the log has 2N entries. *)
Theorem processMessages_log_length (env : Oracles) (messages : list string)
  (w : World)
  (Hs : storageWorks env)
  (Hm : Forall (fun m => m <> "") messages)
  (Hai : forall n p s,
           ai_run env n p = RespString s \/ ai_run env n p = RespObject s ->
           JS.trim s <> "") :
  exists replies w' added,
    Worker.processMessages env messages w = (Return replies, w')
    /\ logOf w' = (logOf w ++ added)%list
    /\ map role added = flat_map (fun _ => [user; assistant]) messages
    /\ map content (filter (fun e => Role_eqb (role e) assistant) added) = replies
    /\ List.length (logOf w') = List.length (logOf w) + 2 * List.length messages
    /\ (logOf w = [] -> List.length (logOf w') = 2 * List.length messages).
Proof.
  destruct (processMessages_returns env Hai messages w Hs Hm)
    as (replies & w' & E).
  destruct (processMessages_pairs env messages w replies w' E)
    as (added & Hlog & Hroles & Hreplies & Hlen & Hempty).
  exists replies, w', added. repeat split; assumption.
Qed.

Lemma processMessages_log_length_witness :
  let messages := ["https://x.com"; "A. B. C."; "What is it about?"] in
  let r := Worker.processMessages Fixtures.envModelFails messages
             Fixtures.freshWorld in
  fst r
  = Return ["Sorry, I couldn't fetch or summarize that URL. Failed to generate summary. Please try again.";
            "Sorry, I couldn't generate a summary. Failed to generate summary. Please try again.";
            "Sorry, I couldn't answer your question. Failed to answer question. Please try again."]
  /\ List.length (logOf (snd r)) = 6.
Proof.
  intros messages r. split; [vm_compute; reflexivity|].
  destruct (processMessages_log_length Fixtures.envModelFails messages
              Fixtures.freshWorld)
    as (replies & w' & added & E & _ & _ & _ & _ & Hlen).
  - intro n. reflexivity.
  - repeat constructor; discriminate.
  - intros n p s [H|H]; discriminate H.
  - subst r. rewrite E. apply Hlen. reflexivity.
Defined.

End PairingClaim.

(* ================================================================== *)
(** * createdAt *)
(* ================================================================== *)

Section Stamps.

Import ChatRoomDO Runtime Props.
Local Open Scope string_scope.

Variable env : Oracles.





End Stamps.

Section StampsOfTurns.

Import ChatRoomDO Runtime Props.
Local Open Scope string_scope.

Variable env : Oracles.























End StampsOfTurns.

Section StampsClaim.

Import ChatRoomDO Runtime Props.
Local Open Scope string_scope.




End StampsClaim.

(* ================================================================== *)
(** * More on the store: every request, one at a time *)
(* ================================================================== *)

Ltac solve_rewritten :=
  unfold Props.rewritten, Props.synced, Props.logOf;
  cbn [Runtime.dobj Runtime.tick Runtime.trace ChatRoomDO.entries
       ChatRoomDO.doCreatedAt ChatRoomDO.lastAccessedAt ChatRoomDO.storage];
  cbn [Nat.pred];
  repeat split; try reflexivity; try lia;
  try (symmetry; assumption);
  try (eexists; split; [|reflexivity]; lia).

Section StoreRequests.

Import ChatRoomDO Runtime Props.
Local Open Scope string_scope.

Variable env : Oracles.

(** What [fetch] does with a request: it always answers; either nothing has
    changed, or a handler that writes has run. *)
Lemma fetch_outcome (r : Request) (w : World) :
  exists resp w',
    ChatRoomDurableObject.fetch env r w = (Return resp, w')
    /\ ((w' = w
         /\ (status resp = 400 \/ status resp = 404 \/ status resp = 405
             \/ (status resp = 500 /\ pathname r = "/append" /\ json r = None)
             \/ (pathname r = "/stats"
                 /\ resp = {| status := 200;
                              body := StatsOk (List.length (logOf w))
                                        (doCreatedAt (dobj w))
                                        (lastAccessedAt (dobj w)) |})))
        \/ exists es written,
             rewritten env w w' es written
             /\ status resp = (if written then 200 else 500)
             /\ ((pathname r = "/recent" /\ es = logOf w)
                 \/ (pathname r = "/clear" /\ es = [])
                 \/ (pathname r = "/append"
                     /\ resp = (if written
                                then {| status := 200;
                                        body := AppendOk (List.length es) |}
                                else {| status := 500;
                                        body := ErrorBody "Internal server error" |})
                     /\ exists e, es = (logOf w ++ [e])%list
                                  /\ JS.truthy (content e) = true))).
Proof.
  unfold ChatRoomDurableObject.fetch, tryCatch.
  destruct (String.eqb (pathname r) "/append") eqn:Ha.
  { apply String.eqb_eq in Ha.
    destruct (method r) eqn:Hm.
    - unfold ChatRoomDurableObject.handleAppend. rewrite Hm.
      eexists; eexists; split; [reflexivity|]. left. cbn. auto.
    - destruct (json r) as [j|] eqn:Hj.
      + assert (Hrej : j_role j = None \/ JS.truthyOpt (j_content j) = false ->
                       exists resp w',
                         (let (o, w'0) := ChatRoomDurableObject.handleAppend env r w in
                          match o with
                          | Return a => (Return a, w'0)
                          | Throw _ =>
                              ret {| status := 500;
                                     body := ErrorBody "Internal server error" |} w'0
                          end) = (Return resp, w')
                         /\ w' = w /\ status resp = 400).
        { intros Hbad. rewrite (handleAppend_rejected env w r j Hm Hj Hbad).
          eexists; eexists; repeat split. }
        destruct (j_role j) as [ro|] eqn:Hr;
          [|destruct Hrej as (resp & w' & E & -> & Hst); [now left|];
            exists resp, w; split; [exact E|left; auto]].
        destruct (j_content j) as [c|] eqn:Hc;
          [|destruct Hrej as (resp & w' & E & -> & Hst); [now right|];
            exists resp, w; split; [exact E|left; auto]].
        destruct (JS.truthy c) eqn:Ht;
          [|destruct Hrej as (resp & w' & E & -> & Hst); [now right|];
            exists resp, w; split; [exact E|left; auto]].
        clear Hrej.
        rewrite (handleAppend_accepted env w r j ro c Hm Hj Hr Hc Ht).
        destruct (JS.truthyOpt (j_createdAt j));
          destruct (put_ok env _) eqn:Hput; cbn [ret];
          eexists; eexists; (split; [reflexivity|]); right;
          eexists; [exists true|exists false|exists true|exists false];
          (split; [solve_rewritten|]);
          (split; [reflexivity|]); right; right;
          (split; [exact Ha|]); (split; [reflexivity|]);
          eexists; (split; [reflexivity|]); exact Ht.
      + unfold ChatRoomDurableObject.handleAppend. rewrite Hm. run_js.
        rewrite Hj. eexists; eexists; split; [reflexivity|]. left. cbn. auto 10. }
  destruct (String.eqb (pathname r) "/recent") eqn:Hrec.
  { apply String.eqb_eq in Hrec. rewrite handleGetRecent_eq.
    destruct (put_ok env _) eqn:Hput; cbn [ret];
      eexists; eexists; (split; [reflexivity|]); right;
      exists (logOf w); [exists true|exists false];
      (split; [solve_rewritten|]); (split; [reflexivity|]); left; auto. }
  destruct (String.eqb (pathname r) "/clear") eqn:Hclr.
  { apply String.eqb_eq in Hclr. rewrite handleClear_eq.
    destruct (put_ok env _) eqn:Hput; cbn [ret];
      eexists; eexists; (split; [reflexivity|]); right;
      exists []; [exists true|exists false];
      (split; [solve_rewritten|]); (split; [reflexivity|]); right; left; auto. }
  destruct (String.eqb (pathname r) "/stats") eqn:Hst.
  { apply String.eqb_eq in Hst.
    eexists; eexists; split; [reflexivity|]. left. split; [reflexivity|].
    do 4 right. split; [exact Hst|reflexivity]. }
  eexists; eexists; split; [reflexivity|]. left. cbn. auto.
Qed.

End StoreRequests.

Section StoreProperties.

Import ChatRoomDO Runtime Props.
Local Open Scope string_scope.

Lemma slice_suffix (A : Type) (start : option Z) (l : list A) :
  exists older, l = (older ++ JS.slice start l)%list.
Proof.
  unfold JS.slice. eexists. symmetry. apply firstn_skipn.
Qed.

Lemma slice_positive (A : Type) (k : nat) (l : list A) :
  JS.slice (Some (Z.of_nat k)) l = skipn k l.
Proof.
  unfold JS.slice.
  assert (Hk : (Z.of_nat k <? 0)%Z = false) by (apply Z.ltb_ge; lia).
  rewrite Hk.
  destruct (Nat.le_gt_cases k (List.length l)) as [Hle|Hgt].
  - f_equal. lia.
  - rewrite (skipn_all2 l (n := k)) by lia.
    apply skipn_all2. lia.
Qed.

Lemma lastN_one_snoc (A : Type) (l : list A) (x : A) :
  Spec.lastN 1 (l ++ [x])%list = [x].
Proof. exact (lastN_app A l [x]). Qed.

(** X1.  Round trip of the store: once an entry has been accepted by
    /append, /recent?limit=1 answers with exactly that entry, as committed:
    the role, content, type and url of the request, and the createdAt of the
    request or, without one, the clock reading of the append. *)
Theorem append_then_recent_round_trip (env : Oracles) (w : World)
  (e : EntryJSON) (r : Role) (c : string)
  (Hs : storageWorks env)
  (Hr : j_role e = Some r) (Hc : j_content e = Some c) (Hne : c <> "") :
  let w1 := snd (ChatRoomDurableObject.fetch env (Fixtures.appendRequest e) w) in
  fst (ChatRoomDurableObject.fetch env (Fixtures.recentRequest (Some "1")) w1)
  = Return {| status := 200;
              body := RecentOk
                        [{| role := r; content := c; type := j_type e;
                            url := j_url e;
                            createdAt :=
                              if JS.truthyOpt (j_createdAt e)
                              then match j_createdAt e with
                                   | Some t => t
                                   | None => ""
                                   end
                              else now env (tick w) |}] |}.
Proof.
  intros w1.
  assert (Hlog : logOf w1
                 = (logOf w
                    ++ [{| role := r; content := c; type := j_type e;
                           url := j_url e;
                           createdAt :=
                             if JS.truthyOpt (j_createdAt e)
                             then match j_createdAt e with
                                  | Some t => t
                                  | None => ""
                                  end
                             else now env (tick w) |}])%list).
  { subst w1. apply truthy_nonempty in Hne.
    change (ChatRoomDurableObject.fetch env (Fixtures.appendRequest e) w)
      with (tryCatch
              (ChatRoomDurableObject.handleAppend env (Fixtures.appendRequest e))
              (fun _ => ret {| status := 500;
                               body := ErrorBody "Internal server error" |}) w).
    unfold tryCatch.
    rewrite (handleAppend_accepted env w _ e r c) by (try reflexivity; assumption).
    rewrite Hs. reflexivity. }
  destruct (recent_positive_limit env w1 "1" 1) as [Hrec _];
    try reflexivity; try lia; try discriminate; [apply Hs|].
  rewrite Hrec, Hlog, lastN_one_snoc. reflexivity.
Qed.

Lemma append_then_recent_round_trip_witness :
  let e := {| j_role := Some user; j_content := Some "hello";
              j_type := Some followup; j_url := None; j_createdAt := None |} in
  let w1 := snd (ChatRoomDurableObject.fetch Fixtures.envOk
                   (Fixtures.appendRequest e)
                   (Fixtures.worldWith [Fixtures.e1; Fixtures.e2])) in
  fst (ChatRoomDurableObject.fetch Fixtures.envOk
         (Fixtures.recentRequest (Some "1")) w1)
  = Return {| status := 200;
              body := RecentOk
                        [{| role := user; content := "hello";
                            type := Some followup; url := None;
                            createdAt := "2025-01-01T00:00:00.000Z" |}] |}.
Proof.
  intros e w1.
  apply (append_then_recent_round_trip Fixtures.envOk
           (Fixtures.worldWith [Fixtures.e1; Fixtures.e2]) e user "hello").
  - intro n. reflexivity.
  - reflexivity.
  - reflexivity.
  - discriminate.
Defined.

(** X2.  The store always answers and never raises; a request it answers
    with status 400, 404 or 405 has changed nothing, neither the object nor
    its storage, and neither has a /stats request, whose answer is the
    length of the log with the two timestamps of the object. *)
Theorem fetch_rejections_change_nothing (env : Oracles) (r : Request)
  (w : World) :
  exists resp w',
    ChatRoomDurableObject.fetch env r w = (Return resp, w')
    /\ (status resp = 200 \/ status resp = 400 \/ status resp = 404
        \/ status resp = 405 \/ status resp = 500)
    /\ (status resp = 400 \/ status resp = 404 \/ status resp = 405 -> w' = w)
    /\ (pathname r = "/stats" ->
        w' = w
        /\ resp = {| status := 200;
                     body := StatsOk (List.length (logOf w))
                               (doCreatedAt (dobj w))
                               (lastAccessedAt (dobj w)) |}).
Proof.
  destruct (fetch_outcome env r w) as (resp & w' & E & Hcases).
  exists resp, w'. split; [exact E|].
  destruct Hcases as [[-> Hst]|(es & written & Hrw & Hst & Hpath)].
  - split; [|split; [auto|]].
    + destruct Hst as [H|[H|[H|[(H & _)|(_ & ->)]]]]; rewrite ?H; cbn; auto.
    + intros Hstats.
      destruct Hst as [H|[H|[H|[(_ & H & _)|(_ & ->)]]]]; auto.
      all: revert E; unfold ChatRoomDurableObject.fetch, tryCatch;
        rewrite Hstats; cbn; intros E; inversion E; subst; auto;
        try (cbn in H; discriminate H).
  - split; [destruct written; rewrite Hst; auto|].
    split.
    + intros [H|[H|H]]; rewrite Hst in H; destruct written; discriminate H.
    + intros Hstats. exfalso.
      destruct Hpath as [(H & _)|[(H & _)|(H & _)]]; rewrite Hstats in H;
        discriminate H.
Qed.

End StoreProperties.

Section StorePersistence.

Import ChatRoomDO Runtime Props.
Local Open Scope string_scope.

(** X3.  When the storage write of an accepted append does not complete,
    the store answers 500, yet the entry stays in the log held in memory
    while the record in the storage is the old one: the caller is told of a
    failure although later reads of the same object return the entry. *)
Theorem append_storage_failure_keeps_entry (env : Oracles) (w : World)
  (e : EntryJSON) (r : Role) (c : string)
  (Hr : j_role e = Some r) (Hc : j_content e = Some c) (Hne : c <> "")
  (Hfail : put_ok env (S (if JS.truthyOpt (j_createdAt e)
                          then tick w else S (tick w))) = false) :
  let res := ChatRoomDurableObject.fetch env (Fixtures.appendRequest e) w in
  fst res = Return {| status := 500; body := ErrorBody "Internal server error" |}
  /\ (exists x,
        logOf (snd res) = (logOf w ++ [x])%list
        /\ role x = r /\ content x = c)
  /\ storage (dobj (snd res)) = storage (dobj w)
  /\ fst (Worker.appendEntry env
            {| role := r; content := c; type := j_type e; url := j_url e;
               createdAt := match j_createdAt e with
                            | Some t => t
                            | None => ""
                            end |} w)
     = Throw "Failed to append entry to conversation".
Proof.
  intros res. subst res. apply truthy_nonempty in Hne.
  change (ChatRoomDurableObject.fetch env (Fixtures.appendRequest e) w)
    with (tryCatch
            (ChatRoomDurableObject.handleAppend env (Fixtures.appendRequest e))
            (fun _ => ret {| status := 500;
                             body := ErrorBody "Internal server error" |}) w).
  unfold tryCatch.
  rewrite (handleAppend_accepted env w _ e r c) by (try reflexivity; assumption).
  rewrite Hfail. cbn [ret fst snd logOf dobj entries storage].
  repeat split; [eexists; repeat split|].
  unfold Worker.appendEntry, bind. rewrite doFetch_append. unfold tryCatch.
  rewrite (handleAppend_accepted env w _ _ r c) by (try reflexivity; assumption).
  cbn [toJSON j_createdAt JS.truthyOpt j_type j_url createdAt].
  assert (Hsame : JS.truthy (match j_createdAt e with
                             | Some t => t
                             | None => ""
                             end)
                  = JS.truthyOpt (j_createdAt e))
    by (destruct (j_createdAt e); reflexivity).
  rewrite Hsame, Hfail. reflexivity.
Qed.

Lemma append_storage_failure_keeps_entry_witness :
  let e := {| j_role := Some user; j_content := Some "hello";
              j_type := Some followup; j_url := None; j_createdAt := None |} in
  let res := ChatRoomDurableObject.fetch Fixtures.envStorageDown
               (Fixtures.appendRequest e) Fixtures.freshWorld in
  fst res = Return {| status := 500; body := ErrorBody "Internal server error" |}
  /\ storage (dobj (snd res)) = None.
Proof.
  intros e res.
  destruct (append_storage_failure_keeps_entry Fixtures.envStorageDown
              Fixtures.freshWorld e user "hello")
    as (H1 & _ & H3 & _).
  - reflexivity.
  - reflexivity.
  - discriminate.
  - reflexivity.
  - split; [exact H1|exact H3].
Defined.

(** X4.  With a storage that completes its writes, the record in the
    storage mirrors the object after every request: /recent, /clear and an
    accepted /append leave the two in step whatever they were before, and
    no request breaks the agreement once it holds. *)
Theorem storage_mirrors_memory (env : Oracles) (Hs : storageWorks env) :
  (forall r w,
     synced (dobj w) ->
     synced (dobj (snd (ChatRoomDurableObject.fetch env r w))))
  /\ (forall requests w,
        synced (dobj w) -> synced (dobj (serve env requests w)))
  /\ (forall w limit,
        synced (dobj (snd (ChatRoomDurableObject.fetch env
                             (Fixtures.recentRequest limit) w))))
  /\ (forall w,
        synced (dobj (snd (ChatRoomDurableObject.fetch env
                             Fixtures.clearRequest w))))
  /\ (forall w e r c,
        j_role e = Some r -> j_content e = Some c -> c <> "" ->
        synced (dobj (snd (ChatRoomDurableObject.fetch env
                             (Fixtures.appendRequest e) w)))).
Proof.
  assert (Hstep : forall r w,
            synced (dobj w) ->
            synced (dobj (snd (ChatRoomDurableObject.fetch env r w)))).
  { intros r w Hw.
    destruct (fetch_outcome env r w) as (resp & w' & E & Hcases).
    rewrite E. cbn [snd].
    destruct Hcases as [[-> _]|(es & written & Hrw & _)]; [exact Hw|].
    destruct Hrw as (_ & _ & _ & _ & _ & Hwr & Hsync).
    rewrite Hs in Hwr. subst written. exact Hsync. }
  split; [exact Hstep|]. split.
  { intros requests. induction requests as [|r rs IH]; intros w Hw; [exact Hw|].
    cbn [serve fold_left]. apply IH, Hstep, Hw. }
  split.
  { intros w limit.
    change (ChatRoomDurableObject.fetch env (Fixtures.recentRequest limit) w)
      with (tryCatch
              (ChatRoomDurableObject.handleGetRecent env
                 (Fixtures.recentRequest limit))
              (fun _ => ret {| status := 500;
                               body := ErrorBody "Internal server error" |}) w).
    unfold tryCatch. rewrite handleGetRecent_eq, Hs. reflexivity. }
  split.
  { intros w.
    change (ChatRoomDurableObject.fetch env Fixtures.clearRequest w)
      with (tryCatch (ChatRoomDurableObject.handleClear env)
              (fun _ => ret {| status := 500;
                               body := ErrorBody "Internal server error" |}) w).
    unfold tryCatch. rewrite handleClear_eq, Hs. reflexivity. }
  intros w e r c Hr Hc Hne. apply truthy_nonempty in Hne.
  change (ChatRoomDurableObject.fetch env (Fixtures.appendRequest e) w)
    with (tryCatch
            (ChatRoomDurableObject.handleAppend env (Fixtures.appendRequest e))
            (fun _ => ret {| status := 500;
                             body := ErrorBody "Internal server error" |}) w).
  unfold tryCatch.
  rewrite (handleAppend_accepted env w _ e r c) by (try reflexivity; assumption).
  rewrite Hs. reflexivity.
Qed.

Lemma storage_mirrors_memory_witness :
  synced (dobj (serve Fixtures.envOk
                  [Fixtures.recentRequest None; Fixtures.statsRequest;
                   Fixtures.clearRequest]
                  (Fixtures.worldWith [Fixtures.e1]))).
Proof.
  destruct (storage_mirrors_memory Fixtures.envOk (fun n => eq_refl))
    as (_ & Hserve & Hrecent & _).
  apply (Hserve [Fixtures.statsRequest; Fixtures.clearRequest]
           (snd (ChatRoomDurableObject.fetch Fixtures.envOk
                   (Fixtures.recentRequest None)
                   (Fixtures.worldWith [Fixtures.e1])))).
  apply Hrecent.
Defined.

(** X5.  Restart round trip: an object whose storage mirrors it and whose
    two timestamps are not empty is rebuilt by the constructor, from that
    storage, exactly as it was, whatever the clock reads at the restart. *)
Theorem restart_restores_object (d : Instance) (t : string)
  (Hsync : synced d)
  (Hcreated : doCreatedAt d <> "") (Haccessed : lastAccessedAt d <> "") :
  ChatRoomDurableObject.construct t (storage d) = d.
Proof.
  unfold synced in Hsync. destruct d as [es cr la st]. cbn in *.
  subst st. cbn.
  apply truthy_nonempty in Hcreated, Haccessed.
  now rewrite Hcreated, Haccessed.
Qed.

Lemma restart_restores_object_witness :
  let d := dobj (snd (ChatRoomDurableObject.fetch Fixtures.envOk
                        (Fixtures.recentRequest None)
                        (Fixtures.worldWith [Fixtures.e1; Fixtures.e2]))) in
  ChatRoomDurableObject.construct "2026-01-01T00:00:00.000Z" (storage d) = d.
Proof.
  intros d. apply restart_restores_object.
  - reflexivity.
  - discriminate.
  - discriminate.
Defined.

(** X6.  The log is append-only: as long as no /clear is served, whatever
    the requests and the storage do, the log before is a prefix of the log
    after, each request adds at most one entry, and every added entry has a
    content that is not empty. *)
Theorem log_only_grows_without_clear (env : Oracles) (requests : list Request)
  (w : World)
  (Hnoclear : Forall (fun r => pathname r <> "/clear") requests) :
  exists added,
    logOf (serve env requests w) = (logOf w ++ added)%list
    /\ List.length added <= List.length requests
    /\ Forall (fun x => content x <> "") added.
Proof.
  revert w. induction requests as [|r rs IH]; intros w.
  - exists []. rewrite app_nil_r. repeat split; auto.
  - inversion Hnoclear as [|r' rs' Hr Hrs]; subst.
    cbn [serve fold_left].
    destruct (IH Hrs (snd (ChatRoomDurableObject.fetch env r w)))
      as (added & Hlog & Hlen & Hall).
    fold (serve env rs (snd (ChatRoomDurableObject.fetch env r w))).
    destruct (fetch_outcome env r w) as (resp & w' & E & Hcases).
    rewrite E in Hlog |- *. cbn [snd] in Hlog |- *.
    destruct Hcases as [[-> _]|(es & written & Hrw & _ & Hpath)].
    + exists added. cbn [List.length]. repeat split; auto.
    + destruct Hrw as (Hes & _).
      destruct Hpath as [(_ & ->)|[(Hclr & _)|(_ & _ & x & -> & Hx)]].
      * exists added. rewrite Hlog, Hes. cbn [List.length]. repeat split; auto.
      * contradiction.
      * exists (x :: added). rewrite Hlog, Hes, <- app_assoc.
        cbn [List.length app]. repeat split; [lia|].
        constructor; [now apply truthy_nonempty|exact Hall].
Qed.

Lemma log_only_grows_without_clear_witness :
  exists added,
    logOf (serve Fixtures.envStorageDown
             [Fixtures.recentRequest (Some "0");
              Fixtures.appendRequest (toJSON Fixtures.e3)]
             (Fixtures.worldWith [Fixtures.e1; Fixtures.e2]))
    = ([Fixtures.e1; Fixtures.e2] ++ added)%list
    /\ List.length added <= 2
    /\ Forall (fun x => content x <> "") added.
Proof.
  apply (log_only_grows_without_clear Fixtures.envStorageDown
           [Fixtures.recentRequest (Some "0");
            Fixtures.appendRequest (toJSON Fixtures.e3)]
           (Fixtures.worldWith [Fixtures.e1; Fixtures.e2])).
  repeat constructor; discriminate.
Defined.

(** X7.  The createdAt of a session never changes: no sequence of requests,
    /clear included, touches it, with or without a working storage; and
    /clear leaves an empty log in memory even when its write fails. *)
Theorem session_createdAt_is_stable (env : Oracles) (requests : list Request)
  (w : World) :
  doCreatedAt (dobj (serve env requests w)) = doCreatedAt (dobj w)
  /\ logOf (serve env (requests ++ [Fixtures.clearRequest])%list w) = [].
Proof.
  assert (Hstep : forall r w0,
            doCreatedAt (dobj (snd (ChatRoomDurableObject.fetch env r w0)))
            = doCreatedAt (dobj w0)).
  { intros r w0.
    destruct (fetch_outcome env r w0) as (resp & w' & E & Hcases).
    rewrite E. cbn [snd].
    destruct Hcases as [[-> _]|(es & written & Hrw & _)]; [reflexivity|].
    apply Hrw. }
  split.
  - revert w. induction requests as [|r rs IH]; intros w; [reflexivity|].
    cbn [serve fold_left].
    fold (serve env rs (snd (ChatRoomDurableObject.fetch env r w))).
    now rewrite IH, Hstep.
  - unfold serve. rewrite fold_left_app. cbn [fold_left].
    set (w0 := fold_left _ requests w).
    change (ChatRoomDurableObject.fetch env Fixtures.clearRequest w0)
      with (tryCatch (ChatRoomDurableObject.handleClear env)
              (fun _ => ret {| status := 500;
                               body := ErrorBody "Internal server error" |}) w0).
    unfold tryCatch. rewrite handleClear_eq.
    destruct (put_ok env _); reflexivity.
Qed.

(** X8.  Whatever its limit parameter, /recent never changes the log and,
    when its write completes, answers with a suffix of the log: the last ten
    entries when the parameter is absent or empty, the whole log when it
    does not start with a number, and the log without its first k entries
    when the parameter is the negative number -k. *)
Theorem recent_returns_suffix (env : Oracles) (w : World)
  (limit : option string)
  (Hput : put_ok env (S (tick w)) = true) :
  let res := ChatRoomDurableObject.fetch env (Fixtures.recentRequest limit) w in
  exists es older,
    fst res = Return {| status := 200; body := RecentOk es |}
    /\ logOf w = (older ++ es)%list
    /\ logOf (snd res) = logOf w
    /\ (JS.truthyOpt limit = false -> es = Spec.lastN 10 (logOf w))
    /\ (forall s, limit = Some s -> s <> "" -> JS.parseInt s = None ->
                  es = logOf w)
    /\ (forall s k, limit = Some s -> s <> "" ->
                    JS.parseInt s = Some (- Z.of_nat k)%Z ->
                    es = skipn k (logOf w)).
Proof.
  intros res. subst res.
  change (ChatRoomDurableObject.fetch env (Fixtures.recentRequest limit) w)
    with (tryCatch
            (ChatRoomDurableObject.handleGetRecent env
               (Fixtures.recentRequest limit))
            (fun _ => ret {| status := 500;
                             body := ErrorBody "Internal server error" |}) w).
  unfold tryCatch. rewrite handleGetRecent_eq, Hput.
  cbn [fst snd logOf dobj entries Fixtures.recentRequest limitParam].
  fold (logOf w).
  eexists.
  destruct (slice_suffix _
              (JS.neg (JS.parseInt
                         (if JS.truthyOpt limit
                          then match limit with Some s => s | None => "10" end
                          else "10")))
              (logOf w)) as (older & Holder).
  exists older. split; [reflexivity|]. split; [exact Holder|].
  split; [reflexivity|]. split; [|split].
  - intros Hl. rewrite Hl.
    change (JS.neg (JS.parseInt "10")) with (Some (- Z.of_nat 10)%Z).
    apply slice_last. lia.
  - intros s -> Hne Hnan. apply truthy_nonempty in Hne.
    cbn [JS.truthyOpt]. rewrite Hne, Hnan. cbn [JS.neg option_map].
    unfold JS.slice. cbn [Z.ltb Z.compare].
    replace (Z.min 0 (Z.of_nat (List.length (logOf w)))) with 0%Z by lia.
    reflexivity.
  - intros s k -> Hne Hk. apply truthy_nonempty in Hne.
    cbn [JS.truthyOpt]. rewrite Hne, Hk. cbn [JS.neg option_map].
    rewrite Z.opp_involutive. apply slice_positive.
Qed.

Lemma recent_returns_suffix_witness :
  exists es older,
    fst (ChatRoomDurableObject.fetch Fixtures.envOk
           (Fixtures.recentRequest (Some "-2"))
           (Fixtures.worldWith [Fixtures.e1; Fixtures.e2; Fixtures.e3]))
    = Return {| status := 200; body := RecentOk es |}
    /\ [Fixtures.e1; Fixtures.e2; Fixtures.e3] = (older ++ es)%list
    /\ es = [Fixtures.e3].
Proof.
  destruct (recent_returns_suffix Fixtures.envOk
              (Fixtures.worldWith [Fixtures.e1; Fixtures.e2; Fixtures.e3])
              (Some "-2"))
    as (es & older & H1 & H2 & _ & _ & _ & Hneg).
  - reflexivity.
  - exists es, older. split; [exact H1|]. split; [exact H2|].
    apply (Hneg "-2" 2); [reflexivity|discriminate|reflexivity].
Defined.

End StorePersistence.

(* ================================================================== *)
(** * Numbers in query strings *)
(* ================================================================== *)

Section Numbers.

Import ChatRoomDO Runtime Props.
Local Open Scope string_scope.

Lemma revapp_nonnil (d d' : Decimal.uint) :
  d' <> Decimal.Nil -> Decimal.revapp d d' <> Decimal.Nil.
Proof.
  revert d'. induction d; intros d' H; cbn; try exact H; apply IHd; discriminate.
Qed.

Lemma little_succ_nonnil (d : Decimal.uint) :
  Decimal.Little.succ d <> Decimal.Nil.
Proof. destruct d; discriminate. Qed.

Lemma to_little_uint_nonnil (n : nat) (acc : Decimal.uint) :
  acc <> Decimal.Nil -> Nat.to_little_uint n acc <> Decimal.Nil.
Proof.
  revert acc. induction n as [|n IH]; intros acc H; cbn; [exact H|].
  apply IH, little_succ_nonnil.
Qed.

Lemma to_uint_nonnil (n : nat) : Nat.to_uint n <> Decimal.Nil.
Proof.
  unfold Nat.to_uint, Decimal.rev.
  assert (H : Nat.to_little_uint n Decimal.zero <> Decimal.Nil)
    by (apply to_little_uint_nonnil; discriminate).
  destruct (Nat.to_little_uint n Decimal.zero); try congruence;
    cbn; apply revapp_nonnil; discriminate.
Qed.

Lemma parseDigits_uint (d : Decimal.uint) (acc : Z) :
  (0 <= acc)%Z ->
  JS.parseDigits
    (list_ascii_of_string (DecimalString.NilEmpty.string_of_uint d)) acc true
  = Some (Z.of_nat (Nat.of_uint_acc d (Z.to_nat acc))).
Proof.
  revert acc. induction d; intros acc Hacc;
    cbn [DecimalString.NilEmpty.string_of_uint list_ascii_of_string
         JS.parseDigits Nat.of_uint_acc];
    [f_equal; lia| | | | | | | | | |];
    match goal with
    | |- context [JS.isDigit ?c] =>
        change (JS.isDigit c) with true; cbv iota;
        let v := eval vm_compute in (JS.digitVal c) in
        change (JS.digitVal c) with v;
        rewrite IHd by lia;
        rewrite Nat.tail_mul_spec;
        f_equal; f_equal; f_equal; lia
    end.
Qed.

Lemma parseInt_uint (d : Decimal.uint) :
  d <> Decimal.Nil ->
  JS.parseInt (DecimalString.NilEmpty.string_of_uint d)
  = Some (Z.of_nat (Nat.of_uint d)).
Proof.
  intros Hd. unfold JS.parseInt, Nat.of_uint.
  destruct d; [congruence| | | | | | | | | |];
    cbn [DecimalString.NilEmpty.string_of_uint list_ascii_of_string
         JS.trimStartL];
    match goal with
    | |- context [JS.isWhiteSpace ?c] =>
        change (JS.isWhiteSpace c) with false; cbv iota;
        cbn [JS.parseDigits]; change (JS.isDigit c) with true; cbv iota;
        let v := eval vm_compute in (JS.digitVal c) in
        change (JS.digitVal c) with v;
        rewrite parseDigits_uint by lia;
        cbn [Nat.of_uint_acc]; rewrite !Nat.tail_mul_spec;
        f_equal; f_equal; f_equal; lia
    end.
Qed.

(** Below 2^53 a number is written with its own digits. *)
Lemma numberToString_small (n : nat) :
  (Z.of_nat n < 2 ^ 53)%Z ->
  JS.numberToString n = DecimalString.NilEmpty.string_of_uint (Nat.to_uint n).
Proof.
  intros H. unfold JS.numberToString. apply Z.ltb_lt in H. now rewrite H.
Qed.

Lemma numberToString_nonempty (n : nat) :
  (Z.of_nat n < 2 ^ 53)%Z -> JS.numberToString n <> "".
Proof.
  intros Hn. rewrite numberToString_small by exact Hn.
  pose proof (to_uint_nonnil n) as H.
  destruct (Nat.to_uint n); [congruence| | | | | | | | | |]; discriminate.
Qed.

(** From 2^53 on the digits written are the shortest that identify the
    Number, and from 10^21 on the exponent notation is used, of which
    parseInt reads the digits before the point or the exponent. *)
Example large_numbers_written :
  JS.largeNumberToString (2 ^ 64) = "18446744073709552000"
  /\ JS.largeNumberToString (10 ^ 21) = "1e+21"
  /\ JS.largeNumberToString (2 ^ 70) = "1.1805916207174113e+21"
  /\ JS.parseInt "1e+21" = Some 1%Z
  /\ JS.parseInt "1e 21" = Some 1%Z.
Proof. repeat split; vm_compute; reflexivity. Qed.

(** X9.  A limit that is a positive integer below 2^53, written into the
    query string as getRecentEntries writes it, is read back by parseInt as
    the same number; hence getRecentEntries with such a limit returns, when
    the storage works, the last [limit] entries of the log, and leaves the
    log as it is. *)
Theorem limit_round_trip (env : Oracles) (w : World) (n : nat)
  (Hs : storageWorks env) (Hn : 0 < n) (Hsafe : (Z.of_nat n < 2 ^ 53)%Z) :
  JS.parseInt (JS.numberToString n) = Some (Z.of_nat n)
  /\ exists w',
       Worker.getRecentEntries env (JS.numberToString n) w
       = (Return (Spec.lastN n (logOf w)), w')
       /\ logOf w' = logOf w.
Proof.
  assert (Hparse : JS.parseInt (JS.numberToString n) = Some (Z.of_nat n)).
  { rewrite numberToString_small by exact Hsafe.
    rewrite parseInt_uint by apply to_uint_nonnil.
    now rewrite DecimalNat.Unsigned.of_to. }
  split; [exact Hparse|].
  destruct (getRecentEntries_total env (JS.numberToString n) w Hs)
    as (w' & E & Hlog & _).
  exists w'. split; [|exact Hlog].
  rewrite E. do 2 f_equal.
  pose proof (numberToString_nonempty n Hsafe) as Hne.
  apply truthy_nonempty in Hne. rewrite Hne, Hparse.
  cbn [JS.neg option_map]. now apply slice_last.
Qed.

Lemma limit_round_trip_witness :
  JS.parseInt (JS.numberToString 10) = Some 10%Z
  /\ exists w',
       Worker.getRecentEntries Fixtures.envOk (JS.numberToString 10)
         (Fixtures.worldWith [Fixtures.e1; Fixtures.e2])
       = (Return (Spec.lastN 10 [Fixtures.e1; Fixtures.e2]), w')
       /\ logOf w' = [Fixtures.e1; Fixtures.e2].
Proof.
  apply (limit_round_trip Fixtures.envOk
           (Fixtures.worldWith [Fixtures.e1; Fixtures.e2]) 10).
  - intro n. reflexivity.
  - lia.
  - vm_compute. reflexivity.
Defined.

End Numbers.

(* ================================================================== *)
(** * Trimming *)
(* ================================================================== *)

Section Trimming.

Local Open Scope list_scope.

Lemma list_ascii_of_string_app (a b : string) :
  list_ascii_of_string (a ++ b)%string
  = list_ascii_of_string a ++ list_ascii_of_string b.
Proof. induction a as [|c a IH]; cbn; [reflexivity|now rewrite IH]. Qed.

Lemma string_of_list_ascii_length (l : list ascii) :
  String.length (string_of_list_ascii l) = List.length l.
Proof. induction l as [|c l IH]; cbn; [reflexivity|now rewrite IH]. Qed.

Lemma list_ascii_of_string_length (s : string) :
  List.length (list_ascii_of_string s) = String.length s.
Proof. induction s as [|c s IH]; cbn; [reflexivity|now rewrite IH]. Qed.

Lemma trimStartL_idem (l : list ascii) :
  JS.trimStartL (JS.trimStartL l) = JS.trimStartL l.
Proof.
  induction l as [|c l IH]; [reflexivity|].
  cbn [JS.trimStartL]. destruct (JS.isWhiteSpace c) eqn:Hc; [exact IH|].
  cbn [JS.trimStartL]. now rewrite Hc.
Qed.

Lemma trimStartL_length (l : list ascii) :
  List.length (JS.trimStartL l) <= List.length l.
Proof.
  induction l as [|c l IH]; [reflexivity|].
  cbn [JS.trimStartL]. destruct (JS.isWhiteSpace c); cbn [List.length]; lia.
Qed.

Lemma trimStartL_ws (ws l : list ascii) :
  forallb JS.isWhiteSpace ws = true ->
  JS.trimStartL (ws ++ l) = JS.trimStartL l.
Proof.
  induction ws as [|c ws IH]; intros H; [reflexivity|].
  cbn [forallb] in H. apply andb_true_iff in H. destruct H as [Hc Hws].
  cbn [app JS.trimStartL]. rewrite Hc. auto.
Qed.

Lemma trimStartL_nil (l : list ascii) :
  JS.trimStartL l = [] -> forallb JS.isWhiteSpace l = true.
Proof.
  induction l as [|c l IH]; [reflexivity|].
  cbn [JS.trimStartL forallb]. destruct (JS.isWhiteSpace c); [auto|discriminate].
Qed.

Lemma trimStartL_app (l x : list ascii) :
  JS.trimStartL l <> [] ->
  JS.trimStartL (l ++ x) = JS.trimStartL l ++ x.
Proof.
  induction l as [|c l IH]; intros H; [exfalso; now apply H|].
  cbn [app JS.trimStartL] in *.
  destruct (JS.isWhiteSpace c); [exact (IH H)|reflexivity].
Qed.

Lemma trimStartL_head (l : list ascii) (c : ascii) (r : list ascii) :
  JS.trimStartL l = c :: r -> JS.isWhiteSpace c = false.
Proof.
  induction l as [|d l IH]; [discriminate|].
  cbn [JS.trimStartL]. destruct (JS.isWhiteSpace d) eqn:Hd; [exact IH|].
  intros H; inversion H; subst; exact Hd.
Qed.

Lemma trimEndL_ws (l ws : list ascii) :
  forallb JS.isWhiteSpace ws = true ->
  JS.trimEndL (l ++ ws) = JS.trimEndL l.
Proof.
  intros H. unfold JS.trimEndL. rewrite rev_app_distr.
  rewrite trimStartL_ws; [reflexivity|].
  rewrite forallb_forall in *. intros c Hc. apply H. now apply in_rev.
Qed.

Lemma trimEndL_cons (c : ascii) (l : list ascii) :
  JS.isWhiteSpace c = false ->
  JS.trimEndL (c :: l) = c :: JS.trimEndL l.
Proof.
  intros Hc. unfold JS.trimEndL. cbn [rev].
  destruct (JS.trimStartL (rev l)) as [|d r] eqn:E.
  - apply trimStartL_nil in E.
    rewrite trimStartL_ws by exact E. cbn [JS.trimStartL]. now rewrite Hc.
  - rewrite trimStartL_app by congruence. rewrite E, rev_app_distr. reflexivity.
Qed.

Lemma trimEndL_idem (l : list ascii) :
  JS.trimEndL (JS.trimEndL l) = JS.trimEndL l.
Proof.
  unfold JS.trimEndL. now rewrite rev_involutive, trimStartL_idem.
Qed.

Lemma trimEndL_length (l : list ascii) :
  List.length (JS.trimEndL l) <= List.length l.
Proof.
  unfold JS.trimEndL. rewrite length_rev.
  etransitivity; [apply trimStartL_length|]. now rewrite length_rev.
Qed.

(** What [trim] leaves starts with no white space. *)
Lemma trimStartL_trimmed (l : list ascii) :
  JS.trimStartL (JS.trimEndL (JS.trimStartL l))
  = JS.trimEndL (JS.trimStartL l).
Proof.
  destruct (JS.trimStartL l) as [|c r] eqn:E; [reflexivity|].
  pose proof (trimStartL_head _ _ _ E) as Hc.
  rewrite trimEndL_cons by exact Hc. cbn [JS.trimStartL]. now rewrite Hc.
Qed.

Lemma trim_pad (ws1 l ws2 : list ascii) :
  forallb JS.isWhiteSpace ws1 = true ->
  forallb JS.isWhiteSpace ws2 = true ->
  JS.trimEndL (JS.trimStartL (ws1 ++ l ++ ws2))
  = JS.trimEndL (JS.trimStartL l).
Proof.
  intros H1 H2. rewrite trimStartL_ws by exact H1.
  destruct (JS.trimStartL l) as [|c r] eqn:E.
  - apply trimStartL_nil in E.
    rewrite trimStartL_ws by exact E.
    destruct (JS.trimStartL ws2) as [|d r'] eqn:E2; [reflexivity|].
    apply trimStartL_head in E2 as Hd.
    assert (Hall : forallb JS.isWhiteSpace (JS.trimStartL ws2) = true).
    { clear -H2. induction ws2 as [|x ws IH]; [reflexivity|].
      cbn [forallb] in H2. apply andb_true_iff in H2. destruct H2 as [Hx Hws].
      cbn [JS.trimStartL]. rewrite Hx. auto. }
    rewrite E2 in Hall. cbn [forallb] in Hall. rewrite Hd in Hall. discriminate.
  - rewrite trimStartL_app by congruence. rewrite E.
    now rewrite trimEndL_ws.
Qed.

(** X10.  [trim] is idempotent and never lengthens: what it returns neither
    starts nor ends with white space (tab, line feed, vertical tab, form
    feed, carriage return, space, no-break space), so trimming it again
    changes nothing. *)
Theorem trim_is_idempotent (s : string) :
  JS.trim (JS.trim s) = JS.trim s
  /\ Props.trimmed (list_ascii_of_string (JS.trim s))
  /\ String.length (JS.trim s) <= String.length s.
Proof.
  unfold JS.trim, Props.trimmed.
  rewrite !list_ascii_of_string_of_list_ascii.
  rewrite trimStartL_trimmed, trimEndL_idem.
  repeat split.
  rewrite string_of_list_ascii_length.
  etransitivity; [apply trimEndL_length|].
  etransitivity; [apply trimStartL_length|].
  now rewrite list_ascii_of_string_length.
Qed.

(** X11.  White space around a message never changes its classification:
    the message with any white space put before and after it is classified
    as the message itself. *)
Theorem classification_ignores_surrounding_space (before message after : string)
  (Hb : forallb JS.isWhiteSpace (list_ascii_of_string before) = true)
  (Ha : forallb JS.isWhiteSpace (list_ascii_of_string after) = true) :
  Worker.determineMessageType (before ++ message ++ after)%string
  = Worker.determineMessageType message
  /\ JS.trim (before ++ message ++ after)%string = JS.trim message.
Proof.
  assert (Htrim : JS.trim (before ++ message ++ after)%string = JS.trim message).
  { unfold JS.trim. rewrite !list_ascii_of_string_app.
    now rewrite trim_pad. }
  split; [|exact Htrim].
  unfold Worker.determineMessageType, TextExtraction.isURL,
    TextExtraction.isLikelyContentToSummarize.
  now rewrite Htrim.
Qed.

Lemma classification_ignores_surrounding_space_witness :
  Worker.determineMessageType
    ("  " ++ "https://x.com" ++ String "010" " ")%string
  = Worker.MT_url.
Proof.
  destruct (classification_ignores_surrounding_space
              "  " "https://x.com" (String "010" " ")) as [H _].
  - reflexivity.
  - reflexivity.
  - rewrite H. reflexivity.
Defined.

End Trimming.

(* ================================================================== *)
(** * The prompts and the two generation calls *)
(* ================================================================== *)

Section Prompts.

Import ChatRoomDO Runtime Props.
Local Open Scope string_scope.

Lemma truncateText_length (text : string) (maxLength : nat) :
  String.length (LlmClient.truncateText text maxLength) <= maxLength + 38
  /\ (String.length text <= maxLength ->
      LlmClient.truncateText text maxLength = text)
  /\ (maxLength < String.length text ->
      String.length (LlmClient.truncateText text maxLength) = maxLength + 38).
Proof.
  unfold LlmClient.truncateText.
  destruct (Nat.leb_spec (String.length text) maxLength) as [Hle|Hgt].
  - split; [lia|]. split; [reflexivity|lia].
  - assert (Hlen : String.length
                     (JS.substring0 maxLength text ++ LlmClient.nl
                      ++ LlmClient.nl ++ "[Content truncated due to length...]")
                   = maxLength + 38).
    { rewrite string_length_app. unfold JS.substring0.
      rewrite substring0_length by lia. reflexivity. }
    split; [lia|]. split; [lia|]. intros _. exact Hlen.
Qed.

Lemma buildSummaryPrompt_length (text : string) (url : option string) :
  String.length (LlmClient.buildSummaryPrompt text url)
  = 274 + String.length text
    + match url with
      | Some u => if JS.truthy u then 14 + String.length u else 0
      | None => 0
      end.
Proof.
  unfold LlmClient.buildSummaryPrompt, LlmClient.nl.
  destruct url as [u|]; [destruct (JS.truthy u)|];
    rewrite !string_length_app; cbn [String.length]; lia.
Qed.

(** X12.  generateSummary never sends the model more than the first 3000
    characters of the text: whatever the length of the text, its prompt has
    at most 3312 characters besides the URL (274 of instructions, 3000 of
    text, 38 of truncation marker), plus 14 and the URL's length when a URL
    is given; a text of at most 3000 characters is sent whole. *)
Theorem summary_prompt_is_bounded (text : string) (url : option string) :
  let prompt :=
    LlmClient.buildSummaryPrompt
      (LlmClient.truncateText text LlmClient.MAX_CONTEXT_LENGTH) url in
  String.length prompt
  <= 3312 + match url with
            | Some u => 14 + String.length u
            | None => 0
            end
  /\ (String.length text <= 3000 ->
      prompt = LlmClient.buildSummaryPrompt text url)
  /\ (3000 < String.length text ->
      LlmClient.truncateText text LlmClient.MAX_CONTEXT_LENGTH
      = JS.substring0 3000 text ++ LlmClient.nl ++ LlmClient.nl
        ++ "[Content truncated due to length...]").
Proof.
  cbv zeta. unfold LlmClient.MAX_CONTEXT_LENGTH.
  destruct (truncateText_length text 3000) as (Hlen & Hshort & _).
  split; [|split].
  - rewrite buildSummaryPrompt_length.
    destruct url as [u|]; [destruct (JS.truthy u)|]; lia.
  - intros H. now rewrite Hshort.
  - intros H. unfold LlmClient.truncateText.
    assert (Hb : (String.length text <=? 3000)%nat = false)
      by (apply Nat.leb_gt; lia).
    now rewrite Hb.
Qed.

Lemma truncated_length (n : nat) (s : string) :
  String.length (Spec.truncated n s) <= n + 3.
Proof.
  destruct (Nat.le_gt_cases (String.length s) n) as [Hle|Hgt].
  - rewrite truncated_short by exact Hle. lia.
  - destruct (truncated_long n s Hgt) as [_ ->]. lia.
Qed.

Lemma render_length (e : ConversationEntry) (m : nat) :
  (forall u, url e = Some u -> String.length u <= m) ->
  String.length (Spec.render e) <= Nat.max 315 (21 + m).
Proof.
  intros Hu. unfold Spec.render, LlmClient.nl.
  destruct (role e).
  - destruct (match type e with Some url_summary => true | _ => false end
              && JS.truthyOpt (url e)).
    + destruct (url e) as [u|] eqn:E.
      * specialize (Hu u eq_refl). rewrite !string_length_app.
        cbn [String.length]. lia.
      * cbn. lia.
    + rewrite !string_length_app. cbn [String.length].
      pose proof (truncated_length 200 (content e)). lia.
  - rewrite !string_length_app. cbn [String.length].
    pose proof (truncated_length 300 (content e)). lia.
  - cbn. lia.
Qed.

Lemma concat_render_length (l : list ConversationEntry) (m : nat) :
  (forall e u, In e l -> url e = Some u -> String.length u <= m) ->
  String.length (String.concat "" (map Spec.render l))
  <= List.length l * Nat.max 315 (21 + m).
Proof.
  induction l as [|e l IH]; intros Hu; [cbn; lia|].
  assert (He : String.length (Spec.render e) <= Nat.max 315 (21 + m))
    by (apply render_length; intros u; apply Hu; now left).
  assert (Hl : String.length (String.concat "" (map Spec.render l))
               <= List.length l * Nat.max 315 (21 + m))
    by (apply IH; intros e' u Hin; apply Hu; now right).
  destruct l as [|e' l'].
  - cbn [map String.concat List.length]. lia.
  - change (String.concat "" (map Spec.render (e :: e' :: l')))
      with (Spec.render e ++ "" ++ String.concat "" (map Spec.render (e' :: l'))).
    rewrite !string_length_app. cbn [String.length List.length] in *. lia.
Qed.

(** X13.  The prompt of a follow-up is the 306 characters of instructions,
    the context text and the question as it is: the question is never cut,
    while the context text holds at most five lines, each of at most 315
    characters or, for a submitted URL, 21 characters and the URL. *)
Theorem followup_prompt_length (question : string)
  (context : list ConversationEntry) (m : nat)
  (Hurls : forall e u, In e context -> url e = Some u -> String.length u <= m) :
  String.length (LlmClient.buildFollowupPrompt question context)
  = 306 + String.length (LlmClient.followupContextText context)
    + String.length question
  /\ String.length (LlmClient.followupContextText context)
     <= 5 * Nat.max 315 (21 + m).
Proof.
  split.
  - unfold LlmClient.buildFollowupPrompt, LlmClient.nl.
    rewrite !string_length_app. cbn [String.length]. lia.
  - rewrite followupContextText_build. unfold Spec.build.
    etransitivity.
    + apply (concat_render_length _ m). intros e u Hin. apply Hurls.
      rewrite <- (lastN_suffix _ 5 context). apply in_or_app. now right.
    + rewrite lastN_length. apply Nat.mul_le_mono_r. lia.
Qed.

Lemma followup_prompt_length_witness :
  String.length
    (LlmClient.buildFollowupPrompt "What is x?"
       [Fixtures.e1; Fixtures.e2; Fixtures.e3])
  = 306
    + String.length
        (LlmClient.followupContextText [Fixtures.e1; Fixtures.e2; Fixtures.e3])
    + 10.
Proof.
  destruct (followup_prompt_length "What is x?"
              [Fixtures.e1; Fixtures.e2; Fixtures.e3] 13) as [H _].
  - intros e u [<-|[<-|[<-|[]]]] E; inversion E; subst; cbn; lia.
  - exact H.
Defined.

End Prompts.

Section Generation.

Import ChatRoomDO Runtime Props.
Local Open Scope string_scope.

Lemma generation_calls_model_once_aux (env : Oracles) (w : World) :
  (forall text url,
     generationResult env w (LlmClient.generateSummary env text url w)
       (EvGenerateSummary text url)
       (LlmClient.buildSummaryPrompt
          (LlmClient.truncateText text LlmClient.MAX_CONTEXT_LENGTH) url)
       "Failed to generate summary. Please try again.")
  /\ (forall question context,
        generationResult env w (LlmClient.answerFollowup env question context w)
          (EvAnswerFollowup question context)
          (LlmClient.buildFollowupPrompt question context)
          "Failed to answer question. Please try again.").
Proof.
  split.
  - intros text url.
    unfold generationResult, LlmClient.generateSummary, bind, emit, tryCatch,
      LlmClient.aiRun.
    cbn [tick trace dobj].
    destruct (ai_run env (tick w) _); cbn; rewrite <- app_assoc; split; reflexivity.
  - intros question context.
    unfold generationResult, LlmClient.answerFollowup, bind, emit, tryCatch,
      LlmClient.aiRun.
    cbn [tick trace dobj].
    destruct (ai_run env (tick w) _); cbn; rewrite <- app_assoc; split; reflexivity.
Qed.

(** X14.  Each generation call, generateSummary and answerFollowup alike
    and callLLM through them, calls the model exactly once, without retry,
    and touches nothing of the session; it returns the model's answer
    trimmed, whether the model gives a string or an object with a response,
    and whatever else the model does (an answer of another shape, a
    rejected call) it raises one fixed error that says nothing of the
    cause. *)
Theorem generation_calls_model_once (env : Oracles) (w : World) :
  (forall text url,
     generationResult env w (LlmClient.generateSummary env text url w)
       (EvGenerateSummary text url)
       (LlmClient.buildSummaryPrompt
          (LlmClient.truncateText text LlmClient.MAX_CONTEXT_LENGTH) url)
       "Failed to generate summary. Please try again.")
  /\ (forall question context,
        generationResult env w (LlmClient.answerFollowup env question context w)
          (EvAnswerFollowup question context)
          (LlmClient.buildFollowupPrompt question context)
          "Failed to answer question. Please try again.")
  /\ (forall userMessage context,
        LlmClient.callLLM env userMessage
          {| LlmClient.mode := LlmClient.ModeSummary;
             LlmClient.conversationContext := context |} w
        = LlmClient.generateSummary env userMessage None w)
  /\ (forall userMessage,
        LlmClient.callLLM env userMessage
          {| LlmClient.mode := LlmClient.ModeFollowup;
             LlmClient.conversationContext := None |} w
        = LlmClient.answerFollowup env userMessage [] w).
Proof.
  destruct (generation_calls_model_once_aux env w) as [Hg Ha].
  split; [exact Hg|]. split; [exact Ha|]. split; reflexivity.
Qed.

End Generation.

(* ================================================================== *)
(** * How often a turn calls its collaborators *)
(* ================================================================== *)

Section Calls.

Import ChatRoomDO Runtime Props.
Local Open Scope string_scope.

Variable env : Oracles.
Variable f : Event -> bool.

Lemma emits_weaken (A : Type) (m : M A) (n n' : nat) :
  emitsAtMost f m n -> n <= n' -> emitsAtMost f m n'.
Proof.
  intros H Hn w out w' E. destruct (H _ _ _ E) as (evs & Ht & Hc).
  exists evs. split; [exact Ht|lia].
Qed.

Lemma emits_silent (A : Type) (m : M A) :
  (forall w out w', m w = (out, w') -> trace w' = trace w) ->
  emitsAtMost f m 0.
Proof.
  intros H w out w' E. exists []. rewrite app_nil_r.
  split; [exact (H _ _ _ E)|reflexivity].
Qed.

Lemma emits_ret (A : Type) (a : A) : emitsAtMost f (ret a) 0.
Proof. apply emits_silent. intros w out w' E; inversion E; reflexivity. Qed.

Lemma emits_throw (A : Type) (msg : string) : emitsAtMost f (@throw A msg) 0.
Proof. apply emits_silent. intros w out w' E; inversion E; reflexivity. Qed.

Lemma emits_nowISO : emitsAtMost f (Worker.nowISO env) 0.
Proof. apply emits_silent. intros w out w' E; inversion E; reflexivity. Qed.

Lemma emits_appendEntry (e : ConversationEntry) :
  emitsAtMost f (Worker.appendEntry env e) 0.
Proof.
  apply emits_silent. intros w out w' E.
  exact (proj1 (appendEntry_outcome env _ _ _ _ E)).
Qed.

Lemma emits_getRecentEntries (limit : string) :
  emitsAtMost f (Worker.getRecentEntries env limit) 0.
Proof.
  apply emits_silent. intros w out w' E.
  exact (proj1 (proj2 (getRecentEntries_outcome env _ _ _ _ E))).
Qed.

Lemma emits_bind (A B : Type) (m : M A) (k : A -> M B) (a b : nat) :
  emitsAtMost f m a -> (forall x, emitsAtMost f (k x) b) ->
  emitsAtMost f (bind m k) (a + b).
Proof.
  intros Hm Hk w out w' E. unfold bind in E.
  destruct (m w) as [[x|msg] w1] eqn:E1.
  - destruct (Hm _ _ _ E1) as (evs1 & T1 & C1).
    destruct (Hk x _ _ _ E) as (evs2 & T2 & C2).
    exists (evs1 ++ evs2)%list. rewrite T2, T1, <- app_assoc.
    split; [reflexivity|]. rewrite filter_app, length_app. lia.
  - inversion E; subst. destruct (Hm _ _ _ E1) as (evs1 & T1 & C1).
    exists evs1. split; [exact T1|lia].
Qed.

Lemma emits_tryCatch (A : Type) (body : M A) (handler : string -> M A)
  (a b : nat) :
  emitsAtMost f body a -> (forall msg, emitsAtMost f (handler msg) b) ->
  emitsAtMost f (tryCatch body handler) (a + b).
Proof.
  intros Hb Hh w out w' E. unfold tryCatch in E.
  destruct (body w) as [[x|msg] w1] eqn:E1.
  - inversion E; subst. destruct (Hb _ _ _ E1) as (evs1 & T1 & C1).
    exists evs1. split; [exact T1|lia].
  - destruct (Hb _ _ _ E1) as (evs1 & T1 & C1).
    destruct (Hh msg _ _ _ E) as (evs2 & T2 & C2).
    exists (evs1 ++ evs2)%list. rewrite T2, T1, <- app_assoc.
    split; [reflexivity|]. rewrite filter_app, length_app. lia.
Qed.

Lemma emits_if (A : Type) (b : bool) (m1 m2 : M A) (n : nat) :
  emitsAtMost f m1 n -> emitsAtMost f m2 n ->
  emitsAtMost f (if b then m1 else m2) n.
Proof. destruct b; auto. Qed.

Lemma emits_emit (e : Event) :
  emitsAtMost f (emit e) (if f e then 1 else 0).
Proof.
  intros w out w' E. inversion E; subst. exists [e]. cbn.
  split; [reflexivity|]. destruct (f e); cbn; lia.
Qed.

Lemma emits_aiRun (prompt : string) :
  emitsAtMost f (LlmClient.aiRun env prompt)
    (if f (EvAiRun prompt) then 1 else 0).
Proof.
  intros w out w' E. unfold LlmClient.aiRun in E.
  exists [EvAiRun prompt].
  destruct (ai_run env (tick w) prompt); inversion E; subst; cbn;
    (split; [reflexivity|]); destruct (f (EvAiRun prompt)); cbn; lia.
Qed.

Lemma emits_readResponse (r : AiResponse) :
  emitsAtMost f (LlmClient.readResponse r) 0.
Proof. destruct r; cbn; auto using emits_ret, emits_throw. Qed.

Lemma emits_fetchAndExtract (url : string) :
  emitsAtMost f (Worker.fetchAndExtract env url)
    (if f (EvExtract url) then 1 else 0).
Proof.
  intros w out w' E. inversion E; subst. exists [EvExtract url]. cbn.
  split; [reflexivity|]. destruct (f (EvExtract url)); cbn; lia.
Qed.

End Calls.

Section CallsPerTurn.

Import ChatRoomDO Runtime Props.
Local Open Scope string_scope.

Variable env : Oracles.

Ltac emits_rules :=
  repeat first
    [ eapply emits_bind; [|intro]
    | eapply emits_tryCatch; [|intro]
    | apply emits_ret | apply emits_throw | apply emits_nowISO
    | apply emits_appendEntry | apply emits_getRecentEntries
    | apply emits_readResponse
    | apply emits_emit | apply emits_aiRun | apply emits_fetchAndExtract ].

Lemma generateSummary_ai (text : string) (url : option string) :
  emitsAtMost isAiRun (LlmClient.generateSummary env text url) 1.
Proof.
  unfold LlmClient.generateSummary.
  eapply emits_weaken; [emits_rules|cbn; lia].
Qed.

Lemma answerFollowup_ai (q : string) (context : list ConversationEntry) :
  emitsAtMost isAiRun (LlmClient.answerFollowup env q context) 1.
Proof.
  unfold LlmClient.answerFollowup.
  eapply emits_weaken; [emits_rules|cbn; lia].
Qed.

Lemma generateSummary_extract (text : string) (url : option string) :
  emitsAtMost isExtract (LlmClient.generateSummary env text url) 0.
Proof.
  unfold LlmClient.generateSummary.
  eapply emits_weaken; [emits_rules|cbn; lia].
Qed.

Lemma answerFollowup_extract (q : string) (context : list ConversationEntry) :
  emitsAtMost isExtract (LlmClient.answerFollowup env q context) 0.
Proof.
  unfold LlmClient.answerFollowup.
  eapply emits_weaken; [emits_rules|cbn; lia].
Qed.

Lemma attemptOf_ai (mt : Worker.MessageType) (message : string) :
  emitsAtMost isAiRun (Worker.attemptOf env mt message) 1.
Proof.
  destruct mt; cbn [Worker.attemptOf].
  - unfold Worker.urlAttempt.
    eapply emits_weaken.
    + eapply emits_tryCatch; [|intro; emits_rules].
      eapply emits_bind; [apply emits_fetchAndExtract|intro].
      eapply emits_bind; [apply emits_if; [apply emits_throw|apply emits_ret]|intro].
      eapply emits_bind; [apply generateSummary_ai|intro]. emits_rules.
    + cbn. lia.
  - unfold Worker.contentAttempt.
    eapply emits_weaken.
    + eapply emits_tryCatch; [|intro; emits_rules].
      eapply emits_bind; [apply generateSummary_ai|intro]. emits_rules.
    + cbn. lia.
  - unfold Worker.followupAttempt.
    eapply emits_weaken.
    + eapply emits_tryCatch; [|intro; emits_rules].
      eapply emits_bind; [apply emits_getRecentEntries|intro].
      eapply emits_bind;
        [apply emits_if;
         [eapply emits_weaken; [apply emits_ret|apply Nat.le_0_l]
         |apply answerFollowup_ai]|intro].
      emits_rules.
    + cbn. lia.
Qed.

Lemma attemptOf_extract (mt : Worker.MessageType) (message : string) :
  emitsAtMost isExtract (Worker.attemptOf env mt message)
    (match mt with Worker.MT_url => 1 | _ => 0 end).
Proof.
  destruct mt; cbn [Worker.attemptOf].
  - unfold Worker.urlAttempt.
    eapply emits_weaken.
    + eapply emits_tryCatch; [|intro; emits_rules].
      eapply emits_bind; [apply emits_fetchAndExtract|intro].
      eapply emits_bind; [apply emits_if; [apply emits_throw|apply emits_ret]|intro].
      eapply emits_bind; [apply generateSummary_extract|intro]. emits_rules.
    + cbn. lia.
  - unfold Worker.contentAttempt.
    eapply emits_weaken.
    + eapply emits_tryCatch; [|intro; emits_rules].
      eapply emits_bind; [apply generateSummary_extract|intro]. emits_rules.
    + cbn. lia.
  - unfold Worker.followupAttempt.
    eapply emits_weaken.
    + eapply emits_tryCatch; [|intro; emits_rules].
      eapply emits_bind; [apply emits_getRecentEntries|intro].
      eapply emits_bind;
        [apply emits_if; [apply emits_ret|apply answerFollowup_extract]|intro].
      emits_rules.
    + cbn. lia.
Qed.

Lemma turn_emits (g : Event -> bool) (n : nat) (message : string) :
  emitsAtMost g
    (Worker.attemptOf env (Worker.determineMessageType message) message) n ->
  emitsAtMost g (Worker.processMessage env message) n.
Proof.
  intros Hatt. rewrite processMessage_turn. unfold Worker.turn.
  eapply emits_weaken.
  - eapply emits_bind; [apply emits_nowISO|intro].
    eapply emits_bind; [apply emits_appendEntry|intro].
    eapply emits_bind; [exact Hatt|intro].
    eapply emits_bind; [apply emits_appendEntry|intro].
    apply emits_ret.
  - lia.
Qed.

(** X15.  Whatever happens in a turn, processMessage asks the model at most
    once and fetches at most one page, and it fetches none unless the
    message was classified as a URL: no collaborator is ever called a
    second time. *)
Theorem turn_calls_collaborators_at_most_once (message : string) (w : World)
  (out : Outcome string) (w' : World)
  (H : Worker.processMessage env message w = (out, w')) :
  exists evs,
    trace w' = (trace w ++ evs)%list
    /\ List.length (filter isAiRun evs) <= 1
    /\ List.length (filter isExtract evs) <= 1
    /\ (Worker.determineMessageType message <> Worker.MT_url ->
        filter isExtract evs = []).
Proof.
  destruct (turn_emits isAiRun 1 message (attemptOf_ai _ _) _ _ _ H)
    as (evs & Ht & Hai).
  destruct (turn_emits isExtract _ message (attemptOf_extract _ _) _ _ _ H)
    as (evs' & Ht' & Hex).
  rewrite Ht in Ht'. apply app_inv_head in Ht'. subst evs'.
  exists evs. split; [exact Ht|]. split; [exact Hai|]. split.
  - destruct (Worker.determineMessageType message); lia.
  - intros Hmt. destruct (Worker.determineMessageType message);
      [congruence| |]; apply length_zero_iff_nil; lia.
Qed.

End CallsPerTurn.

Section CallsPerTurnExample.

Import ChatRoomDO Runtime Props.
Local Open Scope string_scope.

Lemma turn_calls_collaborators_at_most_once_witness :
  exists evs,
    trace (snd (Worker.processMessage Fixtures.envOk "https://x.com"
                  Fixtures.freshWorld))
    = ([] ++ evs)%list
    /\ List.length (filter isAiRun evs) <= 1
    /\ List.length (filter isExtract evs) <= 1.
Proof.
  destruct (turn_calls_collaborators_at_most_once Fixtures.envOk "https://x.com"
              Fixtures.freshWorld
              (fst (Worker.processMessage Fixtures.envOk "https://x.com"
                      Fixtures.freshWorld))
              (snd (Worker.processMessage Fixtures.envOk "https://x.com"
                      Fixtures.freshWorld)))
    as (evs & H1 & H2 & H3 & _).
  - vm_compute. reflexivity.
  - exists evs. auto.
Defined.

End CallsPerTurnExample.

(* ================================================================== *)
(** * The chat endpoint *)
(* ================================================================== *)

Section ChatEndpoint.

Import ChatRoomDO Runtime Props.
Local Open Scope string_scope.

Variable env : Oracles.

(** Every case of handleChatAPI. *)
Lemma handleChatAPI_cases (req : Http.Request) (w : World) :
  (Http.verb req <> Http.POST
   /\ Http.handleChatAPI env req w
      = (Return {| Http.status := 405; Http.headers := Http.jsonHeaders;
                   Http.body := Http.ErrorBody "Method not allowed" |}, w))
  \/ (Http.verb req = Http.POST
      /\ ((exists m,
             (Http.json req = Throw m
              \/ Http.json req = Return (Http.NullBody m))
             /\ Http.handleChatAPI env req w
                = (Return (Http.addCORSHeaders
                             {| Http.status := 500;
                                Http.headers := Http.jsonHeaders;
                                Http.body := Http.ErrorBody m |}), w))
          \/ exists sid msg,
               Http.json req = Return (Http.Fields sid msg)
               /\ ((Http.truthySessionId sid && Http.truthyMessage msg = false
                    /\ Http.handleChatAPI env req w
                       = (Return (Http.addCORSHeaders
                                    {| Http.status := 400;
                                       Http.headers := Http.jsonHeaders;
                                       Http.body :=
                                         Http.ErrorBody
                                           "Missing sessionId or message" |}),
                          w))
                   \/ (Http.truthySessionId sid = true
                       /\ Http.truthyMessage msg = true
                       /\ ((Http.tooLong msg = true
                            /\ Http.handleChatAPI env req w
                               = (Return (Http.addCORSHeaders
                                            {| Http.status := 400;
                                               Http.headers := Http.jsonHeaders;
                                               Http.body :=
                                                 Http.ErrorBody
                                                   "Message too long (max 100,000 characters)" |}),
                                  w))
                           \/ (Http.tooLong msg = false
                               /\ ((exists m,
                                      sid = Http.OtherSessionId (Throw m)
                                      /\ Http.handleChatAPI env req w
                                         = (Return (Http.addCORSHeaders
                                                      {| Http.status := 500;
                                                         Http.headers :=
                                                           Http.jsonHeaders;
                                                         Http.body :=
                                                           Http.ErrorBody m |}),
                                            w))
                                   \/ ((forall m,
                                          sid <> Http.OtherSessionId (Throw m))
                                       /\ ((exists over e,
                                              msg = Http.OtherMessage over e
                                              /\ Http.handleChatAPI env req w
                                                 = (Return
                                                      (Http.addCORSHeaders
                                                         {| Http.status := 500;
                                                            Http.headers :=
                                                              Http.jsonHeaders;
                                                            Http.body :=
                                                              Http.ErrorBody e |}),
                                                    w))
                                           \/ exists text out w',
                                                msg = Http.MessageText text
                                                /\ text <> ""
                                                /\ (Z.of_nat (String.length text)
                                                    <= 100000)%Z
                                                /\ Worker.processMessage env text w
                                                   = (out, w')
                                                /\ Http.handleChatAPI env req w
                                                   = (Return
                                                        (Http.addCORSHeaders
                                                           match out with
                                                           | Return reply =>
                                                               {| Http.status := 200;
                                                                  Http.headers :=
                                                                    Http.jsonHeaders;
                                                                  Http.body :=
                                                                    Http.ReplyBody reply |}
                                                           | Throw m =>
                                                               {| Http.status := 500;
                                                                  Http.headers :=
                                                                    Http.jsonHeaders;
                                                                  Http.body :=
                                                                    Http.ErrorBody m |}
                                                           end), w')))))))))).
Proof.
  unfold Http.handleChatAPI.
  destruct (Http.verb req) eqn:Hv;
    try (left; split; [discriminate|reflexivity]).
  right. split; [reflexivity|].
  unfold tryCatch, bind.
  destruct (Http.json req) as [[m|sid msg]|m] eqn:Hj;
    [left; exists m; split; [right|]; reflexivity
    | |left; exists m; split; [left|]; reflexivity].
  right. exists sid, msg. split; [reflexivity|].
  destruct (Http.truthySessionId sid) eqn:Hsid; cbn [negb orb andb];
    [|left; split; reflexivity].
  destruct (Http.truthyMessage msg) eqn:Hmsg; cbn [negb];
    [|left; split; reflexivity].
  right. split; [reflexivity|]. split; [reflexivity|].
  destruct (Http.tooLong msg) eqn:Hlong; [left; split; reflexivity|].
  right. split; [reflexivity|].
  destruct sid as [|name|[[]|m]]; cbn [Http.idFromName ret];
    try discriminate Hsid;
    try (left; exists m; split; reflexivity);
    (right; split; [intros m'; discriminate|]);
    (destruct msg as [e|text|over e]; cbn [Http.processMessageOf throw];
     [discriminate Hmsg
     |right; exists text;
      destruct (Worker.processMessage env text w) as [[reply|m] w'] eqn:E;
      eexists; exists w';
      (split; [reflexivity|]);
      (split; [now apply truthy_nonempty|]);
      (split; [cbn [Http.tooLong] in Hlong; now apply Z.ltb_ge in Hlong|]);
      (split; reflexivity)
     |left; exists over, e; split; reflexivity]).
Qed.

(** handleChatAPI always answers; without a turn of processMessage nothing
    has changed. *)
Lemma handleChatAPI_answers (req : Http.Request) (w : World) :
  exists resp w',
    Http.handleChatAPI env req w = (Return resp, w')
    /\ (forall e m, Http.body resp <> Http.ErrorMessageBody e m)
    /\ (w' = w
        \/ exists sid text out,
             Http.verb req = Http.POST
             /\ Http.json req = Return (Http.Fields sid (Http.MessageText text))
             /\ Http.truthySessionId sid = true
             /\ text <> ""
             /\ (Z.of_nat (String.length text) <= 100000)%Z
             /\ Worker.processMessage env text w = (out, w')).
Proof.
  destruct (handleChatAPI_cases req w)
    as [[Hv E]|[Hv [(m & Hj & E)|(sid & msg & Hj & [[Hmiss E]|Hrest])]]];
    try (eexists; eexists; split; [exact E|];
         split; [intros e m'; discriminate|]; left; reflexivity).
  destruct Hrest as (Hsid & Hmsg & [[Hlong E]|(Hshort & Hid)]);
    [eexists; eexists; split; [exact E|];
     split; [intros e m'; discriminate|]; left; reflexivity|].
  destruct Hid as [(m & Hm & E)|(Hok & [(over & e & Hm & E)
                                       |(text & out & w' & Hm & Hne & Hlen & Ep & E)])];
    try (eexists; eexists; split; [exact E|];
         split; [intros e' m'; discriminate|]; left; reflexivity).
  eexists; eexists; split; [exact E|].
  split; [intros e m'; destruct out; discriminate|].
  right. exists sid, text, out. subst msg.
  repeat (split; [assumption|]). assumption.
Qed.

End ChatEndpoint.

Section ChatEndpointClaims.

Import ChatRoomDO Runtime Props.
Local Open Scope string_scope.

(** X16.  The chat endpoint validates before it touches anything and never
    raises.  A method other than POST gets 405.  A body that is no JSON
    text, or is null, gets 500 with the message of the error raised.  A body
    whose sessionId or message is absent or falsy gets 400, and so does a
    message whose length is above 100,000.  A truthy sessionId that
    idFromName refuses, and a truthy message that is no string, on which
    processMessage raises at once, get 500 with the message of that error.
    In all these cases the session's object, the storage and the trace of
    collaborator calls are unchanged: they can change only for a message
    that is a string, not empty, of at most 100,000 characters.  Only the
    405 answer goes without the Access-Control-Allow-Origin header. *)
Theorem chat_api_validates_first (env : Oracles) (req : Http.Request)
  (w : World) :
  exists resp w',
    Http.handleChatAPI env req w = (Return resp, w')
    /\ (Http.status resp = 200 \/ Http.status resp = 400
        \/ Http.status resp = 405 \/ Http.status resp = 500)
    /\ (Http.status resp = 400 \/ Http.status resp = 405 -> w' = w)
    /\ (w' = w
        \/ exists sid text,
             Http.json req = Return (Http.Fields sid (Http.MessageText text))
             /\ Http.truthySessionId sid = true
             /\ text <> ""
             /\ (Z.of_nat (String.length text) <= 100000)%Z)
    /\ (Http.verb req <> Http.POST ->
        Http.status resp = 405 /\ w' = w
        /\ Http.getHeader "access-control-allow-origin" (Http.headers resp)
           = None)
    /\ (Http.verb req = Http.POST ->
        Http.getHeader "access-control-allow-origin" (Http.headers resp)
        = Some "*"
        /\ (forall m,
              Http.json req = Throw m
              \/ Http.json req = Return (Http.NullBody m) ->
              resp = Http.addCORSHeaders
                       {| Http.status := 500;
                          Http.headers := Http.jsonHeaders;
                          Http.body := Http.ErrorBody m |}
              /\ w' = w)
        /\ (forall sid msg,
              Http.json req = Return (Http.Fields sid msg) ->
              (Http.truthySessionId sid = false
               \/ Http.truthyMessage msg = false ->
               resp = Http.addCORSHeaders
                        {| Http.status := 400;
                           Http.headers := Http.jsonHeaders;
                           Http.body :=
                             Http.ErrorBody "Missing sessionId or message" |}
               /\ w' = w)
              /\ (Http.truthySessionId sid = true ->
                  Http.truthyMessage msg = true ->
                  Http.tooLong msg = true ->
                  resp = Http.addCORSHeaders
                           {| Http.status := 400;
                              Http.headers := Http.jsonHeaders;
                              Http.body :=
                                Http.ErrorBody
                                  "Message too long (max 100,000 characters)" |}
                  /\ w' = w)
              /\ (Http.truthyMessage msg = true ->
                  Http.tooLong msg = false ->
                  forall m,
                    sid = Http.OtherSessionId (Throw m) ->
                    resp = Http.addCORSHeaders
                             {| Http.status := 500;
                                Http.headers := Http.jsonHeaders;
                                Http.body := Http.ErrorBody m |}
                    /\ w' = w)
              /\ (Http.truthySessionId sid = true ->
                  (forall m, sid <> Http.OtherSessionId (Throw m)) ->
                  forall e,
                    msg = Http.OtherMessage false e ->
                    resp = Http.addCORSHeaders
                             {| Http.status := 500;
                                Http.headers := Http.jsonHeaders;
                                Http.body := Http.ErrorBody e |}
                    /\ w' = w))).
Proof.
  destruct (handleChatAPI_cases env req w)
    as [[Hv E]|[Hv [(m & Hj & E)|(sid & msg & Hj & [[Hmiss E]|Hrest])]]].
  - eexists; eexists; split; [exact E|]. cbn.
    repeat split; auto; congruence.
  - eexists; eexists; split; [exact E|]. cbn.
    split; [auto|]. split; [intros [H|H]; discriminate H|].
    split; [auto|]. split; [congruence|]. intros _. split; [reflexivity|].
    split.
    + intros m' Hm'. split; [|reflexivity].
      destruct Hj as [Hj|Hj], Hm' as [Hm'|Hm']; rewrite Hj in Hm';
        inversion Hm'; reflexivity.
    + intros sid msg Hb. destruct Hj as [Hj|Hj]; congruence.
  - eexists; eexists; split; [exact E|]. cbn.
    split; [auto|]. split; [auto|]. split; [auto|]. split; [congruence|].
    intros _. split; [reflexivity|].
    split; [intros m' [Hm'|Hm']; congruence|].
    intros sid' msg' Hb. rewrite Hj in Hb. inversion Hb; subst sid' msg'.
    apply andb_false_iff in Hmiss.
    split; [auto|]. split; [|split].
    + intros H1 H2. destruct Hmiss; congruence.
    + intros H2 _ m' ->. cbn in Hmiss. destruct Hmiss; congruence.
    + intros H1 _ e ->. cbn in Hmiss. destruct Hmiss; congruence.
  - destruct Hrest as (Hsid & Hmsg & [[Hlong E]|(Hshort & Hid)]).
    + eexists; eexists; split; [exact E|]. cbn.
      split; [auto|]. split; [auto|]. split; [auto|]. split; [congruence|].
      intros _. split; [reflexivity|].
      split; [intros m' [Hm'|Hm']; congruence|].
      intros sid' msg' Hb. rewrite Hj in Hb. inversion Hb; subst sid' msg'.
      split; [intros [H|H]; congruence|].
      split; [auto|]. split; [intros; congruence|].
      intros _ _ e ->. cbn in Hlong. discriminate.
    + destruct Hid as [(m & Hm & E)
                      |(Hok & [(over & e & Hm & E)
                              |(text & out & w' & Hm & Hne & Hlen & Ep & E)])].
      * eexists; eexists; split; [exact E|]. cbn.
        split; [auto|]. split; [intros [H|H]; discriminate H|].
        split; [auto|]. split; [congruence|].
        intros _. split; [reflexivity|].
        split; [intros m' [Hm'|Hm']; congruence|].
        intros sid' msg' Hb. rewrite Hj in Hb. inversion Hb; subst sid' msg'.
        split; [intros [H|H]; congruence|].
        split; [intros; congruence|].
        split; [intros _ _ m' Hm'; rewrite Hm in Hm'; inversion Hm'; auto|].
        intros _ Hno. exfalso. exact (Hno m Hm).
      * eexists; eexists; split; [exact E|]. cbn.
        split; [auto|]. split; [intros [H|H]; discriminate H|].
        split; [auto|]. split; [congruence|].
        intros _. split; [reflexivity|].
        split; [intros m' [Hm'|Hm']; congruence|].
        intros sid' msg' Hb. rewrite Hj in Hb. inversion Hb; subst sid' msg'.
        split; [intros [H|H]; congruence|].
        split; [intros; congruence|].
        split; [intros _ _ m' Hm'; exfalso; exact (Hok m' Hm')|].
        intros _ _ e' He'. rewrite Hm in He'. inversion He'; auto.
      * eexists; eexists; split; [exact E|].
        assert (Hst : Http.status
                        (Http.addCORSHeaders
                           match out with
                           | Return reply =>
                               {| Http.status := 200;
                                  Http.headers := Http.jsonHeaders;
                                  Http.body := Http.ReplyBody reply |}
                           | Throw m =>
                               {| Http.status := 500;
                                  Http.headers := Http.jsonHeaders;
                                  Http.body := Http.ErrorBody m |}
                           end) = 200
                      \/ Http.status
                           (Http.addCORSHeaders
                              match out with
                              | Return reply =>
                                  {| Http.status := 200;
                                     Http.headers := Http.jsonHeaders;
                                     Http.body := Http.ReplyBody reply |}
                              | Throw m =>
                                  {| Http.status := 500;
                                     Http.headers := Http.jsonHeaders;
                                     Http.body := Http.ErrorBody m |}
                              end) = 500)
          by (destruct out; cbn; auto).
        split; [destruct Hst as [-> | ->]; auto|].
        split; [intros [H|H]; destruct Hst as [Hs|Hs]; rewrite Hs in H;
                discriminate H|].
        split; [right; exists sid, text; subst msg; auto|].
        split; [congruence|]. intros _.
        split; [destruct out; reflexivity|].
        split; [intros m' [Hm'|Hm']; congruence|].
        intros sid' msg' Hb. rewrite Hj in Hb. inversion Hb; subst sid' msg'.
        split; [intros [H|H]; congruence|].
        split; [intros; congruence|].
        split; [intros _ _ m' Hm'; exfalso; exact (Hok m' Hm')|].
        intros _ _ e He. congruence.
Qed.

(** X17.  A 200 answer of the chat endpoint always carries a reply that is
    not empty, and that reply is the content of the assistant entry the turn
    has appended after the user entry, which holds the message of the body.
    A 500 answer to a body whose sessionId and message are strings carries
    "Failed to append entry to conversation"; a 500 answer with another
    message has changed nothing. *)
Theorem chat_api_reply_is_stored (env : Oracles) (req : Http.Request)
  (w : World) (resp : Http.Response) (w' : World)
  (H : Http.handleChatAPI env req w = (Return resp, w')) :
  (Http.status resp = 200 ->
   exists sid text reply u a,
     Http.json req = Return (Http.Fields sid (Http.MessageText text))
     /\ Http.body resp = Http.ReplyBody reply
     /\ reply <> ""
     /\ logOf w' = (logOf w ++ [u; a])%list
     /\ role u = user /\ role a = assistant /\ content a = reply)
  /\ (Http.status resp = 500 ->
      (forall name text,
         Http.json req
         = Return (Http.Fields (Http.SessionName name) (Http.MessageText text)) ->
         Http.body resp = Http.ErrorBody "Failed to append entry to conversation")
      /\ (w' = w
          \/ Http.body resp
             = Http.ErrorBody "Failed to append entry to conversation")).
Proof.
  destruct (handleChatAPI_cases env req w)
    as [[Hv E]|[Hv [(m & Hj & E)|(sid & msg & Hj & [[Hmiss E]|Hrest])]]].
  - rewrite E in H. inversion H; subst. cbn.
    split; intros Hst; discriminate Hst.
  - rewrite E in H. inversion H; subst. cbn.
    split; [intros Hst; discriminate Hst|]. intros _.
    split; [|left; reflexivity].
    intros name text Hb. destruct Hj as [Hj|Hj]; congruence.
  - rewrite E in H. inversion H; subst. cbn.
    split; intros Hst; discriminate Hst.
  - destruct Hrest as (Hsid & Hmsg & [[Hlong E]|(Hshort & Hid)]).
    + rewrite E in H. inversion H; subst. cbn.
      split; intros Hst; discriminate Hst.
    + destruct Hid as [(m & Hm & E)
                      |(Hok & [(over & e & Hm & E)
                              |(text & out & w1 & Hm & Hne & Hlen & Ep & E)])].
      * rewrite E in H. inversion H; subst. cbn.
        split; [intros Hst; discriminate Hst|]. intros _.
        split; [|left; reflexivity].
        intros name text Hb. rewrite Hj in Hb. discriminate Hb.
      * rewrite E in H. inversion H; subst. cbn.
        split; [intros Hst; discriminate Hst|]. intros _.
        split; [|left; reflexivity].
        intros name text Hb. rewrite Hj in Hb. discriminate Hb.
      * rewrite E in H. inversion H; subst. destruct out as [reply|m]; cbn.
        -- split; [|intros Hst; discriminate Hst]. intros _.
           destruct (turn_pair env _ _ _ _ Ep)
             as (u & a & Hlog & Hu & Ha & Hc & Ht & _).
           exists sid, text, reply, u, a. repeat split; auto.
           now apply truthy_nonempty.
        -- split; [intros Hst; discriminate Hst|]. intros _.
           rewrite (turn_raises_append_only env _ _ _ _ Ep).
           split; [reflexivity|right; reflexivity].
Qed.

Lemma chat_api_reply_is_stored_witness :
  let req := {| Http.verb := Http.POST; Http.pathname := "/api/chat";
                Http.json := Return (Http.Fields
                                       (Http.SessionName "session_1")
                                       (Http.MessageText "A. B. C.")) |} in
  let res := Http.handleChatAPI Fixtures.envOk req Fixtures.freshWorld in
  exists reply u a,
    reply <> ""
    /\ logOf (snd res) = ([] ++ [u; a])%list
    /\ content a = reply.
Proof.
  intros req res.
  destruct (chat_api_reply_is_stored Fixtures.envOk req Fixtures.freshWorld
              {| Http.status := 200;
                 Http.headers := [("content-type", "application/json");
                                  ("access-control-allow-origin", "*")];
                 Http.body := Http.ReplyBody "A short summary." |}
              (snd res)) as [Hok _].
  - vm_compute. reflexivity.
  - destruct (Hok eq_refl)
      as (sid & text & reply & u & a & _ & _ & Hne & Hlog & _ & _ & Hc).
    exists reply, u, a. auto.
Defined.

(** Bodies that parse and are not what the handler expects: null, and a
    message that is a number. *)
Example chat_api_ill_typed_bodies :
  let post body := {| Http.verb := Http.POST; Http.pathname := "/api/chat";
                      Http.json := Return body |} in
  Http.handleChatAPI Fixtures.envOk
    (post (Http.NullBody
             "Cannot destructure property 'sessionId' of 'body' as it is null."))
    Fixtures.freshWorld
  = (Return (Http.addCORSHeaders
               {| Http.status := 500; Http.headers := Http.jsonHeaders;
                  Http.body :=
                    Http.ErrorBody
                      "Cannot destructure property 'sessionId' of 'body' as it is null." |}),
     Fixtures.freshWorld)
  /\ Http.handleChatAPI Fixtures.envOk
       (post (Http.Fields (Http.SessionName "s")
                (Http.OtherMessage false "text.trim is not a function")))
       Fixtures.freshWorld
     = (Return (Http.addCORSHeaders
                  {| Http.status := 500; Http.headers := Http.jsonHeaders;
                     Http.body := Http.ErrorBody "text.trim is not a function" |}),
        Fixtures.freshWorld).
Proof. split; reflexivity. Qed.

End ChatEndpointClaims.

(* ================================================================== *)
(** * The content branch and the follow-up branch *)
(* ================================================================== *)

Section OtherBranches.

Import ChatRoomDO Runtime Props.
Local Open Scope string_scope.

Variable env : Oracles.

(** As [turn_total], with what the try/catch block may assume of the log it
    finds: the user entry is in it. *)
Lemma turn_total_from (message : string) (w : World) (out : Outcome string)
  (w' : World) (P : string * ConversationEntry -> Prop) :
  storageWorks env ->
  Worker.processMessage env message w = (out, w') ->
  JS.truthy (content (Worker.userEntryOf (Worker.determineMessageType message)
                        message (now env (tick w)))) = true ->
  (forall w1 ra w2,
     logOf w1 <> [] ->
     Worker.attemptOf env (Worker.determineMessageType message) message w1
     = (Return ra, w2) -> P ra) ->
  (forall ra, P ra -> JS.truthy (fst ra) = true) ->
  exists ra u a,
    P ra /\ out = Return (fst ra)
    /\ logOf w' = (logOf w ++ [u; a])%list
    /\ role u = user
    /\ content u = content (Worker.userEntryOf
                              (Worker.determineMessageType message) message "")
    /\ type u = type (Worker.userEntryOf
                        (Worker.determineMessageType message) message "")
    /\ role a = assistant /\ content a = fst ra
    /\ type a = type (snd ra) /\ url a = url (snd ra).
Proof.
  intros Hs H Hu HP Htruthy.
  destruct (appendEntry_total env _ (step w) Hs Hu) as (wa & Ea).
  destruct (turn_inv env _ _ _ _ H) as [[E _]|Hok]; [congruence|].
  destruct Hok as (w1 & ra & w2 & out3 & E1 & E2 & [Hrole Hcontent] & Hlog & E3 & Hout).
  pose proof (appendEntry_outcome env _ _ _ _ E1) as (_ & _ & _ & L1).
  cbn [logOf step dobj] in L1. fold (logOf w) in L1.
  assert (Hne1 : logOf w1 <> []).
  { rewrite L1. intros E. apply app_eq_nil in E. destruct E; discriminate. }
  pose proof (HP _ _ _ Hne1 E2) as Hra.
  assert (Hc : JS.truthy (content (snd ra)) = true)
    by (rewrite Hcontent; auto).
  destruct (appendEntry_total env _ w2 Hs Hc) as (wb & Eb).
  rewrite Eb in E3. inversion E3; subst out3 wb; clear E3.
  pose proof (appendEntry_outcome env _ _ _ _ Eb) as (_ & _ & _ & L3).
  exists ra. eexists; eexists. split; [exact Hra|]. split; [exact Hout|]. split.
  - rewrite L3, Hlog, L1, <- app_assoc. reflexivity.
  - cbn [role content type url Worker.mkEntry]. rewrite userEntryOf_user.
    destruct (Worker.determineMessageType message); repeat split; auto.
Qed.

Lemma generation_fails (w : World) :
  (forall n p, ai_run env n p = RespRejects \/ ai_run env n p = RespOther) ->
  (forall text url,
     fst (LlmClient.generateSummary env text url w)
     = Throw "Failed to generate summary. Please try again.")
  /\ (forall q context,
        fst (LlmClient.answerFollowup env q context w)
        = Throw "Failed to answer question. Please try again.").
Proof.
  intros Hai.
  destruct (generation_calls_model_once_aux env w) as [Hg Ha].
  split.
  - intros text url. destruct (Hg text url) as [_ ->].
    destruct (Hai (tick w)
                (LlmClient.buildSummaryPrompt
                   (LlmClient.truncateText text LlmClient.MAX_CONTEXT_LENGTH) url))
      as [-> | ->]; reflexivity.
  - intros q context. destruct (Ha q context) as [_ ->].
    destruct (Hai (tick w) (LlmClient.buildFollowupPrompt q context))
      as [-> | ->]; reflexivity.
Qed.

End OtherBranches.

Section OtherBranchesFailures.

Import ChatRoomDO Runtime Props.
Local Open Scope string_scope.

Variable env : Oracles.

Hypothesis model_fails :
  forall n p, ai_run env n p = RespRejects \/ ai_run env n p = RespOther.

Lemma contentAttempt_failure (message : string) (w : World)
  (ra : string * ConversationEntry) (w' : World) :
  Worker.contentAttempt env message w = (Return ra, w') ->
  fst ra = "Sorry, I couldn't generate a summary. Failed to generate summary. Please try again."
  /\ type (snd ra) = None /\ url (snd ra) = None.
Proof.
  unfold Worker.contentAttempt, tryCatch. unfold bind at 1.
  pose proof (proj1 (generation_fails env w model_fails) message None) as Hg.
  destruct (LlmClient.generateSummary env message None w) as [o wg].
  cbn [fst] in Hg. subst o.
  intros H. inversion H; subst. repeat split.
Qed.

Lemma followupAttempt_failure (message : string) (w : World)
  (ra : string * ConversationEntry) (w' : World) :
  storageWorks env ->
  logOf w <> [] ->
  Worker.followupAttempt env message w = (Return ra, w') ->
  fst ra = "Sorry, I couldn't answer your question. Failed to answer question. Please try again."
  /\ type (snd ra) = None /\ url (snd ra) = None.
Proof.
  intros Hs Hne.
  destruct (getRecentEntries_total env "10" w Hs) as (w1 & E & _ & _).
  change (JS.neg (JS.parseInt (if JS.truthy "10" then "10" else "10")))
    with (Some (- Z.of_nat 10)%Z) in E.
  rewrite slice_last in E by lia.
  assert (Hlen : (List.length (Spec.lastN 10 (logOf w)) =? 0)%nat = false).
  { apply Nat.eqb_neq. rewrite lastN_length.
    destruct (logOf w); [congruence|cbn [List.length]; lia]. }
  unfold Worker.followupAttempt, tryCatch. unfold bind at 1.
  rewrite E, Hlen. unfold bind at 1.
  pose proof (proj2 (generation_fails env w1 model_fails) message
                (Spec.lastN 10 (logOf w))) as Ha.
  destruct (LlmClient.answerFollowup env message _ w1) as [o wg].
  cbn [fst] in Ha. subst o.
  intros H. inversion H; subst. repeat split.
Qed.

End OtherBranchesFailures.

Section OtherBranchesClaims.

Import ChatRoomDO Runtime Props.
Local Open Scope string_scope.

(** X18.  Outside the URL branch too a failing model costs no turn: with a
    working storage and a message that is not empty, a content turn returns
    "Sorry, I couldn't generate a summary. " and a follow-up turn
    "Sorry, I couldn't answer your question. ", each followed by the fixed
    message of the generation call; the user entry holds the message as
    typed, with its kind, and the assistant entry appended after it holds
    the apology and, unlike the apology of the URL branch, no kind at
    all. *)
Theorem content_and_followup_failures_absorbed (env : Oracles)
  (message : string) (w : World) (out : Outcome string) (w' : World)
  (Hs : storageWorks env)
  (Hne : message <> "")
  (Hai : forall n p, ai_run env n p = RespRejects \/ ai_run env n p = RespOther)
  (Hmt : Worker.determineMessageType message <> Worker.MT_url)
  (H : Worker.processMessage env message w = (out, w')) :
  let apology :=
    match Worker.determineMessageType message with
    | Worker.MT_followup =>
        "Sorry, I couldn't answer your question. Failed to answer question. Please try again."
    | _ =>
        "Sorry, I couldn't generate a summary. Failed to generate summary. Please try again."
    end in
  out = Return apology
  /\ exists u a,
       logOf w' = (logOf w ++ [u; a])%list
       /\ role u = user /\ content u = message
       /\ type u = Some (match Worker.determineMessageType message with
                         | Worker.MT_followup => followup
                         | _ => raw_summary
                         end)
       /\ role a = assistant /\ content a = apology /\ type a = None.
Proof.
  intros apology.
  assert (Hu : JS.truthy
                 (content (Worker.userEntryOf
                             (Worker.determineMessageType message) message
                             (now env (tick w)))) = true).
  { destruct (Worker.determineMessageType message); [congruence| |];
      cbn; now apply truthy_nonempty. }
  destruct (turn_total_from env message w out w'
              (fun ra => fst ra = apology /\ type (snd ra) = None) Hs H Hu)
    as (ra & u & a & (Hf & Hty) & Hout & Hlog & Hru & Hcu & Htu & Hra & Hca & Hta & _).
  - intros w1 ra w2 Hne1 E. subst apology.
    destruct (Worker.determineMessageType message); [congruence| |];
      cbn [Worker.attemptOf] in E.
    + destruct (contentAttempt_failure env Hai _ _ _ _ E) as (? & ? & _); auto.
    + destruct (followupAttempt_failure env Hai _ _ _ _ Hs Hne1 E) as (? & ? & _);
        auto.
  - intros ra (Hf & _). rewrite Hf. subst apology.
    destruct (Worker.determineMessageType message); reflexivity.
  - split; [now rewrite Hout, Hf|].
    exists u, a. rewrite Hcu, Htu, Hca, Hta, Hf, Hty.
    destruct (Worker.determineMessageType message); [congruence| |];
      repeat split; auto.
Qed.

Lemma content_and_followup_failures_absorbed_witness :
  fst (Worker.processMessage Fixtures.envModelFails "What is it about?"
         Fixtures.freshWorld)
  = Return "Sorry, I couldn't answer your question. Failed to answer question. Please try again.".
Proof.
  destruct (content_and_followup_failures_absorbed Fixtures.envModelFails
              "What is it about?" Fixtures.freshWorld
              (fst (Worker.processMessage Fixtures.envModelFails
                      "What is it about?" Fixtures.freshWorld))
              (snd (Worker.processMessage Fixtures.envModelFails
                      "What is it about?" Fixtures.freshWorld)))
    as [Hout _].
  - intro n. reflexivity.
  - discriminate.
  - intros n p. left. reflexivity.
  - vm_compute. discriminate.
  - vm_compute. reflexivity.
  - exact Hout.
Defined.

(** X19.  A storage failure met while reading is absorbed like a failure of
    the model: when the write made by /recent does not complete, the
    follow-up block ends with the reply "Sorry, I couldn't answer your
    question. Failed to get recent entries" on an assistant entry without
    kind; the model has not been called and the log is as it was. *)
Theorem followup_recent_failure_is_absorbed (env : Oracles) (message : string)
  (w : World)
  (Hfail : put_ok env (S (tick w)) = false) :
  let res := Worker.followupAttempt env message w in
  fst res
  = Return ("Sorry, I couldn't answer your question. Failed to get recent entries",
            Worker.mkEntry assistant
              "Sorry, I couldn't answer your question. Failed to get recent entries"
              None None (now env (S (S (tick w)))))
  /\ trace (snd res) = trace w
  /\ logOf (snd res) = logOf w.
Proof.
  intros res.
  assert (E : res
              = (Return ("Sorry, I couldn't answer your question. Failed to get recent entries",
                         Worker.mkEntry assistant
                           "Sorry, I couldn't answer your question. Failed to get recent entries"
                           None None (now env (S (S (tick w))))),
                 {| dobj := {| entries := logOf w;
                               doCreatedAt := doCreatedAt (dobj w);
                               lastAccessedAt := now env (tick w);
                               storage := storage (dobj w) |};
                    tick := S (S (S (tick w)));
                    trace := trace w |})).
  { subst res.
    unfold Worker.followupAttempt, tryCatch. unfold bind at 1.
    unfold Worker.getRecentEntries. unfold bind at 1.
    rewrite doFetch_recent. unfold tryCatch.
    rewrite handleGetRecent_eq, Hfail. reflexivity. }
  rewrite E. repeat split.
Qed.

Lemma followup_recent_failure_is_absorbed_witness :
  fst (Worker.followupAttempt Fixtures.envStorageDown "What is it about?"
         (Fixtures.worldWith [Fixtures.e1]))
  = Return ("Sorry, I couldn't answer your question. Failed to get recent entries",
            Worker.mkEntry assistant
              "Sorry, I couldn't answer your question. Failed to get recent entries"
              None None "2025-01-01T00:00:02.000Z").
Proof.
  destruct (followup_recent_failure_is_absorbed Fixtures.envStorageDown
              "What is it about?" (Fixtures.worldWith [Fixtures.e1]))
    as [H _].
  - reflexivity.
  - exact H.
Defined.

End OtherBranchesClaims.

(* ================================================================== *)
(** * Static assets and the router *)
(* ================================================================== *)

Section ContentTypes.

Local Open Scope string_scope.

Lemma toLowerCaseChar_dot (c : ascii) :
  Ascii.eqb (JS.toLowerCaseChar c) "." = Ascii.eqb c ".".
Proof.
  destruct c as [[] [] [] [] [] [] [] []]; vm_compute; reflexivity.
Qed.

Lemma toLowerCaseChar_idem (c : ascii) :
  JS.toLowerCaseChar (JS.toLowerCaseChar c) = JS.toLowerCaseChar c.
Proof.
  destruct c as [[] [] [] [] [] [] [] []]; vm_compute; reflexivity.
Qed.

Lemma toLowerCase_idem (s : string) :
  JS.toLowerCase (JS.toLowerCase s) = JS.toLowerCase s.
Proof.
  unfold JS.toLowerCase. rewrite list_ascii_of_string_of_list_ascii, map_map.
  f_equal. apply map_ext. intros c. apply toLowerCaseChar_idem.
Qed.

Lemma takeUntil_app (sep : ascii) (a b : list ascii) :
  existsb (fun c => Ascii.eqb c sep) a = false ->
  JS.takeUntil sep (a ++ sep :: b)%list = a.
Proof.
  induction a as [|c a IH]; intros H; cbn [app JS.takeUntil].
  - now rewrite Ascii.eqb_refl.
  - cbn [existsb] in H. apply orb_false_iff in H. destruct H as [Hc Ha].
    rewrite Hc. f_equal. auto.
Qed.

Lemma takeUntil_none (sep : ascii) (a : list ascii) :
  existsb (fun c => Ascii.eqb c sep) a = false ->
  JS.takeUntil sep a = a.
Proof.
  induction a as [|c a IH]; intros H; [reflexivity|].
  cbn [existsb] in H. apply orb_false_iff in H. destruct H as [Hc Ha].
  cbn [JS.takeUntil]. rewrite Hc. f_equal. auto.
Qed.

Lemma existsb_rev_dot (l : list ascii) :
  existsb (fun c => Ascii.eqb c ".") (rev l)
  = existsb (fun c => Ascii.eqb c ".") l.
Proof.
  induction l as [|c l IH]; [reflexivity|].
  cbn [rev existsb]. rewrite existsb_app, IH. cbn [existsb].
  rewrite orb_false_r. apply orb_comm.
Qed.

Lemma lastSegment_ext (dir ext : string) :
  existsb (fun c => Ascii.eqb c ".") (list_ascii_of_string ext) = false ->
  JS.lastSegment "." (dir ++ "." ++ ext) = ext.
Proof.
  intros H. unfold JS.lastSegment.
  rewrite !list_ascii_of_string_app. cbn [list_ascii_of_string app].
  rewrite rev_app_distr. cbn [rev]. rewrite <- app_assoc. cbn [app].
  rewrite takeUntil_app by (now rewrite existsb_rev_dot).
  now rewrite rev_involutive, string_of_list_ascii_of_string.
Qed.

Lemma lastSegment_nodot (path : string) :
  existsb (fun c => Ascii.eqb c ".") (list_ascii_of_string path) = false ->
  JS.lastSegment "." path = path.
Proof.
  intros H. unfold JS.lastSegment.
  rewrite takeUntil_none by (now rewrite existsb_rev_dot).
  now rewrite rev_involutive, string_of_list_ascii_of_string.
Qed.

Lemma toLowerCase_nodot (s : string) :
  existsb (fun c => Ascii.eqb c ".")
    (list_ascii_of_string (JS.toLowerCase s))
  = existsb (fun c => Ascii.eqb c ".") (list_ascii_of_string s).
Proof.
  unfold JS.toLowerCase. rewrite list_ascii_of_string_of_list_ascii.
  induction (list_ascii_of_string s) as [|c l IH]; [reflexivity|].
  cbn [map existsb]. now rewrite toLowerCaseChar_dot, IH.
Qed.

Lemma getContentType_lookup (path : string) :
  Http.getContentType path
  = match Http.getProperty (JS.toLowerCase (JS.lastSegment "." path)) with
    | Some v => v
    | None => Http.PString "application/octet-stream"
    end.
Proof.
  unfold Http.getContentType.
  destruct (JS.truthy (JS.toLowerCase (JS.lastSegment "." path))) eqn:E;
    [reflexivity|].
  unfold JS.truthy in E. apply negb_false_iff, String.eqb_eq in E.
  now rewrite E.
Qed.

(** X20.  The content type of a static file depends on nothing but the text
    after the last dot of its path, letters in either case: any two paths
    with the same extension up to case get the same type, and a path
    without a dot is looked up whole.  The result is a string of the table
    or application/octet-stream, except for the extensions "constructor" and
    "__proto__", for which the lookup in the object literal yields an
    inherited object, not a string. *)
Theorem getContentType_by_extension (dir ext : string)
  (Hext : existsb (fun c => Ascii.eqb c ".") (list_ascii_of_string ext) = false) :
  Http.getContentType (dir ++ "." ++ ext)
  = match Http.getProperty (JS.toLowerCase ext) with
    | Some v => v
    | None => Http.PString "application/octet-stream"
    end
  /\ (forall dir', Http.getContentType (dir' ++ "." ++ JS.toLowerCase ext)
                   = Http.getContentType (dir ++ "." ++ ext))
  /\ Http.getContentType ext
     = Http.getContentType (dir ++ "." ++ ext)
  /\ (Http.getContentType (dir ++ "." ++ ext) = Http.PObjectConstructor
      <-> JS.toLowerCase ext = "constructor")
  /\ (Http.getContentType (dir ++ "." ++ ext) = Http.PObjectPrototype
      <-> JS.toLowerCase ext = "__proto__").
Proof.
  assert (H1 : Http.getContentType (dir ++ "." ++ ext)
               = match Http.getProperty (JS.toLowerCase ext) with
                 | Some v => v
                 | None => Http.PString "application/octet-stream"
                 end)
    by (now rewrite getContentType_lookup, lastSegment_ext).
  split; [exact H1|]. split; [|split].
  - intros dir'. rewrite H1, getContentType_lookup, lastSegment_ext
      by (now rewrite toLowerCase_nodot).
    now rewrite toLowerCase_idem.
  - now rewrite H1, getContentType_lookup, lastSegment_nodot.
  - rewrite H1. unfold Http.getProperty.
    destruct (Http.getHeader (JS.toLowerCase ext) Http.contentTypes)
      as [v|] eqn:E.
    + split; (split; [discriminate|]); intros Hc; rewrite Hc in E;
        discriminate.
    + destruct (String.eqb_spec (JS.toLowerCase ext) "constructor") as [Hc|Hc].
      * split; [split; [intros _; exact Hc|reflexivity]|].
        split; [discriminate|]. intros Hp. rewrite Hp in Hc. discriminate.
      * destruct (String.eqb_spec (JS.toLowerCase ext) "__proto__") as [Hp|Hp].
        -- split; [split; [discriminate|]; intros Hc'; congruence|].
           split; [intros _; exact Hp|reflexivity].
        -- split; (split; [discriminate|]); intros Hc'; congruence.
Qed.

End ContentTypes.

Section ContentTypesExample.

Local Open Scope string_scope.

Lemma getContentType_by_extension_witness :
  Http.getContentType "/img/Logo.PNG" = Http.PString "image/png"
  /\ Http.getContentType "PNG" = Http.getContentType "/img/Logo.PNG".
Proof.
  destruct (getContentType_by_extension "/img/Logo" "PNG" eq_refl)
    as (H1 & _ & H3 & _).
  split; [exact H1|exact H3].
Defined.

End ContentTypesExample.

Section StaticAssets.

Import Runtime Props.
Local Open Scope string_scope.

Variable assets : Http.Assets.

Lemma handleStaticAsset_eq (req : Http.Request) (w : World) :
  Http.handleStaticAsset assets req w
  = (Return
       match Http.assetGet assets (tick w)
               (if String.eqb (Http.pathname req) "/" then "/index.html"
                else Http.pathname req) with
       | Return (Some bytes) =>
           {| Http.status := 200;
              Http.headers :=
                [("content-type",
                  Http.headerValue
                    (Http.getContentType
                       (if String.eqb (Http.pathname req) "/"
                        then "/index.html" else Http.pathname req)));
                 ("cache-control", "public, max-age=3600")];
              Http.body := Http.AssetBody bytes |}
       | Return None => Http.textResponse 404 "Not Found"
       | Throw _ => Http.textResponse 500 "Internal Server Error"
       end, step w).
Proof.
  unfold Http.handleStaticAsset, tryCatch, bind, Http.getAsset.
  destruct (Http.assetGet assets (tick w) _) as [[bytes|]|m]; reflexivity.
Qed.

(** X21.  Serving a static file never raises and touches neither the session
    object nor the trace of calls; the path "/" is served as "/index.html",
    with the type text/html; the status is 200 exactly when the store has
    the file, 404 exactly when it has none and 500 exactly when the store
    raises, and the body of a 500 is a fixed text that does not disclose
    the error of the store. *)
Theorem static_asset_responses (req : Http.Request) (w : World) :
  let path := if String.eqb (Http.pathname req) "/" then "/index.html"
              else Http.pathname req in
  exists resp,
    Http.handleStaticAsset assets req w = (Return resp, step w)
    /\ (forall req',
          Http.pathname req = "/" -> Http.pathname req' = "/index.html" ->
          Http.handleStaticAsset assets req' w
          = Http.handleStaticAsset assets req w)
    /\ (Http.status resp = 200
        <-> exists bytes, Http.assetGet assets (tick w) path = Return (Some bytes))
    /\ (Http.status resp = 404
        <-> Http.assetGet assets (tick w) path = Return None)
    /\ (Http.status resp = 500
        <-> exists m, Http.assetGet assets (tick w) path = Throw m)
    /\ (forall bytes,
          Http.assetGet assets (tick w) path = Return (Some bytes) ->
          Http.body resp = Http.AssetBody bytes
          /\ Http.getHeader "content-type" (Http.headers resp)
             = Some (Http.headerValue (Http.getContentType path))
          /\ Http.getHeader "cache-control" (Http.headers resp)
             = Some "public, max-age=3600"
          /\ (Http.pathname req = "/" ->
              Http.getHeader "content-type" (Http.headers resp)
              = Some "text/html; charset=utf-8"))
    /\ (Http.status resp = 500 ->
        Http.body resp = Http.TextBody "Internal Server Error")
    /\ (Http.status resp = 404 -> Http.body resp = Http.TextBody "Not Found").
Proof.
  intros path. eexists. split; [apply handleStaticAsset_eq|].
  split.
  { intros req' H1 H2. rewrite !handleStaticAsset_eq, H1, H2. reflexivity. }
  fold path.
  destruct (Http.assetGet assets (tick w) path) as [[bytes|]|m] eqn:E;
    cbn [Http.status Http.body Http.headers Http.textResponse].
  - split; [split; [intros _; now exists bytes|reflexivity]|].
    split; [split; discriminate|].
    split; [split; [discriminate|intros (m & Hm); discriminate]|].
    split; [|split; discriminate].
    intros b Hb. inversion Hb; subst b.
    repeat split. intros Hroot. subst path. rewrite Hroot. reflexivity.
  - split; [split; [discriminate|intros (b & Hb); discriminate]|].
    split; [split; reflexivity|].
    split; [split; [discriminate|intros (m & Hm); discriminate]|].
    split; [discriminate|]. split; [discriminate|reflexivity].
  - split; [split; [discriminate|intros (b & Hb); discriminate]|].
    split; [split; discriminate|].
    split; [split; [intros _; now exists m|reflexivity]|].
    split; [discriminate|]. split; [reflexivity|discriminate].
Qed.

End StaticAssets.

Section Router.

Import Runtime Props.
Local Open Scope string_scope.

Variable env : Oracles.
Variable assets : Http.Assets.

Lemma handleChatAPI_returns (req : Http.Request) (w : World) :
  exists resp w',
    Http.handleChatAPI env req w = (Return resp, w')
    /\ (forall e m, Http.body resp <> Http.ErrorMessageBody e m)
    /\ (Http.verb req <> Http.POST -> w' = w).
Proof.
  destruct (handleChatAPI_answers env req w) as (resp & w' & E & Hb & Hw).
  exists resp, w'. split; [exact E|]. split; [exact Hb|].
  intros Hv. destruct Hw as [Hw|(sid & text & out & Hp & _)];
    [exact Hw|congruence].
Qed.

(** The outer catch of the fetch handler is never entered. *)
Lemma fetch_route (req : Http.Request) (w : World) :
  Http.fetch env assets req w
  = match Http.verb req with
    | Http.OPTIONS => (Return Http.handleCORS, w)
    | _ =>
        if String.eqb (Http.pathname req) "/api/chat"
        then Http.handleChatAPI env req w
        else if String.eqb (Http.pathname req) "/api/health"
        then (Return {| Http.status := 200; Http.headers := Http.jsonHeaders;
                        Http.body := Http.HealthBody |}, w)
        else Http.handleStaticAsset assets req w
    end.
Proof.
  unfold Http.fetch.
  destruct (Http.verb req) eqn:Hv; [reflexivity| | |];
    unfold tryCatch;
    (destruct (String.eqb (Http.pathname req) "/api/chat");
     [destruct (handleChatAPI_returns req w) as (resp & w' & E & _);
      rewrite E; reflexivity|]);
    (destruct (String.eqb (Http.pathname req) "/api/health");
     [reflexivity|]);
    rewrite handleStaticAsset_eq; reflexivity.
Qed.

(** X22.  The fetch handler of the worker always answers: it never raises,
    and its own "Internal server error" answer is never produced, since
    every route catches its errors itself.  A preflight request is answered
    before any routing, whatever its path, without any effect.  Only a POST
    to /api/chat can change the session object or call the extractor or the
    model; /api/health answers 200 without any effect; any other path is a
    static file. *)
Theorem router_always_answers (req : Http.Request) (w : World) :
  exists resp w',
    Http.fetch env assets req w = (Return resp, w')
    /\ (forall e m, Http.body resp <> Http.ErrorMessageBody e m)
    /\ (Http.verb req = Http.OPTIONS -> resp = Http.handleCORS /\ w' = w)
    /\ (Http.verb req <> Http.POST \/ Http.pathname req <> "/api/chat" ->
        dobj w' = dobj w /\ trace w' = trace w)
    /\ (Http.verb req <> Http.OPTIONS -> Http.pathname req = "/api/health" ->
        Http.status resp = 200 /\ Http.body resp = Http.HealthBody /\ w' = w)
    /\ (Http.verb req <> Http.OPTIONS -> Http.pathname req <> "/api/chat" ->
        Http.pathname req <> "/api/health" ->
        Http.handleStaticAsset assets req w = (Return resp, w')).
Proof.
  rewrite fetch_route.
  destruct (Http.verb req) eqn:Hv.
  - exists Http.handleCORS, w. split; [reflexivity|].
    split; [intros e m; discriminate|]. split; [auto|].
    split; [auto|]. split; intros Hn; exfalso; now apply Hn.
  - destruct (String.eqb_spec (Http.pathname req) "/api/chat") as [Hc|Hc].
    + destruct (handleChatAPI_returns req w) as (resp & w' & E & Hb & Hw).
      rewrite Hv in Hw. exists resp, w'. split; [exact E|].
      split; [exact Hb|]. split; [discriminate|].
      assert (w' = w) as -> by (apply Hw; discriminate).
      split; [auto|]. split.
      * intros _ Hh. rewrite Hh in Hc. discriminate.
      * intros _ Hn. exfalso. now apply Hn.
    + destruct (String.eqb_spec (Http.pathname req) "/api/health") as [Hh|Hh].
      * eexists; eexists. split; [reflexivity|].
        split; [intros e m; discriminate|]. split; [discriminate|].
        split; [auto|]. split; [auto|]. intros _ _ Hn. exfalso. now apply Hn.
      * rewrite handleStaticAsset_eq. eexists; eexists.
        split; [reflexivity|]. split.
        { intros e m.
          destruct (Http.assetGet assets (tick w) _) as [[b|]|m'];
            discriminate. }
        split; [discriminate|]. split; [intros _; split; reflexivity|].
        split; [intros _ Hp; exfalso; now apply Hh|]. intros _ _ _. reflexivity.
  - destruct (String.eqb_spec (Http.pathname req) "/api/chat") as [Hc|Hc].
    + destruct (handleChatAPI_returns req w) as (resp & w' & E & Hb & Hw).
      exists resp, w'. split; [exact E|].
      split; [exact Hb|]. split; [discriminate|].
      split; [intros [Hn|Hn]; exfalso; now apply Hn|]. split.
      * intros _ Hh. rewrite Hh in Hc. discriminate.
      * intros _ Hn. exfalso. now apply Hn.
    + destruct (String.eqb_spec (Http.pathname req) "/api/health") as [Hh|Hh].
      * eexists; eexists. split; [reflexivity|].
        split; [intros e m; discriminate|]. split; [discriminate|].
        split; [auto|]. split; [auto|]. intros _ _ Hn. exfalso. now apply Hn.
      * rewrite handleStaticAsset_eq. eexists; eexists.
        split; [reflexivity|]. split.
        { intros e m.
          destruct (Http.assetGet assets (tick w) _) as [[b|]|m'];
            discriminate. }
        split; [discriminate|]. split; [intros _; split; reflexivity|].
        split; [intros _ Hp; exfalso; now apply Hh|]. intros _ _ _. reflexivity.
  - destruct (String.eqb_spec (Http.pathname req) "/api/chat") as [Hc|Hc].
    + destruct (handleChatAPI_returns req w) as (resp & w' & E & Hb & Hw).
      rewrite Hv in Hw. exists resp, w'. split; [exact E|].
      split; [exact Hb|]. split; [discriminate|].
      assert (w' = w) as -> by (apply Hw; discriminate).
      split; [auto|]. split.
      * intros _ Hh. rewrite Hh in Hc. discriminate.
      * intros _ Hn. exfalso. now apply Hn.
    + destruct (String.eqb_spec (Http.pathname req) "/api/health") as [Hh|Hh].
      * eexists; eexists. split; [reflexivity|].
        split; [intros e m; discriminate|]. split; [discriminate|].
        split; [auto|]. split; [auto|]. intros _ _ Hn. exfalso. now apply Hn.
      * rewrite handleStaticAsset_eq. eexists; eexists.
        split; [reflexivity|]. split.
        { intros e m.
          destruct (Http.assetGet assets (tick w) _) as [[b|]|m'];
            discriminate. }
        split; [discriminate|]. split; [intros _; split; reflexivity|].
        split; [intros _ Hp; exfalso; now apply Hh|]. intros _ _ _. reflexivity.
Qed.

End Router.

(* ================================================================== *)
(** * Fetching a page *)
(* ================================================================== *)

Section FetchURL.

Import Runtime Props TextExtractionIO.
Local Open Scope string_scope.

Variable net : Network.

Lemma fetchURLBody_ok (n : nat) (url html : string) :
  fetchURLBody net n url = Return html
  <-> exists protocol r ct,
        protocolOf net url = Return protocol
        /\ (protocol = "http:" \/ protocol = "https:")
        /\ httpFetch net n url = Return r
        /\ 200 <= status r <= 299
        /\ contentType r = Some ct
        /\ (JS.includes ct "text/html" = true
            \/ JS.includes ct "application/xhtml" = true)
        /\ text r = Return html.
Proof.
  unfold fetchURLBody. split.
  - destruct (protocolOf net url) as [protocol|m] eqn:Hp; [|discriminate].
    destruct (String.eqb protocol "http:" || String.eqb protocol "https:")
      eqn:Hproto; cbn [negb]; [|discriminate].
    destruct (httpFetch net n url) as [r|m] eqn:Hf; [|discriminate].
    destruct (ok r) eqn:Hok; cbn [negb]; [|discriminate].
    destruct (contentType r) as [ct|] eqn:Hct.
    + assert (Hsame : (if JS.truthyOpt (Some ct) then ct else "") = ct).
      { cbn [JS.truthyOpt]. unfold JS.truthy.
        destruct (String.eqb_spec ct ""); cbn [negb]; congruence. }
      rewrite Hsame.
      destruct (JS.includes ct "text/html") eqn:H1;
        destruct (JS.includes ct "application/xhtml") eqn:H2;
        cbn [negb andb]; try discriminate;
        intros Ht; exists protocol, r, ct;
        (split; [reflexivity|]);
        (split; [apply orb_true_iff in Hproto;
                 destruct Hproto as [E|E]; apply String.eqb_eq in E; auto|]);
        (split; [reflexivity|]);
        (split; [unfold ok in Hok; apply andb_true_iff in Hok;
                 destruct Hok as [Ha Hb]; apply Nat.leb_le in Ha;
                 apply Nat.leb_le in Hb; lia|]);
        (split; [exact Hct|]); (split; [auto|exact Ht]).
    + cbn [JS.truthyOpt]. discriminate.
  - intros (protocol & r & ct & Hp & Hproto & Hf & Hst & Hct & Hinc & Ht).
    rewrite Hp.
    assert (Hb : String.eqb protocol "http:" || String.eqb protocol "https:"
                 = true)
      by (destruct Hproto as [-> | ->]; reflexivity).
    rewrite Hb, Hf. cbn [negb].
    assert (Hok : ok r = true).
    { unfold ok. apply andb_true_iff. split; apply Nat.leb_le; lia. }
    rewrite Hok, Hct. cbn [negb].
    assert (Hsame : (if JS.truthyOpt (Some ct) then ct else "") = ct).
    { cbn [JS.truthyOpt]. unfold JS.truthy.
      destruct (String.eqb_spec ct ""); cbn [negb]; congruence. }
    rewrite Hsame.
    destruct Hinc as [E|E]; rewrite E; cbn [negb andb]; [exact Ht|].
    rewrite andb_false_r. exact Ht.
Qed.

Lemma fetchURL_status_error (n : nat) (url protocol : string)
  (r : FetchResponse) :
  protocolOf net url = Return protocol ->
  protocol = "http:" \/ protocol = "https:" ->
  httpFetch net n url = Return r ->
  status r < 200 \/ 299 < status r ->
  fetchURL net n url
  = Throw ("Failed to fetch URL: Failed to fetch URL: "
           ++ JS.numberToString (status r) ++ " " ++ statusText r).
Proof.
  intros Hp Hproto Hf Hst. unfold fetchURL, fetchURLBody. rewrite Hp.
  assert (Hb : String.eqb protocol "http:" || String.eqb protocol "https:"
               = true)
    by (destruct Hproto as [-> | ->]; reflexivity).
  rewrite Hb, Hf. cbn [negb].
  assert (Hok : ok r = false).
  { unfold ok. apply andb_false_iff.
    destruct Hst; [left|right]; apply Nat.leb_gt; lia. }
  rewrite Hok. reflexivity.
Qed.

(** X23.  fetchURL returns the body of the page exactly when the URL is an
    http or https one, the answer has a status from 200 to 299 and a
    content-type header that contains text/html or application/xhtml, and
    the body can be read.  Every error it raises starts with
    "Failed to fetch URL: ", whatever the cause; an answer with another
    status gives that prefix twice, followed by the status and its text; a
    URL of another protocol, an answer without a content-type header and an
    error of the platform give one message each. *)
Theorem fetchURL_outcomes (n : nat) (url : string) :
  (forall html,
     fetchURL net n url = Return html
     <-> exists protocol r ct,
           protocolOf net url = Return protocol
           /\ (protocol = "http:" \/ protocol = "https:")
           /\ httpFetch net n url = Return r
           /\ 200 <= status r <= 299
           /\ contentType r = Some ct
           /\ (JS.includes ct "text/html" = true
               \/ JS.includes ct "application/xhtml" = true)
           /\ text r = Return html)
  /\ (forall m, fetchURL net n url = Throw m ->
        exists cause, m = "Failed to fetch URL: " ++ cause)
  /\ (forall protocol r,
        protocolOf net url = Return protocol ->
        protocol = "http:" \/ protocol = "https:" ->
        httpFetch net n url = Return r ->
        (status r < 200 \/ 299 < status r ->
         fetchURL net n url
         = Throw ("Failed to fetch URL: Failed to fetch URL: "
                  ++ JS.numberToString (status r) ++ " " ++ statusText r))
        /\ (200 <= status r <= 299 -> contentType r = None ->
            fetchURL net n url
            = Throw "Failed to fetch URL: URL does not return HTML content"))
  /\ (forall protocol,
        protocolOf net url = Return protocol ->
        protocol <> "http:" -> protocol <> "https:" ->
        fetchURL net n url
        = Throw "Failed to fetch URL: Invalid URL protocol. Only HTTP and HTTPS are supported.")
  /\ (forall m, protocolOf net url = Throw m ->
        fetchURL net n url = Throw ("Failed to fetch URL: " ++ m))
  /\ (forall protocol m,
        protocolOf net url = Return protocol ->
        protocol = "http:" \/ protocol = "https:" ->
        httpFetch net n url = Throw m ->
        fetchURL net n url = Throw ("Failed to fetch URL: " ++ m)).
Proof.
  split.
  { intros html. rewrite <- fetchURLBody_ok. unfold fetchURL.
    destruct (fetchURLBody net n url); split; congruence. }
  split.
  { intros m. unfold fetchURL.
    destruct (fetchURLBody net n url) as [h|c]; [discriminate|].
    intros H. inversion H. now exists c. }
  split.
  { intros protocol r Hp Hproto Hf. split.
    - now apply fetchURL_status_error with (protocol := protocol).
    - intros Hst Hct. unfold fetchURL, fetchURLBody. rewrite Hp.
      assert (Hb : String.eqb protocol "http:" || String.eqb protocol "https:"
                   = true)
        by (destruct Hproto as [-> | ->]; reflexivity).
      rewrite Hb, Hf. cbn [negb].
      assert (Hok : ok r = true).
      { unfold ok. apply andb_true_iff. split; apply Nat.leb_le; lia. }
      rewrite Hok, Hct. reflexivity. }
  split.
  { intros protocol Hp H1 H2. unfold fetchURL, fetchURLBody. rewrite Hp.
    apply String.eqb_neq in H1. apply String.eqb_neq in H2.
    rewrite H1, H2. reflexivity. }
  split.
  { intros m Hp. unfold fetchURL, fetchURLBody. now rewrite Hp. }
  intros protocol m Hp Hproto Hf. unfold fetchURL, fetchURLBody. rewrite Hp.
  assert (Hb : String.eqb protocol "http:" || String.eqb protocol "https:"
               = true)
    by (destruct Hproto as [-> | ->]; reflexivity).
  now rewrite Hb, Hf.
Qed.

End FetchURL.

Section FetchURLInTurn.

Import ChatRoomDO Runtime Props TextExtractionIO.
Local Open Scope string_scope.

(** X24.  A URL turn of the worker running on a network, with a storage
    that completes its writes: whatever makes fetchURL fail, the turn
    returns the apology followed by the message of fetchURL and stores it
    as the assistant entry; when the site answers with a status outside 200
    to 299 the reply reads "... Failed to fetch URL: Failed to fetch URL: "
    and then the status and its text. *)
Theorem url_turn_reports_fetch_failure (env : Oracles) (net : Network)
  (message : string) (w : World) (out : Outcome string) (w' : World)
  (Hurl : Worker.determineMessageType message = Worker.MT_url)
  (Hs : storageWorks env)
  (H : Worker.processMessage (withNetwork net env) message w = (out, w')) :
  let u := JS.trim message in
  (forall m,
     (forall n, fetchURL net n u = Throw m) ->
     absorbed w w' out
       ("Sorry, I couldn't fetch or summarize that URL. " ++ m))
  /\ (forall protocol r,
        protocolOf net u = Return protocol ->
        protocol = "http:" \/ protocol = "https:" ->
        (forall n, httpFetch net n u = Return r) ->
        status r < 200 \/ 299 < status r ->
        absorbed w w' out
          ("Sorry, I couldn't fetch or summarize that URL. Failed to fetch URL: Failed to fetch URL: "
           ++ JS.numberToString (status r) ++ " " ++ statusText r)).
Proof.
  intros u.
  assert (Hu : JS.truthy
                 (content (Worker.userEntryOf
                             (Worker.determineMessageType message) message
                             (now (withNetwork net env) (tick w)))) = true)
    by (rewrite Hurl; reflexivity).
  assert (Hfail : forall m,
             (forall n, fetchURL net n u = Throw m) ->
             absorbed w w' out
               ("Sorry, I couldn't fetch or summarize that URL. " ++ m)).
  { intros m Hx.
    destruct (turn_total (withNetwork net env) message w out w' (urlApology m)
                Hs H Hu)
      as (ra & ue & a & (Hf & _ & Hnone) & Hout & Hlog & Hue & Ha & Hc & _ & Hurla).
    - rewrite Hurl. apply urlAttempt_fetch_error. intros n.
      cbn [withNetwork Runtime.fetchAndExtractText].
      unfold TextExtractionIO.fetchAndExtractText. now rewrite Hx.
    - intros ra (Hf & _). rewrite Hf. reflexivity.
    - split; [now rewrite Hout, Hf|].
      exists ue, a. rewrite Hurla, Hc, Hf. auto. }
  split; [exact Hfail|].
  intros protocol r Hp Hproto Hf Hst.
  apply (Hfail ("Failed to fetch URL: Failed to fetch URL: "
                ++ JS.numberToString (status r) ++ " " ++ statusText r)).
  intros n. now apply fetchURL_status_error with (protocol := protocol).
Qed.

Lemma url_turn_reports_fetch_failure_witness :
  let r := Worker.processMessage
             (withNetwork Fixtures.netNotFound Fixtures.envOk)
             "https://x.com/missing" Fixtures.freshWorld in
  absorbed Fixtures.freshWorld (snd r) (fst r)
    "Sorry, I couldn't fetch or summarize that URL. Failed to fetch URL: Failed to fetch URL: 404 Not Found".
Proof.
  intros r.
  destruct (url_turn_reports_fetch_failure Fixtures.envOk Fixtures.netNotFound
              "https://x.com/missing" Fixtures.freshWorld (fst r) (snd r))
    as (_ & Hstatus).
  - vm_compute. reflexivity.
  - intro n. reflexivity.
  - vm_compute. reflexivity.
  - apply (Hstatus "https:"
             {| status := 404; statusText := "Not Found";
                contentType := Some "text/html";
                text := Return "<h1>Not Found</h1>" |}).
    + reflexivity.
    + right. reflexivity.
    + intro n. reflexivity.
    + right. cbn. lia.
Defined.

End FetchURLInTurn.

(* ================================================================== *)
(** * Extracting the text of a page *)
(* ================================================================== *)

Section Replacing.

Local Open Scope list_scope.

Variable matchAt : list ascii -> option nat.
Variable rep : list ascii.

(** Replacing matches by at most one code unit never makes a text longer. *)
Lemma replaceAll_length (l : list ascii) (skip : nat) :
  List.length rep <= 1 ->
  List.length (JS.replaceAll matchAt rep l skip) <= List.length l - skip.
Proof.
  intros Hrep. revert skip.
  induction l as [|c l IH]; intros skip; [cbn; lia|].
  cbn [JS.replaceAll]. destruct skip as [|k].
  - destruct (matchAt (c :: l)) as [[|m]|].
    + cbn [List.length]. specialize (IH 0). lia.
    + rewrite length_app. specialize (IH m). cbn [List.length]. lia.
    + cbn [List.length]. specialize (IH 0). lia.
  - specialize (IH k). cbn [List.length]. lia.
Qed.

Lemma replace_length (l : list ascii) :
  List.length rep <= 1 ->
  List.length (JS.replace matchAt rep l) <= List.length l.
Proof.
  intros Hrep. unfold JS.replace.
  pose proof (replaceAll_length l 0 Hrep). lia.
Qed.

(** A text none of whose code units can start a match is left as it is. *)
Lemma replace_id (P : ascii -> Prop) (l : list ascii) :
  (forall c l', P c -> matchAt (c :: l') = None) ->
  Forall P l ->
  JS.replace matchAt rep l = l.
Proof.
  intros Hnone Hl. unfold JS.replace.
  induction Hl as [|c l Hc Hl IH]; [reflexivity|].
  cbn [JS.replaceAll]. now rewrite (Hnone c l Hc), IH.
Qed.

End Replacing.

Section Extraction.

Import Props.
Local Open Scope list_scope.

Lemma collapse_ws (c : ascii) (l : list ascii) :
  JS.isWhiteSpace c = true ->
  JS.replaceAll TextExtraction.matchSpaces [" "%char] (c :: l) 0
  = " "%char :: JS.replaceAll TextExtraction.matchSpaces [" "%char] l
                  (JS.spanLength JS.isWhiteSpace l).
Proof.
  intros Hc. cbn [JS.replaceAll]. unfold TextExtraction.matchSpaces.
  cbn [JS.spanLength]. rewrite Hc. reflexivity.
Qed.

Lemma collapse_other (c : ascii) (l : list ascii) :
  JS.isWhiteSpace c = false ->
  JS.replaceAll TextExtraction.matchSpaces [" "%char] (c :: l) 0
  = c :: JS.replaceAll TextExtraction.matchSpaces [" "%char] l 0.
Proof.
  intros Hc. cbn [JS.replaceAll]. unfold TextExtraction.matchSpaces.
  cbn [JS.spanLength]. rewrite Hc. reflexivity.
Qed.

(** After [/\s+/g] has been replaced by a space, the white space left is
    made of single spaces; what follows a replaced run starts with no white
    space. *)
Lemma collapse_inv (l : list ascii) :
  (singleSpaced (JS.replaceAll TextExtraction.matchSpaces [" "%char] l
                   (JS.spanLength JS.isWhiteSpace l))
   /\ match JS.replaceAll TextExtraction.matchSpaces [" "%char] l
              (JS.spanLength JS.isWhiteSpace l) with
      | [] => True
      | d :: _ => JS.isWhiteSpace d = false
      end)
  /\ singleSpaced (JS.replaceAll TextExtraction.matchSpaces [" "%char] l 0).
Proof.
  induction l as [|c l [[IHa IHh] IHb]]; [cbn; auto|].
  destruct (JS.isWhiteSpace c) eqn:Hc.
  - rewrite collapse_ws by exact Hc.
    cbn [JS.spanLength JS.replaceAll]. rewrite Hc.
    split; [split; assumption|].
    cbn [singleSpaced]. split; [|exact IHa].
    intros _. split; [reflexivity|exact IHh].
  - rewrite collapse_other by exact Hc.
    cbn [JS.spanLength]. rewrite Hc. rewrite collapse_other by exact Hc.
    assert (Hs : singleSpaced
                   (c :: JS.replaceAll TextExtraction.matchSpaces [" "%char] l 0)).
    { cbn [singleSpaced]. split; [|exact IHb]. intros Hw. congruence. }
    split; [split; [exact Hs|exact Hc]|exact Hs].
Qed.

Lemma collapseSpaces_singleSpaced (l : list ascii) :
  singleSpaced (TextExtraction.collapseSpaces l).
Proof. exact (proj2 (collapse_inv l)). Qed.

Lemma singleSpaced_ws (l : list ascii) :
  singleSpaced l ->
  Forall (fun c => JS.isWhiteSpace c = true -> c = " "%char) l.
Proof.
  induction l as [|c l IH]; intros H; constructor.
  - intros Hw. now apply (proj1 H).
  - apply IH. exact (proj2 H).
Qed.

Lemma singleSpaced_collapse (l : list ascii) :
  singleSpaced l -> TextExtraction.collapseSpaces l = l.
Proof.
  unfold TextExtraction.collapseSpaces, JS.replace.
  induction l as [|c l IH]; intros H; [reflexivity|].
  destruct H as [Hc Hl].
  destruct (JS.isWhiteSpace c) eqn:Hw.
  - destruct (Hc eq_refl) as [-> Hnext].
    rewrite collapse_ws by exact Hw.
    assert (Hz : JS.spanLength JS.isWhiteSpace l = 0).
    { destruct l as [|d l']; [reflexivity|].
      cbn [JS.spanLength]. now rewrite Hnext. }
    rewrite Hz, IH by exact Hl. reflexivity.
  - rewrite collapse_other by exact Hw. now rewrite IH.
Qed.

Lemma matchBlankLines_head (c : ascii) (l : list ascii) :
  (JS.isWhiteSpace c = true -> c = " "%char) ->
  TextExtraction.matchBlankLines (c :: l) = None.
Proof.
  intros Hc. unfold TextExtraction.matchBlankLines.
  destruct c as [[] [] [] [] [] [] [] []]; try reflexivity.
  specialize (Hc eq_refl). discriminate Hc.
Qed.

(** The rule [/\n\s*\n/g] finds nothing once white space is collapsed. *)
Lemma collapseBlankLines_id (l : list ascii) :
  Forall (fun c => JS.isWhiteSpace c = true -> c = " "%char) l ->
  TextExtraction.collapseBlankLines l = l.
Proof.
  intros H. unfold TextExtraction.collapseBlankLines.
  apply replace_id
    with (P := fun c => JS.isWhiteSpace c = true -> c = " "%char);
    [|exact H].
  intros c l' Hc. now apply matchBlankLines_head.
Qed.

Lemma singleSpaced_trimStartL (l : list ascii) :
  singleSpaced l -> singleSpaced (JS.trimStartL l).
Proof.
  induction l as [|c l IH]; intros H; [exact I|].
  cbn [JS.trimStartL]. destruct (JS.isWhiteSpace c); [|exact H].
  apply IH. exact (proj2 H).
Qed.

Lemma singleSpaced_app_l (a b : list ascii) :
  singleSpaced (a ++ b) -> singleSpaced a.
Proof.
  induction a as [|c a IH]; intros H; [exact I|].
  cbn [app singleSpaced] in *. destruct H as [Hc Hr].
  split; [|now apply IH].
  intros Hw. destruct (Hc Hw) as [E Hnext]. split; [exact E|].
  destruct a as [|d a']; [exact I|exact Hnext].
Qed.

Lemma trimStartL_suffix (l : list ascii) :
  exists p, l = p ++ JS.trimStartL l.
Proof.
  induction l as [|c l [p IH]]; [now exists []|].
  cbn [JS.trimStartL]. destruct (JS.isWhiteSpace c).
  - exists (c :: p). cbn [app]. now rewrite <- IH.
  - now exists [].
Qed.

Lemma trimEndL_prefix (l : list ascii) :
  exists s, l = JS.trimEndL l ++ s.
Proof.
  destruct (trimStartL_suffix (rev l)) as [p Hp].
  exists (rev p). unfold JS.trimEndL.
  rewrite <- rev_app_distr, <- Hp. now rewrite rev_involutive.
Qed.

Lemma singleSpaced_trimEndL (l : list ascii) :
  singleSpaced l -> singleSpaced (JS.trimEndL l).
Proof.
  intros H. destruct (trimEndL_prefix l) as [s Hs].
  rewrite Hs in H. now apply singleSpaced_app_l in H.
Qed.

Lemma removeExcluded_length (tags : list string) (l : list ascii) :
  List.length
    (fold_left (fun text tag =>
                  JS.replace (TextExtraction.matchBlock tag) [" "%char] text)
               tags l)
  <= List.length l.
Proof.
  revert l. induction tags as [|t tags IH]; intros l; [reflexivity|].
  cbn [fold_left]. etransitivity; [apply IH|].
  apply replace_length. reflexivity.
Qed.

Lemma decodeEntities_length (es : list (string * list ascii)) (l : list ascii) :
  Forall (fun e => List.length (snd e) <= 1) es ->
  List.length
    (fold_left (fun text e =>
                  JS.replace (TextExtraction.matchLiteral (fst e)) (snd e) text)
               es l)
  <= List.length l.
Proof.
  intros H. revert l.
  induction H as [|e es He Hes IH]; intros l; [reflexivity|].
  cbn [fold_left]. etransitivity; [apply IH|].
  now apply replace_length.
Qed.

(** The text before truncation: every step up to the trim. *)
Lemma untruncated_length (html : string) :
  List.length
    (JS.trimEndL
       (JS.trimStartL
          (TextExtraction.collapseBlankLines
             (TextExtraction.collapseSpaces
                (TextExtraction.decodeEntities
                   (TextExtraction.removeTags
                      (TextExtraction.removeComments
                         (TextExtraction.removeExcluded
                            (list_ascii_of_string html)))))))))
  <= String.length html.
Proof.
  etransitivity; [apply trimEndL_length|].
  etransitivity; [apply trimStartL_length|].
  rewrite collapseBlankLines_id
    by (apply singleSpaced_ws, collapseSpaces_singleSpaced).
  etransitivity; [apply replace_length; reflexivity|].
  etransitivity;
    [apply decodeEntities_length; unfold TextExtraction.ENTITIES;
     repeat constructor|].
  etransitivity; [apply replace_length; reflexivity|].
  etransitivity; [apply replace_length; reflexivity|].
  etransitivity; [apply removeExcluded_length|].
  now rewrite list_ascii_of_string_length.
Qed.

Lemma extract_unfold (html : string) :
  TextExtraction.extractTextFromHTML html
  = TextExtraction.truncate
      (string_of_list_ascii
         (JS.trimEndL
            (JS.trimStartL
               (TextExtraction.collapseBlankLines
                  (TextExtraction.collapseSpaces
                     (TextExtraction.decodeEntities
                        (TextExtraction.removeTags
                           (TextExtraction.removeComments
                              (TextExtraction.removeExcluded
                                 (list_ascii_of_string html)))))))))).
Proof.
  unfold TextExtraction.extractTextFromHTML, JS.trim.
  now rewrite list_ascii_of_string_of_list_ascii.
Qed.

Lemma truncate_cases (text : string) :
  ((Z.of_nat (String.length text) <= TextExtraction.MAX_CONTENT_LENGTH)%Z
   /\ TextExtraction.truncate text = text)
  \/ ((TextExtraction.MAX_CONTENT_LENGTH < Z.of_nat (String.length text))%Z
      /\ exists kept,
           TextExtraction.truncate text
           = (kept ++ TextExtraction.truncationMarker)%string
           /\ Z.of_nat (String.length kept) = TextExtraction.MAX_CONTENT_LENGTH
           /\ String.prefix kept text = true).
Proof.
  unfold TextExtraction.truncate.
  destruct (Z.ltb_spec TextExtraction.MAX_CONTENT_LENGTH
              (Z.of_nat (String.length text))) as [Hlong|Hshort].
  - right. split; [exact Hlong|].
    exists (JS.substring0 (Z.to_nat TextExtraction.MAX_CONTENT_LENGTH) text).
    split; [reflexivity|]. split.
    + unfold JS.substring0. rewrite substring0_length by lia.
      unfold TextExtraction.MAX_CONTENT_LENGTH. lia.
    + unfold JS.substring0.
      generalize (Z.to_nat TextExtraction.MAX_CONTENT_LENGTH) as n.
      clear Hlong. induction text as [|c text IH]; intros [|n];
        try reflexivity.
      cbn [String.substring String.prefix].
      destruct (ascii_dec c c) as [_|Hn]; [apply IH|now elim Hn].
  - left. split; [exact Hshort|reflexivity].
Qed.

(** X25.  The extracted text has at most 50038 characters: the text kept
    is cut to 50000 characters and followed by the marker of 38 characters
    exactly when it is longer than 50000.  Extraction never adds text: the
    text before truncation is no longer than the page, so the text of a
    page of at most 50000 characters is never truncated and is no longer
    than the page. *)
Theorem extract_length_bound (html : string) :
  (Z.of_nat (String.length (TextExtraction.extractTextFromHTML html))
   <= 50038)%Z
  /\ ((Z.of_nat (String.length html) <= 50000)%Z ->
      String.length (TextExtraction.extractTextFromHTML html)
      <= String.length html)
  /\ ((50000 < Z.of_nat
                 (String.length (TextExtraction.extractTextFromHTML html)))%Z ->
      (50000 < Z.of_nat (String.length html))%Z
      /\ exists kept,
           TextExtraction.extractTextFromHTML html
           = (kept ++ TextExtraction.truncationMarker)%string
           /\ Z.of_nat (String.length kept) = 50000%Z).
Proof.
  rewrite extract_unfold.
  pose proof (untruncated_length html) as Hlen.
  rewrite <- string_of_list_ascii_length in Hlen.
  set (text := string_of_list_ascii _) in *.
  assert (Hm : String.length TextExtraction.truncationMarker = 38)
    by reflexivity.
  destruct (truncate_cases text)
    as [[Hshort E]|[Hlong (kept & E & Hk & _)]];
    rewrite E; unfold TextExtraction.MAX_CONTENT_LENGTH in *.
  - split; [lia|]. split; [lia|]. intros H. lia.
  - rewrite string_length_app, Hm.
    split; [lia|]. split; [lia|]. intros _.
    split; [lia|]. exists kept. split; [reflexivity|exact Hk].
Qed.

(** X26.  A text that comes out of extraction without being truncated, that
    is with at most 50000 characters, is in a normal form for white space:
    its only white space is single spaces, each between two other
    characters, so it has no line break and no tab, and it neither starts
    nor ends with white space.  The paragraph rule of the source, which
    would keep a blank line, therefore never applies to any text. *)
Theorem extract_whitespace_normal_form (html : string)
  (H : (Z.of_nat (String.length (TextExtraction.extractTextFromHTML html))
        <= 50000)%Z) :
  let out := list_ascii_of_string (TextExtraction.extractTextFromHTML html) in
  singleSpaced out
  /\ trimmed out
  /\ (forall c, In c out -> JS.isWhiteSpace c = true -> c = " "%char)
  /\ (forall t, TextExtraction.collapseBlankLines
                  (TextExtraction.collapseSpaces t)
                = TextExtraction.collapseSpaces t).
Proof.
  intros out.
  assert (Hdead : forall t, TextExtraction.collapseBlankLines
                              (TextExtraction.collapseSpaces t)
                            = TextExtraction.collapseSpaces t).
  { intros t. apply collapseBlankLines_id, singleSpaced_ws,
                collapseSpaces_singleSpaced. }
  subst out. revert H. rewrite extract_unfold, Hdead.
  set (l := TextExtraction.collapseSpaces _).
  assert (Hm : String.length TextExtraction.truncationMarker = 38)
    by reflexivity.
  destruct (truncate_cases
              (string_of_list_ascii (JS.trimEndL (JS.trimStartL l))))
    as [[Hshort E]|[Hlong (kept & E & Hk & _)]]; rewrite E.
  - intros _. rewrite list_ascii_of_string_of_list_ascii.
    assert (Hs : singleSpaced (JS.trimEndL (JS.trimStartL l))).
    { apply singleSpaced_trimEndL, singleSpaced_trimStartL.
      apply collapseSpaces_singleSpaced. }
    split; [exact Hs|]. split.
    + split; [apply trimStartL_trimmed|apply trimEndL_idem].
    + split; [|exact Hdead]. intros c Hin.
      apply singleSpaced_ws in Hs. rewrite Forall_forall in Hs. now apply Hs.
  - rewrite string_length_app, Hm.
    unfold TextExtraction.MAX_CONTENT_LENGTH in *. intros H. lia.
Qed.

End Extraction.

Section ExtractionExample.

Import Props.

Lemma extract_whitespace_normal_form_witness :
  TextExtraction.extractTextFromHTML Fixtures.samplePage
  = "Fish & chips Served hot."%string
  /\ singleSpaced
       (list_ascii_of_string
          (TextExtraction.extractTextFromHTML Fixtures.samplePage)).
Proof.
  split; [vm_compute; reflexivity|].
  destruct (extract_whitespace_normal_form Fixtures.samplePage) as (Hs & _).
  - vm_compute. discriminate.
  - exact Hs.
Defined.

End ExtractionExample.

Section PlainText.

Import Props.
Local Open Scope list_scope.

Lemma plain_of_forallb (l : list ascii) :
  forallb (fun c => negb (Ascii.eqb c "<") && negb (Ascii.eqb c "&")) l = true ->
  Forall plain l.
Proof.
  intros H. rewrite forallb_forall in H. apply Forall_forall.
  intros c Hc. specialize (H c Hc). apply andb_true_iff in H.
  destruct H as [H1 H2]. split; now apply negb_true_iff.
Qed.

Lemma forallb_of_plain (l : list ascii) :
  Forall plain l ->
  forallb (fun c => negb (Ascii.eqb c "<") && negb (Ascii.eqb c "&")) l = true.
Proof.
  intros H. apply forallb_forall. rewrite Forall_forall in H.
  intros c Hc. destruct (H c Hc) as [H1 H2]. now rewrite H1, H2.
Qed.

Lemma matchBlock_plain (tag : string) (c : ascii) (l : list ascii) :
  plain c -> TextExtraction.matchBlock tag (c :: l) = None.
Proof.
  intros [H _]. unfold TextExtraction.matchBlock.
  destruct c as [[] [] [] [] [] [] [] []]; try reflexivity.
  vm_compute in H. discriminate H.
Qed.

Lemma matchComment_plain (c : ascii) (l : list ascii) :
  plain c -> TextExtraction.matchComment (c :: l) = None.
Proof.
  intros [H _]. unfold TextExtraction.matchComment.
  cbn [JS.startsWithL]. now rewrite Ascii.eqb_sym, H.
Qed.

Lemma matchTag_plain (c : ascii) (l : list ascii) :
  plain c -> TextExtraction.matchTag (c :: l) = None.
Proof.
  intros [H _]. unfold TextExtraction.matchTag.
  destruct c as [[] [] [] [] [] [] [] []]; try reflexivity.
  vm_compute in H. discriminate H.
Qed.

Lemma matchLiteral_plain (lit : string) (c : ascii) (l : list ascii) :
  plain c -> TextExtraction.matchLiteral (String "&" lit) (c :: l) = None.
Proof.
  intros [_ H]. unfold TextExtraction.matchLiteral.
  cbn [list_ascii_of_string JS.startsWithL]. now rewrite Ascii.eqb_sym, H.
Qed.

Lemma removeExcluded_plain (l : list ascii) :
  Forall plain l -> TextExtraction.removeExcluded l = l.
Proof.
  intros H. unfold TextExtraction.removeExcluded.
  induction TextExtraction.EXCLUDED_TAGS as [|t tags IH]; [reflexivity|].
  cbn [fold_left]. rewrite (replace_id _ _ plain); [exact IH| |exact H].
  intros c l'. apply matchBlock_plain.
Qed.

Lemma decodeEntities_plain (l : list ascii) :
  Forall plain l -> TextExtraction.decodeEntities l = l.
Proof.
  intros H. unfold TextExtraction.decodeEntities, TextExtraction.ENTITIES.
  cbn [fold_left fst snd].
  repeat (rewrite (replace_id _ _ plain l);
          [|intros c l'; apply matchLiteral_plain|exact H]).
  reflexivity.
Qed.

Lemma replaceAll_Forall (P : ascii -> Prop) (matchAt : list ascii -> option nat)
  (rep l : list ascii) (skip : nat) :
  Forall P rep -> Forall P l ->
  Forall P (JS.replaceAll matchAt rep l skip).
Proof.
  intros Hrep Hl. revert skip.
  induction Hl as [|c l Hc Hl IH]; intros skip; [constructor|].
  cbn [JS.replaceAll]. destruct skip as [|k]; [|apply IH].
  destruct (matchAt (c :: l)) as [[|m]|].
  - constructor; [exact Hc|apply IH].
  - apply Forall_app. split; [exact Hrep|apply IH].
  - constructor; [exact Hc|apply IH].
Qed.

Lemma trim_Forall (P : ascii -> Prop) (l : list ascii) :
  Forall P l -> Forall P (JS.trimEndL (JS.trimStartL l)).
Proof.
  intros H.
  destruct (trimStartL_suffix l) as [p Hp].
  destruct (trimEndL_prefix (JS.trimStartL l)) as [s Hs].
  rewrite Hp, Hs in H.
  apply Forall_app in H. destruct H as [_ H].
  apply Forall_app in H. now destruct H as [H _].
Qed.

(** On a text without [<] and [&] only the white space steps act. *)
Lemma extract_plain (text : string) :
  Forall plain (list_ascii_of_string text) ->
  TextExtraction.extractTextFromHTML text
  = TextExtraction.truncate
      (string_of_list_ascii
         (JS.trimEndL
            (JS.trimStartL
               (TextExtraction.collapseSpaces (list_ascii_of_string text))))).
Proof.
  intros H. rewrite extract_unfold.
  rewrite removeExcluded_plain by exact H.
  unfold TextExtraction.removeComments, TextExtraction.removeTags.
  rewrite (replace_id _ _ plain (list_ascii_of_string text));
    [|intros c l'; apply matchComment_plain|exact H].
  rewrite (replace_id _ _ plain (list_ascii_of_string text));
    [|intros c l'; apply matchTag_plain|exact H].
  rewrite decodeEntities_plain by exact H.
  rewrite collapseBlankLines_id
    by (apply singleSpaced_ws, collapseSpaces_singleSpaced).
  reflexivity.
Qed.

Lemma truncate_short (text : string) :
  (Z.of_nat (String.length text) <= 50000)%Z ->
  TextExtraction.truncate text = text.
Proof.
  intros H. unfold TextExtraction.truncate, TextExtraction.MAX_CONTENT_LENGTH.
  destruct (Z.ltb_spec 50000 (Z.of_nat (String.length text))); [lia|reflexivity].
Qed.

(** X27.  A text of at most 50000 characters that has neither [<] nor [&]
    goes through extraction with its characters kept: only its white space
    is normalised.  So a text that is already in normal form (single
    spaces, no white space at either end) comes out unchanged, and
    extracting the extracted text again changes nothing. *)
Theorem extract_plain_text (text : string)
  (Hplain : forallb (fun c => negb (Ascii.eqb c "<") && negb (Ascii.eqb c "&"))
              (list_ascii_of_string text) = true)
  (Hlen : (Z.of_nat (String.length text) <= 50000)%Z) :
  (singleSpaced (list_ascii_of_string text) ->
   trimmed (list_ascii_of_string text) ->
   TextExtraction.extractTextFromHTML text = text)
  /\ TextExtraction.extractTextFromHTML
       (TextExtraction.extractTextFromHTML text)
     = TextExtraction.extractTextFromHTML text
  /\ forallb (fun c => negb (Ascii.eqb c "<") && negb (Ascii.eqb c "&"))
       (list_ascii_of_string (TextExtraction.extractTextFromHTML text)) = true.
Proof.
  apply plain_of_forallb in Hplain.
  assert (Hid : forall t,
             Forall plain (list_ascii_of_string t) ->
             (Z.of_nat (String.length t) <= 50000)%Z ->
             singleSpaced (list_ascii_of_string t) ->
             trimmed (list_ascii_of_string t) ->
             TextExtraction.extractTextFromHTML t = t).
  { intros t Hp Hl Hs [Ht1 Ht2]. rewrite extract_plain by exact Hp.
    rewrite singleSpaced_collapse by exact Hs.
    rewrite Ht1, Ht2, string_of_list_ascii_of_string.
    now apply truncate_short. }
  split; [now apply Hid|].
  pose proof (extract_plain text Hplain) as E.
  set (l := JS.trimEndL
              (JS.trimStartL
                 (TextExtraction.collapseSpaces (list_ascii_of_string text))))
    in *.
  assert (Hl : List.length l <= String.length text).
  { subst l. etransitivity; [apply trimEndL_length|].
    etransitivity; [apply trimStartL_length|].
    etransitivity; [apply replace_length; reflexivity|].
    now rewrite list_ascii_of_string_length. }
  rewrite truncate_short in E
    by (rewrite string_of_list_ascii_length; lia).
  assert (Hpl : Forall plain l).
  { subst l. apply trim_Forall.
    unfold TextExtraction.collapseSpaces, JS.replace.
    apply replaceAll_Forall; [|exact Hplain].
    repeat constructor. }
  rewrite E. split.
  - apply Hid; rewrite ?list_ascii_of_string_of_list_ascii.
    + exact Hpl.
    + rewrite string_of_list_ascii_length. lia.
    + subst l. apply singleSpaced_trimEndL, singleSpaced_trimStartL,
                 collapseSpaces_singleSpaced.
    + subst l. split; [apply trimStartL_trimmed|apply trimEndL_idem].
  - rewrite list_ascii_of_string_of_list_ascii. now apply forallb_of_plain.
Qed.

Lemma extract_plain_text_witness :
  TextExtraction.extractTextFromHTML
    (TextExtraction.extractTextFromHTML "  Fish   and chips ")
  = TextExtraction.extractTextFromHTML "  Fish   and chips ".
Proof.
  destruct (extract_plain_text "  Fish   and chips ") as (_ & H & _).
  - reflexivity.
  - vm_compute. discriminate.
  - exact H.
Defined.

(** The hypothesis on [&] is needed: decoding an entity can make a tag,
    which a second extraction removes. *)
Example extract_twice_differs :
  TextExtraction.extractTextFromHTML "a &lt;b&gt; c" = "a <b> c"%string
  /\ TextExtraction.extractTextFromHTML "a <b> c" = "a c"%string.
Proof. split; vm_compute; reflexivity. Qed.

End PlainText.
